(** * Rossmann preprocessing notebook: a shallow embedding

  The notebook [examples/tabular-data-rossmann/01-Download-Convert.ipynb]
  assembles the Rossmann tables with left joins, derives calendar
  columns, computes per-store event distances ([After<F>]/[Before<F>])
  with forward and backward fills, computes rolling sums per store in
  both time directions, and finally slices a validation set off the
  sorted training table.  On the way it splits the text columns of the
  trend table, fills and clamps the competition and promotion columns
  and derives day, month and week counts from them.

  Data model.  A pandas/cuDF [Series] is a list of cells; a numeric or
  datetime cell that can be missing (NaN, NaT, null) is an [option Z];
  a date is its day number, so that [(a - b).dt.days] is a subtraction
  of day numbers.  A [DataFrame] row is a finite map from column names
  to cells.  A text cell that is only compared for equality, such as a
  state in a join key, is a number that stands for the text; a text
  cell that is split is an [option string]. *)

From Stdlib Require Import ZArith Lia.
From stdpp Require Import base numbers option list sorting strings pretty gmap.

(** ** Calendar columns (the [Week] cell) *)

Module Calendar.
Local Open Scope Z_scope.

(** A [datetime64] value seen through its [.dt.year], [.dt.month] and
    [.dt.day] accessors. *)
Record datetime := mk_datetime { year : Z; month : Z; day : Z }.

Definition is_leap (y : Z) : bool :=
  ((y mod 4 =? 0) && negb (y mod 100 =? 0)) || (y mod 400 =? 0).

Definition days_in_month (leap : bool) (m : Z) : Z :=
  if m =? 2 then (if leap then 29 else 28)
  else if (m =? 4) || (m =? 6) || (m =? 9) || (m =? 11) then 30
  else 31.

(** Days of the year that precede the first day of month [m]. *)
Definition days_before_month (leap : bool) (m : Z) : Z :=
  let feb := if leap then 1 else 0 in
  if m <=? 1 then 0
  else if m =? 2 then 31
  else if m =? 3 then 59 + feb
  else if m =? 4 then 90 + feb
  else if m =? 5 then 120 + feb
  else if m =? 6 then 151 + feb
  else if m =? 7 then 181 + feb
  else if m =? 8 then 212 + feb
  else if m =? 9 then 243 + feb
  else if m =? 10 then 273 + feb
  else if m =? 11 then 304 + feb
  else 334 + feb.

(** Days between 0001-01-01 and the first of January of year [y]
    (proleptic Gregorian calendar). *)
Definition days_before_year (y : Z) : Z :=
  let p := y - 1 in 365 * p + p / 4 - p / 100 + p / 400.

(** Day number of a date; differences of day numbers are what
    [(a - b).dt.days] returns. *)
Definition to_ordinal (d : datetime) : Z :=
  days_before_year (year d)
  + days_before_month (is_leap (year d)) (month d)
  + (day d - 1).

Definition valid_date (d : datetime) : Prop :=
  1 <= month d <= 12 /\
  1 <= day d <= days_in_month (is_leap (year d)) (month d).

(** [df.Date.dt.year.astype(str) + '-01-01'], read back with
    [.astype('datetime64[ns]')]. *)
Definition year_start (d : datetime) : datetime :=
  {| year := year d; month := 1; day := 1 |}.

(** [(df['Date'] - df['Year'].astype('datetime64[ns]')).dt.days] *)
Definition days_since_jan1 (d : datetime) : Z :=
  to_ordinal d - to_ordinal (year_start d).

(** [.astype('int16')] of the true quotient [n / 7]: the fractional
    part is dropped (rounding towards zero) and the integer is reduced
    to sixteen bits, two's complement. *)
Definition wrap_int16 (z : Z) : Z := (z + 32768) mod 65536 - 32768.

Definition div7_astype_int16 (n : Z) : Z := wrap_int16 (Z.quot n 7).

(** [df.Week.where(df['Week'] != 53, 52)] *)
Definition where_not_53 (w : Z) : Z := if negb (w =? 53) then w else 52.

Definition Week (d : datetime) : Z :=
  where_not_53 (div7_astype_int16 (days_since_jan1 d) + 1).

Definition Month (d : datetime) : Z := month d.
Definition Day (d : datetime) : Z := day d.
Definition Year (d : datetime) : Z := year d.

End Calendar.

(** ** Series: the column operations the notebook calls *)

Module Series.

(** A cell of a numeric, boolean or datetime column: [None] is the
    missing value (NaN, NaT, null); a boolean is 0 or 1; a date is its
    day number. *)
Abbreviation cell := (option Z).
Abbreviation Series := (list (option Z)).

(** [a - b] on cells; anything minus a missing value is missing. *)
Definition sub_cell (a b : cell) : cell :=
  match a, b with
  | Some x, Some y => Some (x - y)%Z
  | _, _ => None
  end.

(** [s != 0]: a missing value is different from zero. *)
Definition ne0 (c : cell) : bool :=
  match c with
  | Some z => negb (z =? 0)%Z
  | None => true
  end.

(** [s == 0]: a missing value is not equal to zero. *)
Definition eq0 (c : cell) : bool :=
  match c with
  | Some z => (z =? 0)%Z
  | None => false
  end.

(** How [|] reads a float operand next to a boolean one: a missing value
    counts as [False], any other value by its truth value. *)
Definition fill_bool (c : cell) : bool :=
  match c with
  | Some z => negb (z =? 0)%Z
  | None => false
  end.

Fixpoint diff_from (prev : cell) (s : Series) : Series :=
  match s with
  | [] => []
  | x :: s' => sub_cell x prev :: diff_from x s'
  end.

(** [s.diff()]: the first entry is missing, entry [i] is [s[i] - s[i-1]]. *)
Definition diff (s : Series) : Series :=
  match s with
  | [] => []
  | x :: s' => None :: diff_from x s'
  end.

Fixpoint ffill_from (last : cell) (s : Series) : Series :=
  match s with
  | [] => []
  | x :: s' =>
      let v := match x with Some _ => x | None => last end in
      v :: ffill_from v s'
  end.

(** [s.ffill()]: a missing entry takes the last value seen before it. *)
Definition ffill (s : Series) : Series := ffill_from None s.

(** [s.bfill()]: a missing entry takes the next value seen after it. *)
Fixpoint bfill (s : Series) : Series :=
  match s with
  | [] => []
  | x :: s' =>
      let r := bfill s' in
      match x with
      | Some _ => x :: r
      | None => default None (head r) :: r
      end
  end.

(** [s.loc[mask] = float('nan')] *)
Definition loc_set_nan (mask : list bool) (s : Series) : Series :=
  imap (fun i x => if default false (mask !! i) then None else x) s.

Definition sum_Z (l : list Z) : Z := foldr Z.add 0%Z l.

(** The value of [s.rolling(w, min_periods=mp).sum()] at position [i]:
    the window holds the [w] entries ending at [i] (fewer near the
    start), missing entries are skipped, and the result is missing when
    fewer than [mp] entries are left. *)
Definition window (w : nat) (s : Series) (i : nat) : Series :=
  drop (S i - w) (take (S i) s).

Definition window_sum (w mp : nat) (s : Series) (i : nat) : cell :=
  let obs := omap id (window w s i) in
  if decide (mp <= length obs) then Some (sum_Z obs) else None.

Definition rolling_sum (w mp : nat) (s : Series) : Series :=
  window_sum w mp s <$> seq 0 (length s).

(** Order of a sort key column: ascending or descending on the values,
    missing values last either way ([na_position='last']). *)
Definition cell_le (ascending : bool) (a b : cell) : bool :=
  match a, b with
  | _, None => true
  | None, Some _ => false
  | Some x, Some y => if ascending then (x <=? y)%Z else (y <=? x)%Z
  end.

(** Lexicographic order on the key cells of two rows. *)
Fixpoint key_le (ascending : bool) (k1 k2 : list cell) : bool :=
  match k1, k2 with
  | a :: k1', b :: k2' =>
      if cell_le ascending a b
      then (if cell_le ascending b a then key_le ascending k1' k2' else true)
      else false
  | _, _ => true
  end.

(** Sorting is modelled by a stable insertion sort: rows with equal keys
    keep their relative order. *)
Fixpoint insert_by {A} (le : A -> A -> bool) (x : A) (l : list A) : list A :=
  match l with
  | [] => [x]
  | y :: l' => if le x y then x :: l else y :: insert_by le x l'
  end.

Definition sort_by {A} (le : A -> A -> bool) (l : list A) : list A :=
  foldr (insert_by le) [] l.

(** Python's slice bound: a negative bound counts from the end, and the
    result is clamped to the sequence. *)
Definition slice_bound (len : nat) (i : Z) : nat :=
  if (i <? 0)%Z then Z.to_nat (Z.of_nat len + i) else Nat.min (Z.to_nat i) len.

(** [l[i:]] and [l[:i]] *)
Definition slice_from {A} (i : Z) (l : list A) : list A :=
  drop (slice_bound (length l) i) l.

Definition slice_to {A} (i : Z) (l : list A) : list A :=
  take (slice_bound (length l) i) l.

End Series.

(** ** DataFrames *)

Module Frame.
Import Series.

(** The exceptions the modelled calls can raise: a column that is not in
    the frame, a length or arity mismatch, and arithmetic on a missing
    scalar. *)
Inductive exn :=
| KeyError (c : string)
| ValueError
| TypeError.

Inductive outcome (A : Type) :=
| Done (a : A)
| Raised (e : exn).
Arguments Done {A} a.
Arguments Raised {A} e.

#[global] Instance outcome_ret : MRet outcome := fun A a => Done a.
#[global] Instance outcome_bind : MBind outcome :=
  fun A B f m => match m with Done a => f a | Raised e => Raised e end.

(** A frame: its column names in order, and its rows in order.  The
    index is positional; a named index ([set_index("Date")]) is kept as
    the column of that name. *)
Record DataFrame := mk_df {
  columns : list string;
  rows : list (gmap string cell)
}.

Definition cell_of (c : string) (r : gmap string cell) : cell :=
  default None (r !! c).

(** [len(df)] *)
Definition len (df : DataFrame) : nat := length (rows df).

(** [df[c]], [df.c] *)
Definition getitem (c : string) (df : DataFrame) : outcome Series :=
  if decide (c ∈ columns df) then Done (cell_of c <$> rows df)
  else Raised (KeyError c).

(** [df[c] = s], the column added at the end when it is new *)
Definition setitem (c : string) (s : Series) (df : DataFrame) : DataFrame :=
  {| columns := if decide (c ∈ columns df) then columns df
                else columns df ++ [c];
     rows := imap (fun i r => <[c := default None (s !! i)]> r) (rows df) |}.

(** [df.drop(columns=[c])] *)
Definition drop_column (c : string) (df : DataFrame) : outcome DataFrame :=
  if decide (c ∈ columns df)
  then Done {| columns := filter (fun c' => c' ≠ c) (columns df);
               rows := delete c <$> rows df |}
  else Raised (KeyError c).

Fixpoint check_columns (cs : list string) (df : DataFrame) : outcome unit :=
  match cs with
  | [] => Done ()
  | c :: cs' =>
      if decide (c ∈ columns df) then check_columns cs' df
      else Raised (KeyError c)
  end.

Definition key_of (on : list string) (r : gmap string cell) : list cell :=
  (fun c => cell_of c r) <$> on.

(** [df.sort_values(by=keys, ascending=...)] *)
Definition sort_values (keys : list string) (ascending : bool)
    (df : DataFrame) : outcome DataFrame :=
  _ ← check_columns keys df;
  Done {| columns := columns df;
          rows := sort_by (fun r1 r2 =>
                    key_le ascending (key_of keys r1) (key_of keys r2))
                    (rows df) |}.

Definition reindex_row (cols : list string) (r : gmap string cell)
    : gmap string cell :=
  list_to_map ((fun c => (c, cell_of c r)) <$> cols).

(** [df.append(other, ignore_index=True)]: the columns of both frames,
    missing where a frame lacks the column. *)
Definition append (df other : DataFrame) : DataFrame :=
  let cols := columns df ++ filter (fun c => c ∉ columns df) (columns other) in
  {| columns := cols;
     rows := (reindex_row cols <$> rows df)
             ++ (reindex_row cols <$> rows other) |}.

(** [df[mask]] *)
Definition select_rows (mask : list bool) (df : DataFrame) : DataFrame :=
  {| columns := columns df;
     rows := omap id (imap (fun i r =>
               if default false (mask !! i) then Some r else None) (rows df)) |}.

(** [df[i:]] and [df[:i]] on rows *)
Definition rows_from (i : Z) (df : DataFrame) : DataFrame :=
  {| columns := columns df; rows := slice_from i (rows df) |}.

Definition rows_to (i : Z) (df : DataFrame) : DataFrame :=
  {| columns := columns df; rows := slice_to i (rows df) |}.

(** *** Left join *)

(** Name of the right column [c] in the result: a key column with the
    same name on both sides is not repeated, a name the left frame also
    has takes the suffix (the left suffix is empty). *)
Definition right_name (lcols left_on right_on : list string) (sfx : string)
    (c : string) : option string :=
  if decide ((c, c) ∈ zip left_on right_on) then None
  else if decide (c ∈ lcols) then Some (c +:+ sfx)
  else Some c.

Definition right_part (lcols rcols left_on right_on : list string)
    (sfx : string) (r : option (gmap string cell)) : list (string * cell) :=
  omap (fun c =>
          (fun c' => (c', from_option (cell_of c) None r))
            <$> right_name lcols left_on right_on sfx c) rcols.

(** The left row extended with the (renamed) cells of a matching right
    row, or with missing cells when there is no match. *)
Definition joined_row (lcols rcols left_on right_on : list string)
    (sfx : string) (l : gmap string cell) (r : option (gmap string cell))
    : gmap string cell :=
  l ∪ list_to_map (right_part lcols rcols left_on right_on sfx r).

Definition matches (left_on right_on : list string)
    (l : gmap string cell) (right : list (gmap string cell))
    : list (gmap string cell) :=
  filter (fun r => key_of right_on r = key_of left_on l) right.

(** Output rows that one left row gives. *)
Definition join_rows_of (lcols rcols left_on right_on : list string)
    (sfx : string) (right : list (gmap string cell))
    (l : gmap string cell) : list (gmap string cell) :=
  match matches left_on right_on l right with
  | [] => [joined_row lcols rcols left_on right_on sfx l None]
  | ms => (fun r => joined_row lcols rcols left_on right_on sfx l (Some r))
            <$> ms
  end.

(** [df.merge(right, how='left', left_on=.., right_on=.., suffixes=('', sfx))].
    Rows come out in the order of the left frame, the matches of one
    left row in the order of the right frame; equal keys match, missing
    key cells included. *)
Definition merge_left (df right : DataFrame) (left_on right_on : list string)
    (sfx : string) : outcome DataFrame :=
  _ ← check_columns left_on df;
  _ ← check_columns right_on right;
  if decide (length left_on = length right_on) then
    let lcols := columns df in
    let rcols := columns right in
    Done {| columns :=
              lcols ++ filter (fun c => c ∉ lcols)
                         (omap (right_name lcols left_on right_on sfx) rcols);
            rows := rows df ≫=
                      join_rows_of lcols rcols left_on right_on sfx
                        (rows right) |}
  else Raised ValueError.

(** [c.endswith(sfx)] *)
Definition endswith (sfx c : string) : bool :=
  bool_decide
    (String.substring (String.length c - String.length sfx) (String.length sfx) c = sfx
     ∧ String.length sfx <= String.length c).

End Frame.

(** ** The cells of the notebook *)

Module Notebook.
Import Series Frame.

(** *** [merge] and [drop_cols] *)

(** [right_on or left_on]: [None] and the empty list are both false. *)
Definition or_keys (right_on : option (list string)) (left_on : list string)
    : list string :=
  match right_on with
  | Some (c :: cs) => c :: cs
  | _ => left_on
  end.

(** [suffix or '_y'] *)
Definition or_suffix (suffix : option string) : string :=
  match suffix with
  | Some (String a s) => String a s
  | _ => "_y"
  end.

Definition merge (df right : DataFrame) (left_on : list string)
    (right_on : option (list string)) (suffix : option string)
    : outcome DataFrame :=
  merge_left df right left_on (or_keys right_on left_on) (or_suffix suffix).

(** The loop runs over the columns the frame has when it starts; the
    inner test skips a column that is already gone. *)
Definition drop_cols (gdf : DataFrame) : DataFrame :=
  foldl (fun gdf c =>
           if endswith "_y" c then
             match drop_column c gdf with
             | Done gdf' => gdf'
             | Raised _ => gdf
             end
           else gdf)
        gdf (columns gdf).

(** *** Event distances *)

Definition event_fields : list string :=
  ["SchoolHoliday"; "StateHoliday"; "Promo"].

(** [pdf.Store.diff() != 0] *)
Definition first_indices (Store : Series) : list bool :=
  ne0 <$> diff Store.

(** [pdf.Store.diff().iloc[1:].append(pd.Series([1]))] *)
Definition last_indices (Store : Series) : Series :=
  tail (diff Store) ++ [Some 1%Z].

(** [~(first_indices | last_indices)] *)
Definition idx_mask (Store : Series) : list bool :=
  zip_with (fun a b => negb (a || fill_bool b))
    (first_indices Store) (last_indices Store).

(** The column [tmp] after
    [pdf['tmp'] = pdf.Date] and
    [pdf.loc[(pdf[field] == 0) & idx_mask, 'tmp'] = float('nan')]. *)
Definition tmp_column (mask : list bool) (Date field : Series) : Series :=
  loc_set_nan (zip_with andb (eq0 <$> field) mask) Date.

(** [(pdf['Date'] - pdf.tmp.ffill()).astype('timedelta64[D]')]: dates
    are day numbers, so the difference already counts days. *)
Definition After (mask : list bool) (Date field : Series) : Series :=
  zip_with sub_cell Date (ffill (tmp_column mask Date field)).

(** [(pdf.tmp.bfill() - pdf['Date']).astype('timedelta64[D]')] *)
Definition Before (mask : list bool) (Date field : Series) : Series :=
  zip_with sub_cell (bfill (tmp_column mask Date field)) Date.

(** One turn of the loop over [event_fields]. *)
Definition elapsed_field (mask : list bool) (pdf : DataFrame)
    (field : string) : outcome DataFrame :=
  Date ← getitem "Date" pdf;
  fld ← getitem field pdf;
  let pdf := setitem "tmp" (tmp_column mask Date fld) pdf in
  let pdf := setitem ("After" +:+ field) (After mask Date fld) pdf in
  let pdf := setitem ("Before" +:+ field) (Before mask Date fld) pdf in
  Done pdf.

Fixpoint for_fields (body : DataFrame -> string -> outcome DataFrame)
    (fields : list string) (pdf : DataFrame) : outcome DataFrame :=
  match fields with
  | [] => Done pdf
  | f :: fields' => pdf' ← body pdf f; for_fields body fields' pdf'
  end.

(** The whole cell, on the frame sorted by [Store] and [Date].  Setting
    [last_indices.index] to an index of another length raises. *)
Definition get_elapsed (pdf : DataFrame) : outcome DataFrame :=
  Store ← getitem "Store" pdf;
  if decide (length (last_indices Store) = length (first_indices Store)) then
    pdf ← for_fields (elapsed_field (idx_mask Store)) event_fields pdf;
    drop_column "tmp" pdf
  else Raised ValueError.

(** [df.sort_values(by=['Store', 'Date'])] followed by the cell above. *)
Definition event_distance (df : DataFrame) : outcome DataFrame :=
  pdf ← sort_values ["Store"; "Date"] true df;
  get_elapsed pdf.

(** *** Rolling sums *)

(** [df.sort_index(ascending=...)] with [Date] as the index *)
Definition sort_index (ascending : bool) (df : DataFrame) : outcome DataFrame :=
  sort_values ["Date"] ascending df.

(** Keys of [groupby("Store")]: the distinct values, missing ones
    dropped, in ascending order. *)
Definition group_keys (Store : Series) : list Z :=
  sort_by Z.leb (remove_dups (omap id Store)).

Definition group_rows (k : Z) (rs : list (gmap string cell))
    : list (gmap string cell) :=
  filter (fun r => cell_of "Store" r = Some k) rs.

(** [rolling(7, min_periods=1).sum()] on the rows of one group, in the
    order they have in the frame; the result keeps the group key and the
    index. *)
Definition rolling_group (fields : list string) (g : list (gmap string cell))
    : list (gmap string cell) :=
  imap (fun i r =>
          list_to_map
            (("Store", cell_of "Store" r) :: ("Date", cell_of "Date" r)
             :: ((fun f =>
                    (f, default None
                          (rolling_sum 7 1 ((cell_of f) <$> g) !! i)))
                   <$> fields)))
       g.

(** [df[['Store']+event_fields].groupby("Store").rolling(7, min_periods=1).sum()],
    then [drop('Store', 1)] and [reset_index()]. *)
Definition groupby_rolling (df : DataFrame) : outcome DataFrame :=
  _ ← check_columns ("Store" :: event_fields) df;
  Done {| columns := "Store" :: "Date" :: event_fields;
          rows := group_keys (cell_of "Store" <$> rows df) ≫=
                    (fun k => rolling_group event_fields
                                (group_rows k (rows df))) |}.

Definition bwd (df : DataFrame) : outcome DataFrame :=
  sorted ← sort_index true df; groupby_rolling sorted.

Definition fwd (df : DataFrame) : outcome DataFrame :=
  sorted ← sort_index false df; groupby_rolling sorted.

(** The two merges that attach the sums to [df]. *)
Definition rolling_cells (df : DataFrame) : outcome DataFrame :=
  b ← bwd df;
  f ← fwd df;
  df ← merge_left df b ["Date"; "Store"] ["Date"; "Store"] "_bw";
  merge_left df f ["Date"; "Store"] ["Date"; "Store"] "_fw".

(** *** From the appended frame to the feature columns on both tables *)

(** [df = train_df.append(test_df, ignore_index=True)], the two
    feature computations on [df], and the merges of [df] back onto
    [train_df] and [test_df].  The cells in between drop four scratch
    columns and cast [SchoolHoliday] to [int32]; they leave the keys and
    the indicator values as they are and are not repeated here. *)
Definition add_features (train_df test_df : DataFrame)
    : outcome (DataFrame * DataFrame) :=
  let df := append train_df test_df in
  df ← event_distance df;
  df ← rolling_cells df;
  train_df ← merge train_df df ["Store"; "Date"] (Some ["Store"; "Date"]) None;
  test_df ← merge test_df df ["Store"; "Date"] (Some ["Store"; "Date"]) None;
  Done (drop_cols train_df, drop_cols test_df).

(** *** Validation split *)

(** [train_df[train_df.Sales != 0]], sorted by [Date]. *)
Definition sort_train (train_df : DataFrame) : outcome DataFrame :=
  Sales ← getitem "Sales" train_df;
  sort_values ["Date"] true (select_rows (ne0 <$> Sales) train_df).

(** [s == d] on a date column: a missing value equals nothing. *)
Definition eq_cell (a b : cell) : bool :=
  match a, b with
  | Some x, Some y => (x =? y)%Z
  | _, _ => false
  end.

(** [train_df['Date'][(train_df['Date'] == train_df['Date'][len(test_df)])].index.max()]:
    the last position that holds the date found at position
    [len(test_df)]; missing when no position does. *)
Definition cut (train_df test_df : DataFrame) : outcome cell :=
  Date ← getitem "Date" train_df;
  match Date !! len test_df with
  | None => Raised (KeyError "Date")
  | Some d =>
      Done (last (omap id (imap (fun i x =>
              if eq_cell x d then Some (Z.of_nat i) else None) Date)))
  end.

(** [valid_df = train_df[-num_valid:]] and [train_df = train_df[:-num_valid]] *)
Definition split (num_valid : Z) (train_df : DataFrame)
    : DataFrame * DataFrame :=
  let valid_df := rows_from (- num_valid) train_df in
  let train_df := rows_to (- num_valid) train_df in
  (train_df, valid_df).

Definition split_cell (train_df test_df : DataFrame)
    : outcome (DataFrame * DataFrame) :=
  c ← cut train_df test_df;
  match c with
  | Some num_valid => Done (split num_valid train_df)
  | None => Raised TypeError
  end.

End Notebook.

(** ** Assembling the tables *)

Module Tables.
Import Series Frame Notebook.

(** The tables read from the CSV files, after the calendar columns have
    been added.  The joins only compare key cells for equality, so a
    text cell ([State], [file], [StateName]) stands here as a number that
    identifies the text. *)
Record tables := mk_tables {
  train : DataFrame;
  test : DataFrame;
  store : DataFrame;
  store_states : DataFrame;
  state_names : DataFrame;
  googletrend : DataFrame;
  trend_de : DataFrame;
  weather : DataFrame
}.

(** The cells from [weather = merge(weather, state_names, 'file',
    right_on='StateName')] to the last [drop_cols], in the order the
    notebook runs them. *)
Definition join_tables (t : tables) : outcome (DataFrame * DataFrame) :=
  weather ← merge (weather t) (state_names t) ["file"] (Some ["StateName"]) None;
  store ← merge (store t) (store_states t) ["Store"] None None;
  train_df ← merge (train t) store ["Store"] None None;
  test_df ← merge (test t) store ["Store"] None None;
  train_df ← merge train_df (googletrend t) ["State"; "Year"; "Week"] None None;
  test_df ← merge test_df (googletrend t) ["State"; "Year"; "Week"] None None;
  train_df ← merge train_df (trend_de t) ["Year"; "Week"]
               (Some ["Year"; "Week"]) (Some "_DE");
  test_df ← merge test_df (trend_de t) ["Year"; "Week"]
              (Some ["Year"; "Week"]) (Some "_DE");
  let train_df := drop_cols train_df in
  train_df ← merge train_df weather ["State"; "Date"]
               (Some ["State"; "Date"]) (Some "_y");
  let test_df := drop_cols test_df in
  test_df ← merge test_df weather ["State"; "Date"]
              (Some ["State"; "Date"]) None;
  Done (drop_cols train_df, drop_cols test_df).

End Tables.

(** ** Competition and promotion features *)

Module Features.
Import Calendar Series Frame Notebook.
Local Open Scope Z_scope.

(** [s.fillna(v)] *)
Definition fillna (v : Z) (s : Series) : Series :=
  (fun c => Some (default v c)) <$> s.

(** [s.astype('int32')]: a missing value stays missing, an integral
    value is reduced to thirty-two bits, two's complement. *)
Definition wrap_int32 (z : Z) : Z := (z + 2 ^ 31) mod 2 ^ 32 - 2 ^ 31.

Definition astype_int32 (s : Series) : Series :=
  (fun c : cell => wrap_int32 <$> c) <$> s.

(** [s < k] and [s > k] as masks: a comparison with a missing value
    selects nothing. *)
Definition lt_mask (k : Z) (s : Series) : list bool :=
  (fun c => match c with Some x => x <? k | None => false end) <$> s.

Definition gt_mask (k : Z) (s : Series) : list bool :=
  (fun c => match c with Some x => k <? x | None => false end) <$> s.

(** [s.loc[mask] = v] *)
Definition loc_set (mask : list bool) (v : Z) (s : Series) : Series :=
  imap (fun i x => if default false (mask !! i) then Some v else x) s.

(** [s // k] for a positive [k]: the quotient rounded down. *)
Definition floordiv (k : Z) (s : Series) : Series :=
  (fun c : cell => (fun x => x / k) <$> c) <$> s.

(** [cudf.to_datetime(df[["year", "month", "day"]])] as day numbers. *)
Definition to_datetime_ymd (y m d : cell) : cell :=
  match y, m, d with
  | Some y, Some m, Some d => Some (to_ordinal (mk_datetime y m d))
  | _, _, _ => None
  end.

Fixpoint zip3_with {A B C D} (f : A -> B -> C -> D)
    (l1 : list A) (l2 : list B) (l3 : list C) : list D :=
  match l1, l2, l3 with
  | a :: l1', b :: l2', c :: l3' => f a b c :: zip3_with f l1' l2' l3'
  | _, _, _ => []
  end.

(** [df[dst] = f(df[src])] *)
Definition assign (dst src : string) (f : Series -> Series) (df : DataFrame)
    : outcome DataFrame :=
  s ← getitem src df;
  Done (setitem dst (f s) df).

(** [df.loc[mask(df[src]), dst] = v] *)
Definition loc_assign (src : string) (mask : Series -> list bool)
    (dst : string) (v : Z) (df : DataFrame) : outcome DataFrame :=
  s ← getitem src df;
  d ← getitem dst df;
  Done (setitem dst (loc_set (mask s) v d) df).

(** The four [fillna(..).astype('int32')] lines. *)
Definition fill_since (df : DataFrame) : outcome DataFrame :=
  df ← assign "CompetitionOpenSinceYear" "CompetitionOpenSinceYear"
         (fun s => astype_int32 (fillna 1900 s)) df;
  df ← assign "CompetitionOpenSinceMonth" "CompetitionOpenSinceMonth"
         (fun s => astype_int32 (fillna 1 s)) df;
  df ← assign "Promo2SinceYear" "Promo2SinceYear"
         (fun s => astype_int32 (fillna 1900 s)) df;
  assign "Promo2SinceWeek" "Promo2SinceWeek"
    (fun s => astype_int32 (fillna 1 s)) df.

(** [df['year'] = ..., df['month'] = ..., df['day'] = '15'], the date
    assembled from them and the days between it and [Date]. *)
Definition competition_days_open (df : DataFrame) : outcome DataFrame :=
  df ← assign "year" "CompetitionOpenSinceYear" id df;
  df ← assign "month" "CompetitionOpenSinceMonth" id df;
  let df := setitem "day" (replicate (len df) (Some 15)) df in
  y ← getitem "year" df;
  m ← getitem "month" df;
  d ← getitem "day" df;
  let df := setitem "CompetitionOpenSince" (zip3_with to_datetime_ymd y m d) df in
  Date ← getitem "Date" df;
  since ← getitem "CompetitionOpenSince" df;
  Done (setitem "CompetitionDaysOpen" (zip_with sub_cell Date since) df).

(** [df.loc[df.CompetitionDaysOpen<0, "CompetitionDaysOpen"] = 0] and
    [df.loc[df.CompetitionOpenSinceYear<1990, "CompetitionDaysOpen"] = 0] *)
Definition clamp_competition_days (df : DataFrame) : outcome DataFrame :=
  df ← loc_assign "CompetitionDaysOpen" (lt_mask 0) "CompetitionDaysOpen" 0 df;
  loc_assign "CompetitionOpenSinceYear" (lt_mask 1990) "CompetitionDaysOpen" 0 df.

(** [df["CompetitionMonthsOpen"] = df["CompetitionDaysOpen"]//30] and
    [df.loc[df.CompetitionMonthsOpen>24, "CompetitionMonthsOpen"] = 24] *)
Definition competition_months_open (df : DataFrame) : outcome DataFrame :=
  df ← assign "CompetitionMonthsOpen" "CompetitionDaysOpen" (floordiv 30) df;
  loc_assign "CompetitionMonthsOpen" (gt_mask 24) "CompetitionMonthsOpen" 24 df.

(** *** Timestamps

    [Promo2Since] is computed on the integers behind the timestamps: a
    [datetime64[ns]] is a signed 64-bit count of nanoseconds since
    1970-01-01, and the arithmetic on these counts wraps around. *)

Definition wrap_int64 (z : Z) : Z := (z + 2 ^ 63) mod 2 ^ 64 - 2 ^ 63.

Definition epoch : Z := to_ordinal (mk_datetime 1970 1 1).

Definition ns_per_day : Z := 86400 * 10 ^ 9.

(** The nanosecond count of midnight of a day number. *)
Definition ns_of_date (d : Z) : Z := wrap_int64 ((d - epoch) * ns_per_day).

(** [cudf.to_datetime(year + '-01-01', format='%Y').astype('int64')] *)
Definition jan1_ns (y : Z) : Z :=
  ns_of_date (to_ordinal (mk_datetime y 1 1)).

(** [dt = .. // 10**9], [dt += 7*24*3600*week], [dt*10**9] *)
Definition promo2_since_ns (y w : cell) : cell :=
  match y, w with
  | Some y, Some w =>
      let dt := jan1_ns y / 10 ^ 9 in
      let dt := wrap_int64 (dt + wrap_int64 (7 * 24 * 3600 * w)) in
      Some (wrap_int64 (dt * 10 ^ 9))
  | _, _ => None
  end.

(** [(df['Date'] - df["Promo2Since"]).dt.days]: the difference of the
    two counts, in whole days rounded down. *)
Definition days_since_ns (date since : cell) : cell :=
  match date, since with
  | Some d, Some s => Some (wrap_int64 (ns_of_date d - s) / ns_per_day)
  | _, _ => None
  end.

(** The cell that computes [Promo2Since] and [Promo2Days].  The text
    column [Promo2SinceYear_tmp] holds the year followed by ['-01-01'];
    it is kept as the year it spells.  The column [Promo2Since] holds
    nanosecond counts. *)
Definition promo2_days (df : DataFrame) : outcome DataFrame :=
  df ← assign "Promo2SinceYear_tmp" "Promo2SinceYear" id df;
  tmp ← getitem "Promo2SinceYear_tmp" df;
  w ← getitem "Promo2SinceWeek" df;
  let df := setitem "Promo2Since" (zip_with promo2_since_ns tmp w) df in
  Date ← getitem "Date" df;
  since ← getitem "Promo2Since" df;
  Done (setitem "Promo2Days" (zip_with days_since_ns Date since) df).

(** The cell that clamps [Promo2Days] and derives [Promo2Weeks]. *)
Definition promo2_weeks (df : DataFrame) : outcome DataFrame :=
  df ← loc_assign "Promo2Days" (lt_mask 0) "Promo2Days" 0 df;
  df ← loc_assign "Promo2SinceYear" (lt_mask 1990) "Promo2Days" 0 df;
  df ← assign "Promo2Weeks" "Promo2Days" (floordiv 7) df;
  df ← loc_assign "Promo2Weeks" (lt_mask 0) "Promo2Weeks" 0 df;
  loc_assign "Promo2Weeks" (gt_mask 25) "Promo2Weeks" 25 df.

(** The feature cells in the order the notebook runs them on a table. *)
Definition derived_features (df : DataFrame) : outcome DataFrame :=
  df ← fill_since df;
  df ← competition_days_open df;
  df ← clamp_competition_days df;
  df ← competition_months_open df;
  df ← promo2_days df;
  promo2_weeks df.

End Features.

(** ** Text columns: [str.split] (the [googletrend] cell) *)

Module Text.
Import Stdlib.Strings.Ascii Frame.

(** A column of text; [None] is a null. *)
Abbreviation TextSeries := (list (option string)).

(** [s.split(sep)] for a separator that is not empty, taken literally as
    cuDF does: the text is scanned from the left, [acc] holds the piece
    being read, and each occurrence of [sep] closes it; [skip] counts
    the characters of an occurrence still to pass over, so occurrences
    do not overlap. *)
Fixpoint split_from (sep : string) (skip : nat) (acc s : string) : list string :=
  match s with
  | EmptyString => [acc]
  | String c s' =>
      match skip with
      | S n => split_from sep n acc s'
      | O =>
          if String.prefix sep s
          then acc :: split_from sep (String.length sep - 1) "" s'
          else split_from sep 0 (acc +:+ String c "") s'
      end
  end.

Definition str_split (sep s : string) : list string := split_from sep 0 "" s.

(** [col.str.split(sep, expand=True)[k]].  The frame of the pieces has
    as many columns, labelled from 0, as the longest row has pieces; a
    row with fewer pieces has nulls in the others, and a null row has
    nulls throughout.  Taking a column the frame does not have raises
    [KeyError]. *)
Definition split_expand (sep : string) (k : nat) (col : TextSeries)
  : outcome TextSeries :=
  let pieces := (fun c : option string => str_split sep <$> c) <$> col in
  if decide (k < max_list_with (from_option length 0) pieces)
  then Done ((fun p : option (list string) => p ≫= (fun l => l !! k)) <$> pieces)
  else Raised (KeyError (pretty k)).


(** [googletrend.file.str.split('_', expand=True)[2]] *)
Definition trend_state (file : TextSeries) : outcome TextSeries :=
  split_expand "_" 2 file.

(** The text after the first [n] characters. *)
Fixpoint string_drop (n : nat) (s : string) : string :=
  match n, s with
  | O, _ => s
  | S n, String _ s' => string_drop n s'
  | S _, EmptyString => EmptyString
  end.

(** The text has no character [c]. *)
Fixpoint free_of (c : ascii) (s : string) : Prop :=
  match s with
  | EmptyString => True
  | String x s' => x ≠ c /\ free_of c s'
  end.

End Text.

(** ** Vocabulary of the statements *)

Module Vocabulary.
Import Series Frame Notebook.

(** The relation a boolean comparison decides. *)
Definition leR {A} (le : A -> A -> bool) : relation A :=
  fun x y => le x y = true.

(** The comparison [sort_values] sorts the rows with. *)
Definition row_le (asc : bool) (keys : list string)
    (r1 r2 : gmap string cell) : bool :=
  key_le asc (key_of keys r1) (key_of keys r2).

(** Row [i] starts a group: it is the first row of the frame or the
    store of the row before it is another one. *)
Definition is_first (st : list Z) (i : nat) : Prop :=
  match i with
  | 0 => True
  | S j => st !! j ≠ st !! i
  end.

(** Row [i] ends a group: it is the last row of the frame or the store
    of the row after it is another one. *)
Definition is_last (st : list Z) (i : nat) : Prop :=
  S i = length st \/ st !! (S i) ≠ st !! i.

(** Row [i] is an anchor of the indicator [f]: its date is kept in
    [tmp]. *)
Definition anchor (st f : list Z) (i : nat) : Prop :=
  f !! i ≠ Some 0%Z \/ is_first st i \/ is_last st i.

#[global] Instance is_first_dec st i : Decision (is_first st i).
Proof. destruct i; apply _. Defined.

#[global] Instance anchor_dec st f i : Decision (anchor st f i).
Proof. unfold anchor, is_last. apply _. Defined.

(** Rows [a..b] are one whole group. *)
Definition group_span (st : list Z) (a b : nat) : Prop :=
  a <= b < length st
  /\ (forall k, a <= k <= b -> st !! k = st !! a)
  /\ is_first st a /\ is_last st b.

(** Rows that follow each other in one store are in date order, as they
    are after [sort_values(by=['Store', 'Date'])]. *)
Definition dates_ascend_in_store (st dt : list Z) : Prop :=
  forall k s d d',
    st !! k = Some s -> st !! (S k) = Some s ->
    dt !! k = Some d -> dt !! (S k) = Some d' -> (d <= d')%Z.

(** The three columns the event-distance cell reads, free of missing
    values. *)
Definition present (l : list Z) : Series := Some <$> l.

(** A cell of an indicator column: 0 or 1. *)
Definition indicator_cell (c : cell) : Prop :=
  c = Some 0%Z \/ c = Some 1%Z.


(** Every indicator cell of the frame is 0 or 1. *)
Definition indicator_frame (df : DataFrame) : Prop :=
  forall r f, r ∈ rows df -> f ∈ event_fields -> indicator_cell (cell_of f r).

(** The columns the event-distance cell reads. *)
Definition source_columns : list string := "Store" :: "Date" :: event_fields.

(** The cells of column [c], whether or not the frame lists it. *)
Definition column (c : string) (df : DataFrame) : Series :=
  cell_of c <$> rows df.

(** The frame [pdf] is the frame [pdf0] with the event-distance columns
    of the indicators [fs] added: the source columns are those of
    [pdf0], and the two columns of each indicator are what [After] and
    [Before] give on the columns of [pdf0]. *)
Definition carries (mask : list bool) (fs : list string)
    (pdf0 pdf : DataFrame) : Prop :=
  source_columns ⊆ columns pdf
  /\ (forall c, c ∈ source_columns -> column c pdf = column c pdf0)
  /\ (forall f, f ∈ fs ->
        column ("After" +:+ f) pdf
        = After mask (column "Date" pdf0) (column f pdf0)
        /\ column ("Before" +:+ f) pdf
           = Before mask (column "Date" pdf0) (column f pdf0)).

(** *** Three sentences of the specification, as it words them *)

(** A join has at least as many rows as its left frame, and exactly as
    many if and only if the keys of the right frame are pairwise
    different. *)
Definition cardinality_as_claimed (left right : DataFrame)
    (k : list string) : Prop :=
  forall out,
    merge left right k None None = Done out ->
    len left <= len out
    /\ (len out = len left <-> NoDup (key_of k <$> rows right)).

(** A date is kept in [tmp] only at a row where the indicator is not
    zero. *)
Definition anchors_are_events (Store Date fld : Series) : Prop :=
  forall i d,
    tmp_column (idx_mask Store) Date fld !! i = Some (Some d) ->
    exists v, fld !! i = Some (Some v) /\ v ≠ 0%Z.

(** In a group where the indicator is zero on every row, both distances
    are missing on every row. *)
Definition no_event_group_all_missing (st dt f : list Z) : Prop :=
  forall a b,
    group_span st a b ->
    (forall k, a <= k <= b -> f !! k = Some 0%Z) ->
    forall i, a <= i <= b ->
      After (idx_mask (present st)) (present dt) (present f) !! i = Some None
      /\ Before (idx_mask (present st)) (present dt) (present f) !! i
         = Some None.

(** A frame has a missing group key or time key. *)
Definition has_missing_key (df : DataFrame) : Prop :=
  exists r, r ∈ rows df
            /\ (cell_of "Store" r = None \/ cell_of "Date" r = None).

End Vocabulary.

(** ** Sample frames *)

Module Samples.
Import Series Frame Notebook Vocabulary.

(** *** Joins *)

Definition one_row (k v : Z) : gmap string cell :=
  {[ "Store" := Some k; "State" := Some v ]}.

Definition left_frame : DataFrame :=
  mk_df ["Store"; "State"] [one_row 1 10].

(** Two right rows with the same key. *)
Definition right_frame : DataFrame :=
  mk_df ["Store"; "State"] [one_row 2 20; one_row 2 21].

Definition fan_left : DataFrame :=
  mk_df ["Store"; "State"] [one_row 2 10; one_row 3 11].

(** *** Validation split *)

Definition sale (store date sales : Z) : gmap string cell :=
  {[ "Store" := Some store; "Date" := Some date; "Sales" := Some sales ]}.

Definition two_days : DataFrame :=
  mk_df ["Store"; "Date"; "Sales"] [sale 1 1 5; sale 1 2 7].

Definition no_test_rows : DataFrame :=
  mk_df ["Store"; "Date"] [].

(** *** Event distances *)

(** A missing date on one row, a missing store on the other. *)
Definition missing_date_frame : DataFrame :=
  mk_df source_columns
    [ {[ "Store" := Some 1%Z; "Date" := None;
         "SchoolHoliday" := Some 0%Z; "StateHoliday" := Some 0%Z;
         "Promo" := Some 1%Z ]};
      {[ "Store" := None; "Date" := Some 3%Z;
         "SchoolHoliday" := Some 0%Z; "StateHoliday" := Some 0%Z;
         "Promo" := Some 0%Z ]} ].

(** *** Rolling sums *)

Definition promo_row (store date promo : Z) : gmap string cell :=
  {[ "Store" := Some store; "Date" := Some date;
     "SchoolHoliday" := Some 0%Z; "StateHoliday" := Some 0%Z;
     "Promo" := Some promo ]}.

(** One store, nine days in descending order, a promotion every day. *)
Definition nine_days : DataFrame :=
  mk_df source_columns
    ((fun d => promo_row 1 d 1) <$> [9; 8; 7; 6; 5; 4; 3; 2; 1]%Z).

Definition nine_days_bwd : DataFrame :=
  Eval vm_compute in
    match bwd nine_days with Done b => b | Raised _ => mk_df [] [] end.

Definition nine_days_fwd : DataFrame :=
  Eval vm_compute in
    match fwd nine_days with Done fw => fw | Raised _ => mk_df [] [] end.

(** *** Training and test tables *)

Definition sales_row (store date promo sales : Z) : gmap string cell :=
  {[ "Store" := Some store; "Date" := Some date;
     "SchoolHoliday" := Some 0%Z; "StateHoliday" := Some 0%Z;
     "Promo" := Some promo; "Sales" := Some sales ]}.

Definition id_row (store date promo id : Z) : gmap string cell :=
  {[ "Store" := Some store; "Date" := Some date;
     "SchoolHoliday" := Some 0%Z; "StateHoliday" := Some 0%Z;
     "Promo" := Some promo; "Id" := Some id ]}.

(** One store: the training table has days 1, 2, 6 and 7, the test
    table days 3, 4 and 5; no promotion anywhere. *)
Definition train_rows : list (gmap string cell) :=
  [sales_row 1 1 0 5; sales_row 1 2 0 6; sales_row 1 6 0 7; sales_row 1 7 0 8]%Z.

Definition test_rows : list (gmap string cell) :=
  [id_row 1 3 0 1; id_row 1 4 0 2; id_row 1 5 0 3]%Z.

Definition train_frame (rs : list (gmap string cell)) : DataFrame :=
  mk_df (source_columns ++ ["Sales"]) rs.

Definition test_frame (rs : list (gmap string cell)) : DataFrame :=
  mk_df (source_columns ++ ["Id"]) rs.

(** The same tables with one row changed: a promotion on training day
    2, on training day 6, or on test day 4. *)
Definition train_promo_day2 : list (gmap string cell) :=
  <[1 := sales_row 1 2 1 6]> train_rows.

Definition train_promo_day6 : list (gmap string cell) :=
  <[2 := sales_row 1 6 1 7]> train_rows.

Definition test_promo_day4 : list (gmap string cell) :=
  <[1 := id_row 1 4 1 2]> test_rows.

(** The column [c] of the training table and of the test table that a
    run returns. *)
Definition train_feature (c : string)
    (o : outcome (DataFrame * DataFrame)) : option Series :=
  match o with
  | Done (train_df, _) => Some (column c train_df)
  | Raised _ => None
  end.

Definition test_feature (c : string)
    (o : outcome (DataFrame * DataFrame)) : option Series :=
  match o with
  | Done (_, test_df) => Some (column c test_df)
  | Raised _ => None
  end.

Definition run (train test : list (gmap string cell))
    : outcome (DataFrame * DataFrame) :=
  add_features (train_frame train) (test_frame test).

End Samples.

(** ** Vocabulary for the joins and the feature cells *)

Module JoinVocabulary.
Import Series Frame Notebook Vocabulary.

(** [os] lists, for each element of [ls] in order, one or more elements
    related to it. *)
Definition fans_out {A B} (R : A -> B -> Prop) (ls : list A) (os : list B)
    : Prop :=
  exists blocks,
    os = concat blocks
    /\ Forall2 (fun l b => b ≠ [] /\ Forall (R l) b) ls blocks.

(** The same without the order: [os] holds one or more elements related
    to each element of [ls], and nothing else.  This is what a join
    gives whether or not it keeps the order of its left frame. *)
Definition spreads {A B} (R : A -> B -> Prop) (ls : list A) (os : list B)
    : Prop :=
  exists blocks,
    os ≡ₚ concat blocks
    /\ Forall2 (fun l b => b ≠ [] /\ Forall (R l) b) ls blocks.

(** Row [o] has every cell of row [l] whose column name does not end in
    [_y]. *)
Definition keeps_cells (l o : gmap string cell) : Prop :=
  forall c v, endswith "_y" c = false -> l !! c = Some v -> o !! c = Some v.

(** The columns [drop_cols] removes from a frame. *)
Definition dropped (gdf : DataFrame) (c : string) : Prop :=
  endswith "_y" c = true /\ c ∈ columns gdf.

#[global] Instance dropped_dec gdf c : Decision (dropped gdf c).
Proof. unfold dropped. apply _. Defined.

(** The rows of a frame have no cell outside its columns. *)
Definition well_formed (df : DataFrame) : Prop :=
  forall r c, r ∈ rows df -> c ∉ columns df -> r !! c = None.

(** Row [o] is the left row [l] with the cells of a matching right row
    looked up: it has the cells of [l] on the columns of [df], and on the
    columns only [right] has, those of a right row whose key equals the
    key of [l], or missing values when no right row has that key. *)
Definition looks_up (df right : DataFrame) (on : list string)
    (l o : gmap string cell) : Prop :=
  (forall c, c ∈ columns df -> cell_of c o = cell_of c l)
  /\ match matches on on l (rows right) with
     | [] => forall c, c ∈ columns right -> c ∉ columns df -> cell_of c o = None
     | ms => exists r, r ∈ ms
                       /\ forall c, c ∈ columns right -> c ∉ columns df ->
                            cell_of c o = cell_of c r
     end.

(** Frame [out] is [df] with the columns [written] assigned: the same
    number of rows, no column lost, every other column unchanged. *)
Definition extends (written : list string) (df out : DataFrame) : Prop :=
  len out = len df
  /\ columns df ⊆ columns out
  /\ forall c, c ∉ written -> column c out = column c df.

(** The columns the feature cells read that must exist beforehand, and
    the columns they write. *)
Definition feature_inputs : list string :=
  ["Date"; "CompetitionOpenSinceYear"; "CompetitionOpenSinceMonth";
   "Promo2SinceYear"; "Promo2SinceWeek"].

Definition feature_outputs : list string :=
  ["CompetitionOpenSinceYear"; "CompetitionOpenSinceMonth";
   "Promo2SinceYear"; "Promo2SinceWeek";
   "year"; "month"; "day"; "CompetitionOpenSince"; "CompetitionDaysOpen";
   "CompetitionMonthsOpen";
   "Promo2SinceYear_tmp"; "Promo2Since"; "Promo2Days"; "Promo2Weeks"].

(** One turn of the loop in [drop_cols]. *)
Definition drop_step (gdf : DataFrame) (c : string) : DataFrame :=
  if endswith "_y" c then
    match drop_column c gdf with
    | Done gdf' => gdf'
    | Raised _ => gdf
    end
  else gdf.

End JoinVocabulary.

(** ** Sample tables *)

Module TableSamples.
Import Series Frame Notebook Vocabulary Samples Tables.

Definition row_of (cells : list (string * Z)) : gmap string cell :=
  list_to_map (prod_map id Some <$> cells).

(** Two stores, and the state of the first one only. *)
Definition stores : DataFrame :=
  mk_df ["Store"; "StoreType"]
    [row_of [("Store", 1); ("StoreType", 3)];
     row_of [("Store", 2); ("StoreType", 4)]]%Z.

Definition states : DataFrame :=
  mk_df ["Store"; "State"] [row_of [("Store", 1); ("State", 7)]]%Z.

Definition stores_with_state : DataFrame :=
  Eval vm_compute in
    match merge stores states ["Store"] None None with
    | Done out => out
    | Raised _ => mk_df [] []
    end.

(** A small instance of every table the notebook reads. *)
Definition small_tables : tables :=
  {| train := mk_df ["Store"; "Date"; "Year"; "Week"; "Sales"]
       [row_of [("Store", 1); ("Date", 100); ("Year", 2015); ("Week", 15); ("Sales", 50)];
        row_of [("Store", 2); ("Date", 100); ("Year", 2015); ("Week", 15); ("Sales", 60)];
        row_of [("Store", 1); ("Date", 101); ("Year", 2015); ("Week", 15); ("Sales", 70)]]%Z;
     test := mk_df ["Store"; "Date"; "Year"; "Week"; "Id"]
       [row_of [("Store", 1); ("Date", 102); ("Year", 2015); ("Week", 15); ("Id", 1)]]%Z;
     store := stores;
     store_states := states;
     state_names := mk_df ["StateName"; "State"]
       [row_of [("StateName", 70); ("State", 7)]]%Z;
     googletrend := mk_df ["State"; "Year"; "Week"; "trend"]
       [row_of [("State", 7); ("Year", 2015); ("Week", 15); ("trend", 80)]]%Z;
     trend_de := mk_df ["Year"; "Week"; "trend"]
       [row_of [("Year", 2015); ("Week", 15); ("trend", 65)]]%Z;
     weather := mk_df ["file"; "Date"; "Max_TemperatureC"]
       [row_of [("file", 70); ("Date", 100); ("Max_TemperatureC", 21)];
        row_of [("file", 70); ("Date", 101); ("Max_TemperatureC", 19)]]%Z |}.

Definition small_joined : DataFrame * DataFrame :=
  Eval vm_compute in
    match join_tables small_tables with
    | Done p => p
    | Raised _ => (mk_df [] [], mk_df [] [])
    end.

(** One test row, dated after the two training days of [two_days]. *)
Definition one_test_row : DataFrame :=
  mk_df ["Store"; "Date"] [row_of [("Store", 1); ("Date", 9)]]%Z.

(** A competitor that opened 2000 days ago, in 2005. *)
Definition competition_sample : DataFrame :=
  mk_df ["CompetitionDaysOpen"; "CompetitionOpenSinceYear"]
    [row_of [("CompetitionDaysOpen", 2000); ("CompetitionOpenSinceYear", 2005)]]%Z.

(** A promotion that has been running for 400 days, since 2014. *)
Definition promo2_sample : DataFrame :=
  mk_df ["Promo2Days"; "Promo2SinceYear"]
    [row_of [("Promo2Days", 400); ("Promo2SinceYear", 2014)]]%Z.

(** Two stores on 2015-07-31 (day number 735809): one with a competitor
    since September 2008 and a promotion since week 13 of 2010, one for
    which the four columns are missing. *)
Definition feature_sample : DataFrame :=
  mk_df ["Store"; "Date"; "CompetitionOpenSinceYear";
         "CompetitionOpenSinceMonth"; "Promo2SinceYear"; "Promo2SinceWeek"]
    [row_of [("Store", 1); ("Date", 735809);
             ("CompetitionOpenSinceYear", 2008);
             ("CompetitionOpenSinceMonth", 9);
             ("Promo2SinceYear", 2010); ("Promo2SinceWeek", 13)];
     row_of [("Store", 2); ("Date", 735809)]]%Z.

(** The nine days of one store with both rolling sums attached. *)
Definition nine_days_rolled : DataFrame :=
  Eval vm_compute in
    match rolling_cells nine_days with
    | Done out => out
    | Raised _ => mk_df [] []
    end.

(** The tables of the pipeline sample after the feature cells. *)
Definition featured : DataFrame * DataFrame :=
  Eval vm_compute in
    match run train_rows test_rows with
    | Done p => p
    | Raised _ => (mk_df [] [], mk_df [] [])
    end.

End TableSamples.
(** * Properties *)

(** ** Calendar columns *)

Module CalendarFacts.
Import Calendar.
Local Open Scope Z_scope.

Example week_jan1 : Week (mk_datetime 2015 1 1) = 1.
Proof. reflexivity. Qed.
Example week_dec31_leap : Week (mk_datetime 2012 12 31) = 52.
Proof. reflexivity. Qed.
Example week_dec30 : Week (mk_datetime 2013 12 30) = 52.
Proof. reflexivity. Qed.
Example week_dec23 : Week (mk_datetime 2013 12 23) = 51.
Proof. reflexivity. Qed.
Example week_jul31 : Week (mk_datetime 2015 7 31) = 31.
Proof. reflexivity. Qed.

Lemma days_since_jan1_offset d :
  days_since_jan1 d
  = days_before_month (is_leap (year d)) (month d) + (day d - 1).
Proof.
  unfold days_since_jan1, to_ordinal, year_start; simpl.
  unfold days_before_month at 2; simpl. lia.
Qed.

Lemma days_since_jan1_range d :
  valid_date d -> 0 <= days_since_jan1 d <= 365.
Proof.
  intros [Hm Hd]. rewrite days_since_jan1_offset.
  revert Hd. unfold days_in_month, days_before_month.
  destruct (is_leap (year d));
    repeat (case_bool_decide || case_match); try lia.
Qed.

Lemma div7_range n : 0 <= n <= 365 -> 0 <= n / 7 <= 52.
Proof.
  intros Hn. split.
  - apply Z.div_pos; lia.
  - enough (n / 7 < 53) by lia. apply Z.div_lt_upper_bound; lia.
Qed.

Lemma div7_astype_int16_floor n :
  0 <= n <= 365 -> div7_astype_int16 n = n / 7.
Proof.
  intros Hn. unfold div7_astype_int16, wrap_int16.
  rewrite Z.quot_div_nonneg by lia.
  pose proof (div7_range n Hn).
  rewrite Z.mod_small by lia. lia.
Qed.

(** C6. For every valid date, [Week] is [floor(days_since_jan1 / 7) + 1]
    with 53 replaced by 52; it lies in [1, 52] and is never 53. *)
Theorem Week_floor_clamped d :
  valid_date d ->
  Week d = (let w := days_since_jan1 d / 7 + 1 in if w =? 53 then 52 else w)
  /\ 1 <= Week d <= 52
  /\ Week d <> 53.
Proof.
  intros Hd. pose proof (days_since_jan1_range d Hd) as Hr.
  unfold Week. rewrite div7_astype_int16_floor by done.
  pose proof (div7_range _ Hr).
  unfold where_not_53. cbv zeta.
  destruct (Z.eqb_spec (days_since_jan1 d / 7 + 1) 53); simpl; lia.
Qed.

Lemma Week_floor_clamped_witness :
  valid_date (mk_datetime 2012 12 31)
  /\ Week (mk_datetime 2012 12 31) = 52.
Proof.
  assert (Hv : valid_date (mk_datetime 2012 12 31)) by (vm_compute; intuition discriminate).
  split; [exact Hv |].
  destruct (Week_floor_clamped (mk_datetime 2012 12 31) Hv) as [-> _].
  reflexivity.
Defined.

End CalendarFacts.

(** ** Sorting *)

Module SortFacts.
Import Series Frame Vocabulary.

Section insertion_sort.
Context {A : Type} (le : A -> A -> bool).

Local Abbreviation leR := (leR le).

Lemma insert_by_Permutation x l : insert_by le x l ≡ₚ x :: l.
Proof.
  induction l as [|y l IH]; simpl; [done |].
  destruct (le x y); [done |].
  rewrite IH. apply Permutation_swap.
Qed.

Lemma sort_by_Permutation l : sort_by le l ≡ₚ l.
Proof.
  induction l as [|x l IH]; simpl; [done |].
  fold (sort_by le l). by rewrite insert_by_Permutation, IH.
Qed.



Hypothesis le_total : forall x y, le x y = true \/ le y x = true.
Hypothesis le_trans : forall x y z, le x y = true -> le y z = true -> le x z = true.

Lemma insert_by_sorted x l :
  StronglySorted leR l -> StronglySorted leR (insert_by le x l).
Proof.
  induction 1 as [|y l Hl IH Hy]; simpl.
  - repeat constructor.
  - destruct (le x y) eqn:Hxy.
    + constructor; [by constructor |].
      constructor; [done |].
      eapply Forall_impl; [exact Hy |]. intros z Hz. by eapply le_trans.
    + constructor; [done |].
      rewrite insert_by_Permutation. constructor; [| done].
      destruct (le_total x y); [congruence | done].
Qed.

Lemma sort_by_sorted l : StronglySorted leR (sort_by le l).
Proof.
  induction l as [|x l IH]; simpl; [constructor |].
  by apply insert_by_sorted.
Qed.



End insertion_sort.




(** *** The order on key cells *)

Lemma cell_le_total asc a b : cell_le asc a b = true \/ cell_le asc b a = true.
Proof. destruct a, b, asc; simpl; auto; lia. Qed.

Lemma cell_le_trans asc a b c :
  cell_le asc a b = true -> cell_le asc b c = true -> cell_le asc a c = true.
Proof. destruct a, b, c, asc; simpl; try done; lia. Qed.


Section row_order.
Context (asc : bool).
Local Abbreviation row_le := (row_le asc).

Lemma row_le_total keys r1 r2 :
  row_le keys r1 r2 = true \/ row_le keys r2 r1 = true.
Proof.
  unfold row_le. induction keys as [|c keys IH]; simpl; [auto |].
  pose proof (cell_le_total asc (cell_of c r1) (cell_of c r2)) as Ht.
  destruct (cell_le asc (cell_of c r1) (cell_of c r2)),
    (cell_le asc (cell_of c r2) (cell_of c r1)); auto; by destruct Ht.
Qed.

Lemma row_le_trans keys r1 r2 r3 :
  row_le keys r1 r2 = true -> row_le keys r2 r3 = true ->
  row_le keys r1 r3 = true.
Proof.
  unfold row_le. induction keys as [|c keys IH]; simpl; [auto |].
  destruct (cell_le asc (cell_of c r1) (cell_of c r2)) eqn:H12; [| done].
  destruct (cell_le asc (cell_of c r2) (cell_of c r3)) eqn:H23;
    [| by destruct (cell_le asc (cell_of c r2) (cell_of c r1))].
  rewrite (cell_le_trans _ _ _ _ H12 H23).
  destruct (cell_le asc (cell_of c r2) (cell_of c r1)) eqn:H21;
    destruct (cell_le asc (cell_of c r3) (cell_of c r2)) eqn:H32;
    destruct (cell_le asc (cell_of c r3) (cell_of c r1)) eqn:H31;
    intros; try done; auto;
    first [ by rewrite (cell_le_trans _ _ _ _ H31 H12) in H32
          | by rewrite (cell_le_trans _ _ _ _ H23 H31) in H21 ].
Qed.

End row_order.

Lemma sort_values_rows keys asc df out :
  sort_values keys asc df = Done out ->
  columns out = columns df /\ rows out = sort_by (row_le asc keys) (rows df).
Proof.
  unfold sort_values. destruct (check_columns keys df); [| done].
  simpl. by intros [= <-].
Qed.

Lemma sort_values_sorted keys asc df out :
  sort_values keys asc df = Done out ->
  StronglySorted (leR (row_le asc keys)) (rows out) /\ rows out ≡ₚ rows df.
Proof.
  intros [_ ->]%sort_values_rows. split.
  - apply sort_by_sorted; [apply row_le_total | apply row_le_trans].
  - apply sort_by_Permutation.
Qed.

End SortFacts.

(** ** Left joins *)

Module JoinFacts.
Import Series Frame Notebook Vocabulary Samples.

Section blocks.
Context (lcols rcols left_on right_on : list string) (sfx : string).
Context (right : list (gmap string cell)).

Local Abbreviation block := (join_rows_of lcols rcols left_on right_on sfx right).
Local Abbreviation hits l := (length (matches left_on right_on l right)).

Lemma length_block l : length (block l) = Nat.max 1 (hits l).
Proof.
  unfold join_rows_of.
  destruct (matches left_on right_on l right) as [|r ms]; [done |].
  rewrite length_fmap. simpl. lia.
Qed.

Lemma block_extends l o : o ∈ block l -> l ⊆ o.
Proof.
  unfold join_rows_of.
  destruct (matches left_on right_on l right) as [|r ms].
  - intros ->%list_elem_of_singleton. apply map_union_subseteq_l.
  - intros (r' & -> & _)%list_elem_of_fmap. apply map_union_subseteq_l.
Qed.

Lemma length_bind_blocks (ls : list (gmap string cell)) :
  length (ls ≫= block) = length ls + sum_list ((fun l => hits l - 1) <$> ls).
Proof.
  induction ls as [|l ls IH]; [done |].
  rewrite bind_cons, length_app, IH, length_block, fmap_cons.
  remember (Nat.max 1 (hits l)) as m eqn:Hm.
  remember (hits l) as h eqn:Hh. clear Hh. simpl. lia.
Qed.

Lemma sum_list_zero (ns : list nat) :
  sum_list ns = 0 <-> Forall (fun n => n = 0) ns.
Proof.
  induction ns as [|n ns IH]; simpl.
  - split; [constructor | done].
  - rewrite Forall_cons, <- IH. lia.
Qed.

Lemma bind_blocks_same_length (ls : list (gmap string cell)) :
  length (ls ≫= block) = length ls <-> Forall (fun l => hits l <= 1) ls.
Proof.
  rewrite length_bind_blocks.
  transitivity (sum_list ((fun l => hits l - 1) <$> ls) = 0); [lia |].
  rewrite sum_list_zero, Forall_fmap.
  apply Forall_iff. intros l. simpl. lia.
Qed.

Lemma bind_blocks_split (ls : list (gmap string cell)) :
  exists bs,
    ls ≫= block = concat bs
    /\ Forall2 (fun l b =>
                  length b = Nat.max 1 (hits l) /\ Forall (fun o => l ⊆ o) b)
               ls bs.
Proof.
  exists (block <$> ls). split.
  - induction ls as [|l ls IH]; [done |].
    rewrite bind_cons, fmap_cons. simpl. by rewrite IH.
  - apply Forall2_fmap_r, Forall_Forall2_diag, Forall_forall.
    intros l _. split; [apply length_block |].
    apply Forall_forall. intros o. apply block_extends.
Qed.

End blocks.

Lemma no_match_nil right_on (k : list cell) (right : list (gmap string cell)) :
  k ∉ key_of right_on <$> right ->
  filter (fun r => key_of right_on r = k) right = [].
Proof.
  induction right as [|r right IH]; [done |].
  rewrite fmap_cons, not_elem_of_cons. intros [Hne Hnin].
  rewrite filter_cons, decide_False by done. by apply IH.
Qed.

(** A right frame with pairwise different keys matches a key at most
    once. *)
Lemma unique_keys_hits left_on right_on l (right : list (gmap string cell)) :
  NoDup (key_of right_on <$> right) ->
  length (matches left_on right_on l right) <= 1.
Proof.
  unfold matches.
  induction right as [|r right IH]; [simpl; lia |].
  rewrite fmap_cons, NoDup_cons. intros [Hr Hnd].
  rewrite filter_cons. case_decide as Hk; [| by apply IH].
  rewrite no_match_nil; [done |]. by rewrite <- Hk.
Qed.

Lemma check_columns_Done cs df :
  cs ⊆ columns df -> check_columns cs df = Done ().
Proof.
  induction cs as [|c cs IH]; [done |].
  intros Hsub. simpl. rewrite decide_True by (apply Hsub; left).
  apply IH. intros x Hx. apply Hsub. by right.
Qed.

Lemma merge_left_rows df right left_on right_on sfx out :
  merge_left df right left_on right_on sfx = Done out ->
  rows out = rows df ≫= join_rows_of (columns df) (columns right)
                          left_on right_on sfx (rows right).
Proof.
  unfold merge_left.
  destruct (check_columns left_on df); [| done].
  destruct (check_columns right_on right); [| done]. simpl.
  case_decide; [| done]. by intros [= <-].
Qed.

(** The join returns a frame whenever the key columns exist (and there
    are as many on the right as on the left). *)
Lemma merge_left_total df right left_on right_on sfx :
  left_on ⊆ columns df -> right_on ⊆ columns right ->
  length left_on = length right_on ->
  exists out, merge_left df right left_on right_on sfx = Done out.
Proof.
  intros Hl Hr Hlen. unfold merge_left.
  rewrite (check_columns_Done _ _ Hl), (check_columns_Done _ _ Hr). simpl.
  rewrite decide_True by done. eauto.
Qed.

(** C7, counterexample.  A right frame whose repeated key matches no
    left row: the join has exactly the rows of the left frame although
    the right keys are not unique. *)
Lemma join_equal_length_without_unique_keys :
  ~ cardinality_as_claimed left_frame right_frame ["Store"].
Proof.
  intros H.
  destruct (H (mk_df ["Store"; "State"; "State_y"]
                 [joined_row ["Store"; "State"] ["Store"; "State"]
                    ["Store"] ["Store"] "_y" (one_row 1 10) None]))
    as [_ [Hnd _]]; [by vm_compute |].
  specialize (Hnd eq_refl). vm_compute in Hnd.
  apply NoDup_cons in Hnd as [Hin _]. apply Hin. left.
Qed.

(** C7, amended.  The join has at least the rows of the left frame, and
    exactly as many if and only if no left row matches more than one
    right row, which is the case whenever the right keys are pairwise
    different.  The output is the left rows in order, each one repeated
    once per matching right row (once, with missing right cells, when
    nothing matches), and every output row extends its left row. *)
Theorem merge_cardinality left right left_on right_on suffix out :
  merge left right left_on right_on suffix = Done out ->
  let ron := or_keys right_on left_on in
  let hits l := length (matches left_on ron l (rows right)) in
  len left <= len out
  /\ (len out = len left <-> Forall (fun l => hits l <= 1) (rows left))
  /\ (NoDup (key_of ron <$> rows right) -> len out = len left)
  /\ exists blocks,
       rows out = concat blocks
       /\ Forall2 (fun l b =>
                     length b = Nat.max 1 (hits l)
                     /\ Forall (fun o => l ⊆ o) b)
                  (rows left) blocks.
Proof.
  intros Hm ron hits. apply merge_left_rows in Hm.
  unfold len. rewrite Hm. fold ron.
  split; [rewrite length_bind_blocks; lia |].
  split; [apply bind_blocks_same_length |].
  split; [| apply bind_blocks_split].
  intros Hnd. apply bind_blocks_same_length, Forall_forall.
  intros l _. by apply unique_keys_hits.
Qed.

Lemma merge_cardinality_witness :
  exists out,
    merge fan_left right_frame ["Store"] None None = Done out
    /\ len out = 3.
Proof.
  destruct (merge_left_total fan_left right_frame ["Store"] ["Store"] "_y")
    as [out Hout];
    [by intros x ->%list_elem_of_singleton; left
    |by intros x ->%list_elem_of_singleton; left
    |done |].
  exists out. split; [exact Hout |].
  destruct (merge_cardinality fan_left right_frame ["Store"] None None out Hout)
    as (_ & _ & _ & bs & Hrows & Hbs).
  unfold len. rewrite Hrows.
  apply Forall2_cons_inv_l in Hbs as (b1 & bs1 & [Hb1 _] & Hbs & ->).
  apply Forall2_cons_inv_l in Hbs as (b2 & bs2 & [Hb2 _] & Hbs & ->).
  apply Forall2_nil_inv_l in Hbs as ->.
  simpl. rewrite !length_app, Hb1, Hb2. reflexivity.
Defined.

End JoinFacts.

(** ** Validation split *)

Module SplitFacts.
Import Series Frame Notebook Vocabulary Samples SortFacts.

Lemma slice_bound_neg len (n : Z) :
  (0 < n)%Z -> slice_bound len (- n) = len - Z.to_nat n.
Proof.
  intros Hn. unfold slice_bound.
  destruct (Z.ltb_spec (- n) 0); lia.
Qed.

(** Whatever the count, the two slices cut the rows at one position. *)
Lemma split_partition (n : Z) df :
  rows (split n df).1 ++ rows (split n df).2 = rows df.
Proof. apply take_drop. Qed.

(** For a positive count the validation frame is the last [n] rows (all
    rows when there are fewer) and the training frame is what precedes
    them. *)
Lemma split_positive (n : Z) df :
  (0 < n)%Z ->
  rows (split n df).1 = take (len df - Z.to_nat n) (rows df)
  /\ rows (split n df).2 = drop (len df - Z.to_nat n) (rows df)
  /\ len (split n df).2 = Nat.min (Z.to_nat n) (len df).
Proof.
  intros Hn. unfold split, rows_from, rows_to, slice_from, slice_to, len.
  simpl. rewrite slice_bound_neg by done.
  repeat split. rewrite length_drop. lia.
Qed.

(** On rows sorted by date, nothing in the training frame is later than
    anything in the validation frame. *)
Lemma split_ordered (n : Z) df sorted :
  sort_values ["Date"] true df = Done sorted ->
  forall a b,
    a ∈ rows (split n sorted).1 -> b ∈ rows (split n sorted).2 ->
    cell_le true (cell_of "Date" a) (cell_of "Date" b) = true.
Proof.
  intros [Hs _]%sort_values_sorted a b Ha Hb.
  rewrite <- (split_partition n sorted) in Hs.
  pose proof (StronglySorted_app_1_elem_of _ _ _ _ _ Hs Ha Hb) as Hab.
  unfold leR, row_le in Hab. simpl in Hab.
  by destruct (cell_le true (cell_of "Date" a) (cell_of "Date" b)).
Qed.

(** For every positive count the split of the sorted table is the one
    the specification describes: the last rows, the rows before them,
    nothing lost or repeated, and the dates in order across the cut. *)
Lemma split_after_sort (n : Z) df sorted :
  (0 < n)%Z ->
  sort_values ["Date"] true df = Done sorted ->
  rows (split n sorted).2 = drop (len sorted - Z.to_nat n) (rows sorted)
  /\ rows (split n sorted).1 = take (len sorted - Z.to_nat n) (rows sorted)
  /\ len (split n sorted).2 = Nat.min (Z.to_nat n) (len sorted)
  /\ rows (split n sorted).1 ++ rows (split n sorted).2 ≡ₚ rows df
  /\ forall a b,
       a ∈ rows (split n sorted).1 -> b ∈ rows (split n sorted).2 ->
       cell_le true (cell_of "Date" a) (cell_of "Date" b) = true.
Proof.
  intros Hn Hs. destruct (split_positive n sorted Hn) as (Ht & Hv & Hl).
  split; [done |]. split; [done |]. split; [done |]. split.
  - rewrite split_partition. by apply (sort_values_sorted ["Date"] true).
  - by apply (split_ordered n df).
Qed.

(** With a count of zero the slices are [train_df[0:]] and
    [train_df[:0]]. *)
Lemma split_zero df :
  split 0 df = (mk_df (columns df) [], mk_df (columns df) (rows df)).
Proof.
  unfold split, rows_from, rows_to, slice_from, slice_to. simpl.
  by rewrite take_0, drop_0.
Qed.

(** C8, the failing input.  With a validation count of zero,
    [train_df[-0:]] is the whole table and [train_df[:-0]] is empty: the
    validation frame gets every row instead of the last zero rows, and
    the training frame gets none.  The notebook reaches this count when
    the test table is empty and the first date occurs once. *)
Theorem split_zero_count_takes_all_rows :
  sort_train two_days = Done two_days
  /\ cut two_days no_test_rows = Done (Some 0%Z)
  /\ split_cell two_days no_test_rows
     = Done (mk_df ["Store"; "Date"; "Sales"] [], two_days)
  /\ len (split 0 two_days).2 = 2
  /\ len (split 0 two_days).1 = 0.
Proof. by vm_compute. Qed.

End SplitFacts.

(** ** Event distances *)

Module ElapsedFacts.
Import Series Frame Notebook Vocabulary SortFacts.

(** *** The columns, entry by entry *)

Lemma length_diff_from p s : length (diff_from p s) = length s.
Proof. revert p. induction s as [|x s IH]; intros p; simpl; by rewrite ?IH. Qed.

Lemma length_diff s : length (diff s) = length s.
Proof. destruct s; simpl; by rewrite ?length_diff_from. Qed.

Lemma diff_from_present p st i x :
  st !! i = Some x ->
  diff_from (Some p) (present st) !! i
  = Some (Some (x - match i with O => p | S j => default 0 (st !! j) end)%Z).
Proof.
  revert p i. induction st as [|y st IH]; intros p i Hi; [done |].
  destruct i as [|i]; simpl in *.
  - by injection Hi as ->.
  - etrans; [exact (IH y i Hi) |]. by destruct i.
Qed.

Lemma diff_present_S st j x y :
  st !! j = Some y -> st !! S j = Some x ->
  diff (present st) !! S j = Some (Some (x - y)%Z).
Proof.
  destruct st as [|z st]; [done |]. intros Hy Hx.
  etrans; [exact (diff_from_present z st j x Hx) |].
  destruct j; simpl in *; [by injection Hy as -> | by rewrite Hy].
Qed.

Lemma length_tail {A} (l : list A) : length (tail l) = length l - 1.
Proof. destruct l; simpl; lia. Qed.

Lemma length_present st : length (present st) = length st.
Proof. apply length_fmap. Qed.

Lemma lookup_present st i : present st !! i = Some <$> st !! i.
Proof. apply list_lookup_fmap. Qed.

Lemma bool_decide_intro (b : bool) (P : Prop) `{!Decision P} :
  (b = true <-> P) -> b = bool_decide P.
Proof.
  intros Hb. destruct (decide P) as [HP | HP].
  - rewrite bool_decide_eq_true_2 by done. by apply Hb.
  - rewrite bool_decide_eq_false_2 by done.
    destruct b; [| done]. exfalso. by apply HP, Hb.
Qed.

Lemma ne0_sub_iff (x y : Z) :
  negb (x - y =? 0)%Z = true <-> Some y ≠ Some x.
Proof.
  destruct (Z.eqb_spec (x - y) 0); simpl; split; try done.
  - intros Hne. exfalso. apply Hne. f_equal. lia.
  - intros _ [= ->]. lia.
Qed.

Lemma first_indices_present st i :
  i < length st ->
  first_indices (present st) !! i = Some (bool_decide (is_first st i)).
Proof.
  intros Hi. unfold first_indices. rewrite list_lookup_fmap.
  destruct i as [|j].
  - by destruct st; [simpl in Hi; lia |].
  - destruct (lookup_lt_is_Some_2 st j) as [y Hy]; [lia |].
    destruct (lookup_lt_is_Some_2 st (S j)) as [x Hx]; [done |].
    rewrite (diff_present_S st j x y Hy Hx). simpl. f_equal.
    apply bool_decide_intro. simpl. rewrite Hy, Hx. apply ne0_sub_iff.
Qed.

Lemma last_indices_present st i :
  i < length st ->
  fill_bool <$> last_indices (present st) !! i
  = Some (bool_decide (is_last st i)).
Proof.
  intros Hi. unfold last_indices, is_last.
  destruct (decide (S i = length st)) as [Hn | Hn].
  - rewrite lookup_app_r; rewrite length_tail, length_diff, length_present; [| lia].
    replace (i - (length st - 1)) with 0 by lia. simpl. f_equal.
    apply bool_decide_intro. split; [by left | done].
  - rewrite lookup_app_l
      by (rewrite length_tail, length_diff, length_present; lia).
    rewrite lookup_tail.
    destruct (lookup_lt_is_Some_2 st i) as [y Hy]; [lia |].
    destruct (lookup_lt_is_Some_2 st (S i)) as [x Hx]; [lia |].
    rewrite (diff_present_S st i x y Hy Hx). simpl. f_equal.
    apply bool_decide_intro. rewrite Hy, Hx, ne0_sub_iff.
    split; [by right | intros [? | Hne]; [done | congruence]].
Qed.

Lemma idx_mask_present st i :
  i < length st ->
  idx_mask (present st) !! i
  = Some (bool_decide (~ is_first st i /\ ~ is_last st i)).
Proof.
  intros Hi. unfold idx_mask. rewrite lookup_zip_with.
  rewrite first_indices_present by done. simpl.
  pose proof (last_indices_present st i Hi) as Hl.
  destruct (last_indices (present st) !! i) as [c|]; [| done].
  simpl in *. injection Hl as ->. f_equal.
  apply bool_decide_intro.
  rewrite negb_true_iff, orb_false_iff, !bool_decide_eq_false. tauto.
Qed.

(** Which dates stay in [tmp]: those of the anchors. *)
Lemma tmp_column_present st dt f i d :
  length dt = length st -> length f = length st ->
  dt !! i = Some d ->
  tmp_column (idx_mask (present st)) (present dt) (present f) !! i
  = Some (if decide (anchor st f i) then Some d else None).
Proof.
  intros Hdt Hf Hd.
  assert (i < length st) as Hi by (rewrite <- Hdt; by eapply lookup_lt_Some).
  destruct (lookup_lt_is_Some_2 f i) as [v Hv]; [lia |].
  unfold tmp_column, loc_set_nan. rewrite list_lookup_imap.
  rewrite lookup_present, Hd. simpl. f_equal.
  rewrite lookup_zip_with, list_lookup_fmap, lookup_present.
  rewrite idx_mask_present by done.
  case_decide as Ha; unfold anchor in Ha; rewrite Hv in *; simpl.
  - destruct (Z.eqb_spec v 0) as [-> | Hne]; [| done]. simpl.
    rewrite bool_decide_eq_false_2; [done |].
    destruct Ha as [? | [? | ?]]; [done | tauto | tauto].
  - destruct (Z.eqb_spec v 0) as [-> | Hne].
    + simpl. rewrite bool_decide_eq_true_2; [done |]. tauto.
    + exfalso. apply Ha. left. by intros [= ->].
Qed.

Lemma length_tmp_column mask Date fld :
  length (tmp_column mask Date fld) = length Date.
Proof. unfold tmp_column, loc_set_nan. by rewrite length_imap. Qed.

(** *** Forward and backward fill *)

Lemma length_ffill_from last s : length (ffill_from last s) = length s.
Proof. revert last. induction s as [|x s IH]; intros; simpl; by rewrite ?IH. Qed.

Lemma length_bfill s : length (bfill s) = length s.
Proof. induction s as [|[x|] s IH]; simpl; by rewrite ?IH. Qed.

Lemma ffill_from_gap last (s : Series) i :
  i < length s ->
  (forall k, k <= i -> s !! k = Some None) ->
  ffill_from last s !! i = Some last.
Proof.
  revert i. induction s as [|x s IH]; intros i Hi Hs; [simpl in Hi; lia |].
  pose proof (Hs 0 ltac:(lia)) as H0. simpl in H0. injection H0 as ->.
  destruct i as [|i]; [done |]. simpl. apply IH; [simpl in Hi; lia |].
  intros k Hk. apply (Hs (S k)). lia.
Qed.

(** A forward fill gives the value of the nearest filled entry at or
    before the position. *)
Lemma ffill_from_nearest last (s : Series) i j v :
  j <= i -> i < length s ->
  s !! j = Some (Some v) ->
  (forall k, j < k <= i -> s !! k = Some None) ->
  ffill_from last s !! i = Some (Some v).
Proof.
  revert last i j. induction s as [|x s IH]; intros last i j Hji Hi Hj Hgap;
    [simpl in Hi; lia |].
  destruct j as [|j].
  - simpl in Hj. injection Hj as ->.
    destruct i as [|i]; [done |]. simpl.
    apply ffill_from_gap; [simpl in Hi; lia |].
    intros k Hk. apply (Hgap (S k)). lia.
  - destruct i as [|i]; [lia |]. simpl.
    apply (IH _ i j); [lia | simpl in Hi; lia | done |].
    intros k Hk. apply (Hgap (S k)). lia.
Qed.

(** A backward fill gives the value of the nearest filled entry at or
    after the position. *)
Lemma bfill_nearest (s : Series) i j v :
  i <= j ->
  s !! j = Some (Some v) ->
  (forall k, i <= k < j -> s !! k = Some None) ->
  bfill s !! i = Some (Some v).
Proof.
  revert i j. induction s as [|x s IH]; intros i j Hij Hj Hgap; [done |].
  destruct i as [|i].
  - destruct j as [|j].
    + simpl in Hj. injection Hj as ->. done.
    + pose proof (Hgap 0 ltac:(lia)) as H0. simpl in H0. injection H0 as ->.
      simpl. rewrite head_lookup.
      rewrite (IH 0 j); [done | lia | done |].
      intros k Hk. apply (Hgap (S k)). lia.
  - destruct j as [|j]; [lia |].
    assert (bfill s !! i = Some (Some v)) as Hr.
    { apply (IH i j); [lia | done |].
      intros k Hk. apply (Hgap (S k)). lia. }
    by destruct x.
Qed.

(** *** The nearest anchor on either side *)





End ElapsedFacts.

(** *** What the event-distance columns hold *)

Module ElapsedClaims.
Import Series Frame Notebook Vocabulary SortFacts ElapsedFacts.

Section columns.
Context (st dt f : list Z).
Hypothesis Hdt : length dt = length st.
Hypothesis Hf : length f = length st.

Local Abbreviation tmp :=
  (tmp_column (idx_mask (present st)) (present dt) (present f)).
Local Abbreviation After_F :=
  (After (idx_mask (present st)) (present dt) (present f)).
Local Abbreviation Before_F :=
  (Before (idx_mask (present st)) (present dt) (present f)).

Lemma tmp_anchor j dj :
  dt !! j = Some dj -> anchor st f j -> tmp !! j = Some (Some dj).
Proof.
  intros Hj Ha. rewrite (tmp_column_present st dt f j dj) by done.
  by rewrite decide_True.
Qed.

Lemma tmp_gap k :
  k < length st -> ~ anchor st f k -> tmp !! k = Some None.
Proof.
  intros Hk Ha.
  destruct (lookup_lt_is_Some_2 dt k) as [d Hd]; [lia |].
  rewrite (tmp_column_present st dt f k d) by done.
  by rewrite decide_False.
Qed.

Lemma After_nearest i j d dj :
  dt !! i = Some d -> dt !! j = Some dj -> j <= i ->
  anchor st f j -> (forall k, j < k <= i -> ~ anchor st f k) ->
  After_F !! i = Some (Some (d - dj)%Z).
Proof.
  intros Hi Hj Hji Ha Hgap.
  assert (i < length st) as Hlt by (rewrite <- Hdt; by eapply lookup_lt_Some).
  unfold After. rewrite lookup_zip_with, lookup_present, Hi. simpl.
  unfold ffill. rewrite (ffill_from_nearest None tmp i j dj); [done | done | | |].
  - rewrite length_tmp_column, length_present. lia.
  - by apply tmp_anchor.
  - intros k Hk. apply tmp_gap; [lia | by apply Hgap].
Qed.

Lemma Before_nearest i j d dj :
  dt !! i = Some d -> dt !! j = Some dj -> i <= j ->
  anchor st f j -> (forall k, i <= k < j -> ~ anchor st f k) ->
  Before_F !! i = Some (Some (dj - d)%Z).
Proof.
  intros Hi Hj Hij Ha Hgap.
  assert (j < length st) as Hlt by (rewrite <- Hdt; by eapply lookup_lt_Some).
  unfold Before. rewrite lookup_zip_with.
  rewrite (bfill_nearest tmp i j dj); [| done | |].
  - by rewrite lookup_present, Hi.
  - by apply tmp_anchor.
  - intros k Hk. apply tmp_gap; [lia | by apply Hgap].
Qed.



(** Inside a group without events only its two ends are anchors. *)
Lemma no_anchor_inside a b k :
  group_span st a b ->
  (forall k, a <= k <= b -> f !! k = Some 0%Z) ->
  a < k < b -> ~ anchor st f k.
Proof using Type.
  clear Hdt Hf. intros (Hab & Hsame & _ & _) Hzero Hk [Hev | [Hfirst | Hlast]].
  - apply Hev, Hzero. lia.
  - destruct k as [|k']; [lia |]. simpl in Hfirst. apply Hfirst.
    rewrite (Hsame k'), (Hsame (S k')) by lia. done.
  - destruct Hlast as [Hn | Hne]; [lia |]. apply Hne.
    rewrite (Hsame k), (Hsame (S k)) by lia. done.
Qed.

End columns.

Lemma StronglySorted_lookup {A} (R : relation A) l i j x y :
  StronglySorted R l -> i < j ->
  l !! i = Some x -> l !! j = Some y -> R x y.
Proof.
  intros Hs Hij Hi Hj. rewrite <- (take_drop j l) in Hs.
  apply (StronglySorted_app_1_elem_of R (take j l) (drop j l)); [done | |].
  - apply list_elem_of_lookup. exists i. by rewrite lookup_take_lt.
  - apply list_elem_of_lookup. exists 0.
    by rewrite lookup_drop, Nat.add_0_r.
Qed.

(** In a store column in ascending order, a row starts a group exactly
    when no earlier row has its store, and ends one exactly when no
    later row has it. *)
Lemma is_first_sorted st i :
  StronglySorted Z.le st -> i < length st ->
  is_first st i <-> forall j, j < i -> st !! j ≠ st !! i.
Proof.
  intros Hs Hi. destruct i as [|k]; simpl.
  { split; [intros _ j ?; lia | done]. }
  destruct (lookup_lt_is_Some_2 st k) as [y Hy]; [lia |].
  destruct (lookup_lt_is_Some_2 st (S k)) as [x Hx]; [lia |].
  split.
  - intros Hne j Hj.
    destruct (lookup_lt_is_Some_2 st j) as [z Hz]; [lia |].
    rewrite Hz, Hx. intros [= ->].
    pose proof (StronglySorted_lookup _ _ _ _ _ _ Hs (Nat.lt_succ_diag_r k) Hy Hx).
    destruct (decide (j = k)) as [-> | Hjk]; [congruence |].
    assert (j < k) as Hlt by lia.
    pose proof (StronglySorted_lookup _ _ _ _ _ _ Hs Hlt Hz Hy).
    apply Hne. rewrite Hy, Hx. f_equal. lia.
  - intros Hall. apply Hall. lia.
Qed.

Lemma is_last_sorted st i :
  StronglySorted Z.le st -> i < length st ->
  is_last st i <-> forall j, i < j < length st -> st !! j ≠ st !! i.
Proof.
  intros Hs Hi. unfold is_last.
  destruct (lookup_lt_is_Some_2 st i) as [y Hy]; [lia |].
  split.
  - intros [Hn | Hne] j Hj; [lia |].
    destruct (lookup_lt_is_Some_2 st (S i)) as [x Hx]; [lia |].
    destruct (lookup_lt_is_Some_2 st j) as [z Hz]; [lia |].
    rewrite Hz, Hy. intros [= ->].
    pose proof (StronglySorted_lookup _ _ _ _ _ _ Hs (Nat.lt_succ_diag_r i) Hy Hx).
    destruct (decide (j = S i)) as [-> | Hjk]; [congruence |].
    assert (S i < j) as Hlt by lia.
    pose proof (StronglySorted_lookup _ _ _ _ _ _ Hs Hlt Hx Hz).
    apply Hne. rewrite Hy, Hx. f_equal. lia.
  - intros Hall. destruct (decide (S i = length st)); [by left |].
    right. apply Hall. lia.
Qed.

(** **** Anchors *)

(** C1, counterexample.  One store, three days, no event: the first row
    keeps its date although its indicator is zero. *)
Lemma boundary_row_is_anchor_without_event :
  ~ anchors_are_events (present [1; 1; 1]%Z) (present [10; 11; 12]%Z)
      (present [0; 0; 0]%Z).
Proof.
  intros H. destruct (H 0 10%Z eq_refl) as (v & Hv & Hne).
  injection Hv as <-. done.
Qed.

(** C1, amended.  A row keeps its date in [tmp], that is, it is an
    anchor, exactly when its indicator is not zero or it is the first
    or the last row of its store's group; every other row has a missing
    [tmp].  On a frame sorted by store, the first (last) row of a group
    is the row no earlier (later) row shares its store with. *)
Theorem anchors_are_events_and_group_ends st dt f i d :
  length dt = length st -> length f = length st -> dt !! i = Some d ->
  let tmp := tmp_column (idx_mask (present st)) (present dt) (present f) in
  let kept := f !! i ≠ Some 0%Z \/ is_first st i \/ is_last st i in
  (tmp !! i = Some (Some d) <-> kept)
  /\ (tmp !! i = Some None <-> ~ kept)
  /\ (StronglySorted Z.le st ->
      (is_first st i <-> forall j, j < i -> st !! j ≠ st !! i)
      /\ (is_last st i <-> forall j, i < j < length st -> st !! j ≠ st !! i)).
Proof.
  intros Hdt Hf Hd tmp kept.
  assert (i < length st) as Hi by (rewrite <- Hdt; by eapply lookup_lt_Some).
  unfold tmp. rewrite (tmp_column_present st dt f i d) by done.
  fold (anchor st f i) in kept. subst kept.
  split; [| split].
  - case_decide; split; try done; by intros [= ?].
  - case_decide; split; try done; by intros [= ?].
  - intros Hs. split; [by apply is_first_sorted | by apply is_last_sorted].
Qed.

Lemma anchors_are_events_and_group_ends_witness :
  tmp_column (idx_mask (present [1; 1; 2]%Z)) (present [10; 11; 10]%Z)
    (present [0; 0; 0]%Z) !! 1 = Some (Some 11%Z).
Proof.
  apply (anchors_are_events_and_group_ends
           [1; 1; 2]%Z [10; 11; 10]%Z [0; 0; 0]%Z 1 11%Z
           eq_refl eq_refl eq_refl).
  right. right. right. simpl. discriminate.
Defined.

(** **** Groups without events *)

Lemma three_days_one_group : group_span [1; 1; 1]%Z 0 2.
Proof.
  split; [simpl; lia |]. split; [| split; [exact I | by left]].
  intros k Hk. assert (k = 0 \/ k = 1 \/ k = 2) as [-> | [-> | ->]] by lia; done.
Qed.

(** C2, counterexample.  One store, three days, no event: on the middle
    day [After] is 1 and [Before] is 1, not missing. *)
Lemma no_event_group_has_distances :
  ~ no_event_group_all_missing [1; 1; 1]%Z [10; 11; 12]%Z [0; 0; 0]%Z.
Proof.
  intros H. destruct (H 0 2 three_days_one_group) with (i := 1) as [Ha _].
  - intros k Hk.
    assert (k = 0 \/ k = 1 \/ k = 2) as [-> | [-> | ->]] by lia; done.
  - lia.
  - vm_compute in Ha. discriminate.
Qed.

(** C2, amended.  In a group where the indicator is zero on every row
    the distances are never missing: they are measured to the ends of
    the group.  [After] is the day count since the group's first row,
    except on the last row, where it is zero; [Before] is the day count
    until the group's last row, except on the first row, where it is
    zero. *)
Theorem no_event_group_distances st dt f a b i d da db :
  length dt = length st -> length f = length st ->
  group_span st a b ->
  (forall k, a <= k <= b -> f !! k = Some 0%Z) ->
  a <= i <= b ->
  dt !! i = Some d -> dt !! a = Some da -> dt !! b = Some db ->
  After (idx_mask (present st)) (present dt) (present f) !! i
  = Some (Some (if decide (i = b) then 0 else d - da)%Z)
  /\ Before (idx_mask (present st)) (present dt) (present f) !! i
     = Some (Some (if decide (i = a) then 0 else db - d)%Z).
Proof.
  intros Hdt Hf Hg Hzero Hi Hd Hda Hdb.
  pose proof Hg as (Hab & Hsame & Hfirst & Hlast).
  split.
  - case_decide as Hib.
    + subst i. rewrite <- (Z.sub_diag d).
      apply (After_nearest st dt f Hdt Hf b b); try done.
      * right. by right.
      * intros; lia.
    + apply (After_nearest st dt f Hdt Hf i a); try done; [lia | |].
      * right. by left.
      * intros k Hk. apply (no_anchor_inside st f a b); [done.. | lia].
  - case_decide as Hia.
    + subst i. rewrite <- (Z.sub_diag d).
      apply (Before_nearest st dt f Hdt Hf a a); try done.
      * right. by left.
      * intros; lia.
    + apply (Before_nearest st dt f Hdt Hf i b); try done; [lia | |].
      * right. by right.
      * intros k Hk. apply (no_anchor_inside st f a b); [done.. | lia].
Qed.

Lemma no_event_group_distances_witness :
  After (idx_mask (present [1; 1; 1]%Z)) (present [10; 11; 12]%Z)
    (present [0; 0; 0]%Z) !! 1 = Some (Some 1%Z)
  /\ Before (idx_mask (present [1; 1; 1]%Z)) (present [10; 11; 12]%Z)
       (present [0; 0; 0]%Z) !! 1 = Some (Some 1%Z).
Proof.
  refine (no_event_group_distances
            [1; 1; 1]%Z [10; 11; 12]%Z [0; 0; 0]%Z 0 2 1 11%Z 10%Z 12%Z
            eq_refl eq_refl three_days_one_group _ _ eq_refl eq_refl eq_refl).
  - intros k Hk.
    assert (k = 0 \/ k = 1 \/ k = 2) as [-> | [-> | ->]] by lia; reflexivity.
  - lia.
Defined.

(** **** Distances to the nearest anchor *)



End ElapsedClaims.

(** *** The event-distance cell on frames *)

Module ElapsedFrame.
Import Series Frame Notebook Vocabulary Samples SortFacts JoinFacts ElapsedFacts.
Import ElapsedClaims.

Lemma bind_Done {A B} (a : A) (k : A -> outcome B) : Done a ≫= k = k a.
Proof. done. Qed.

Lemma getitem_Done c df :
  c ∈ columns df -> getitem c df = Done (column c df).
Proof. intros Hc. unfold getitem. by rewrite decide_True. Qed.

Lemma columns_setitem c s df : columns df ⊆ columns (setitem c s df).
Proof.
  unfold setitem. simpl. case_decide; [done |].
  intros x Hx. apply elem_of_app. by left.
Qed.

Lemma columns_setitem_new c s df : c ∈ columns (setitem c s df).
Proof.
  unfold setitem. simpl. case_decide; [done |].
  apply elem_of_app. right. by left.
Qed.

Lemma cell_of_insert c c' v (r : gmap string cell) :
  cell_of c (<[c' := v]> r) = if decide (c' = c) then v else cell_of c r.
Proof.
  unfold cell_of. rewrite lookup_insert. by case_decide.
Qed.

Lemma cell_of_delete c c' (r : gmap string cell) :
  c' ≠ c -> cell_of c (delete c' r) = cell_of c r.
Proof. intros Hne. unfold cell_of. by rewrite lookup_delete_ne. Qed.

Lemma length_column c df : length (column c df) = len df.
Proof. apply length_fmap. Qed.

(** Reading back the column that was just assigned, and another one. *)
Lemma column_setitem_eq c s df :
  length s = len df -> column c (setitem c s df) = s.
Proof.
  intros Hlen. unfold column, setitem, len in *. simpl.
  apply list_eq. intros i.
  rewrite list_lookup_fmap, list_lookup_imap.
  destruct (rows df !! i) as [r|] eqn:Hr; simpl.
  - rewrite cell_of_insert, decide_True by done.
    destruct (lookup_lt_is_Some_2 s i) as [x ->]; [| done].
    rewrite Hlen. by eapply lookup_lt_Some.
  - symmetry. apply lookup_ge_None. rewrite Hlen.
    by apply lookup_ge_None.
Qed.

Lemma column_setitem_ne c c' s df :
  c' ≠ c -> column c (setitem c' s df) = column c df.
Proof.
  intros Hne. unfold column, setitem. simpl.
  apply list_eq. intros i.
  rewrite !list_lookup_fmap, list_lookup_imap.
  destruct (rows df !! i) as [r|]; simpl; [| done].
  by rewrite cell_of_insert, decide_False.
Qed.

Lemma len_setitem c s df : len (setitem c s df) = len df.
Proof. unfold len, setitem. simpl. apply length_imap. Qed.

Lemma length_After mask (Date fld : Series) :
  length (After mask Date fld) = length Date.
Proof.
  unfold After, ffill.
  rewrite length_zip_with, length_ffill_from, length_tmp_column. lia.
Qed.

Lemma length_Before mask (Date fld : Series) :
  length (Before mask Date fld) = length Date.
Proof.
  unfold Before.
  rewrite length_zip_with, length_bfill, length_tmp_column. lia.
Qed.

(** A missing date gives missing distances. *)
Lemma After_missing_date mask (Date fld : Series) i :
  Date !! i = Some None -> After mask Date fld !! i = Some None.
Proof.
  intros Hd. unfold After. rewrite lookup_zip_with, Hd. simpl.
  destruct (lookup_lt_is_Some_2 (ffill (tmp_column mask Date fld)) i)
    as [y ->]; [| done].
  unfold ffill. rewrite length_ffill_from, length_tmp_column.
  by eapply lookup_lt_Some.
Qed.

Lemma Before_missing_date mask (Date fld : Series) i :
  Date !! i = Some None -> Before mask Date fld !! i = Some None.
Proof.
  intros Hd. unfold Before. rewrite lookup_zip_with, Hd.
  destruct (lookup_lt_is_Some_2 (bfill (tmp_column mask Date fld)) i)
    as [y ->]; [| by destruct y].
  rewrite length_bfill, length_tmp_column. by eapply lookup_lt_Some.
Qed.

(** **** Sorting by store and date gives what the column lemmas ask *)

Lemma StronglySorted_lookup_2 {A} (R : relation A) l :
  (forall i j x y, i < j -> l !! i = Some x -> l !! j = Some y -> R x y) ->
  StronglySorted R l.
Proof.
  induction l as [|x l IH]; intros H; constructor.
  - apply IH. intros i j y z Hij Hy Hz. apply (H (S i) (S j)); [lia | done..].
  - apply Forall_forall. intros y [j Hj]%list_elem_of_lookup.
    apply (H 0 (S j)); [lia | done..].
Qed.

Lemma lookup_column c df (col : list Z) i x :
  column c df = present col -> col !! i = Some x ->
  exists r, rows df !! i = Some r /\ cell_of c r = Some x.
Proof.
  intros Hc Hx.
  assert (column c df !! i = Some (Some x)) as Hl
    by (by rewrite Hc, lookup_present, Hx).
  unfold column in Hl. rewrite list_lookup_fmap in Hl.
  destruct (rows df !! i) as [r|]; [| done]. simpl in Hl.
  exists r. split; [done | congruence].
Qed.

Lemma row_le_store_date (r1 r2 : gmap string cell) s1 d1 s2 d2 :
  cell_of "Store" r1 = Some s1 -> cell_of "Date" r1 = Some d1 ->
  cell_of "Store" r2 = Some s2 -> cell_of "Date" r2 = Some d2 ->
  row_le true ["Store"; "Date"] r1 r2 = true ->
  (s1 <= s2)%Z /\ (s1 = s2 -> (d1 <= d2)%Z).
Proof.
  unfold row_le. simpl. intros -> -> -> ->. simpl.
  destruct (Z.leb_spec s1 s2); [| done].
  destruct (Z.leb_spec s2 s1), (Z.leb_spec d1 d2); try done; intros _; lia.
Qed.

(** After [sort_values(by=['Store', 'Date'])], with no key missing, the
    store column ascends and the dates ascend inside each store. *)
Lemma sorted_frame_columns df pdf st dt :
  sort_values ["Store"; "Date"] true df = Done pdf ->
  column "Store" pdf = present st ->
  column "Date" pdf = present dt ->
  StronglySorted Z.le st /\ dates_ascend_in_store st dt.
Proof.
  intros [Hs _]%sort_values_sorted Hst Hdt.
  assert (forall i j si sj di dj,
            i < j -> st !! i = Some si -> st !! j = Some sj ->
            dt !! i = Some di -> dt !! j = Some dj ->
            (si <= sj)%Z /\ (si = sj -> (di <= dj)%Z)) as Hord.
  { intros i j si sj di dj Hij Hsi Hsj Hdi Hdj.
    destruct (lookup_column _ _ _ _ _ Hst Hsi) as (ri & Hri & Hri_s).
    destruct (lookup_column _ _ _ _ _ Hst Hsj) as (rj & Hrj & Hrj_s).
    destruct (lookup_column _ _ _ _ _ Hdt Hdi) as (ri' & Hri' & Hri_d).
    destruct (lookup_column _ _ _ _ _ Hdt Hdj) as (rj' & Hrj' & Hrj_d).
    assert (ri' = ri) as -> by congruence.
    assert (rj' = rj) as -> by congruence.
    apply (row_le_store_date ri rj); try done.
    by apply (StronglySorted_lookup _ _ i j ri rj Hs). }
  assert (length dt = length st) as Hlen.
  { rewrite <- (length_present dt), <- (length_present st), <- Hst, <- Hdt.
    by rewrite !length_column. }
  split.
  - apply StronglySorted_lookup_2. intros i j x y Hij Hx Hy.
    destruct (lookup_lt_is_Some_2 dt i) as [di Hdi];
      [rewrite Hlen; by eapply lookup_lt_Some |].
    destruct (lookup_lt_is_Some_2 dt j) as [dj Hdj];
      [rewrite Hlen; by eapply lookup_lt_Some |].
    by destruct (Hord i j x y di dj).
  - intros k s d d' Hs1 Hs2 Hd1 Hd2.
    destruct (Hord k (S k) s s d d') as [_ Hle]; try done; [lia |].
    by apply Hle.
Qed.

(** **** The loop over the event fields *)

Ltac pick_field H :=
  repeat (apply elem_of_cons in H as [-> | H]);
  try (by apply elem_of_nil in H).

(** One turn of the loop leaves the source columns alone and writes the
    two columns of its indicator. *)
Lemma elapsed_field_carries mask fs pdf0 pdf field :
  fs ⊆ event_fields -> field ∈ event_fields ->
  carries mask fs pdf0 pdf ->
  exists pdf',
    elapsed_field mask pdf field = Done pdf'
    /\ carries mask (field :: fs) pdf0 pdf'
    /\ "tmp" ∈ columns pdf'.
Proof.
  intros Hfs Hfield (Hcols & Hsrc & Hder). unfold elapsed_field.
  rewrite (getitem_Done "Date") by (apply Hcols; right; left).
  rewrite (getitem_Done field)
    by (apply Hcols; right; right; exact Hfield).
  rewrite !bind_Done.
  rewrite (Hsrc "Date") by (right; left).
  rewrite (Hsrc field) by (right; right; exact Hfield).
  assert (length (column "Date" pdf0) = len pdf) as Hlen.
  { rewrite <- (Hsrc "Date") by (right; left). apply length_column. }
  eexists. split; [reflexivity |]. split; [split; [| split] |].
  - etrans; [exact Hcols |].
    etrans; [apply columns_setitem |].
    etrans; [apply columns_setitem |]. apply columns_setitem.
  - intros c Hc. rewrite <- (Hsrc c Hc).
    unfold source_columns, event_fields in Hc.
    pick_field Hc; pick_field Hfield; by rewrite !column_setitem_ne.
  - intros f Hf.
    assert (f = field \/ (f ≠ field /\ f ∈ fs)) as [-> | [Hne Hin]].
    { apply elem_of_cons in Hf as [-> | Hf]; [by left |].
      destruct (decide (f = field)); [by left | by right]. }
    + split.
      * rewrite column_setitem_ne, column_setitem_eq; [done | |].
        -- by rewrite len_setitem, length_After.
        -- unfold event_fields in Hfield. pick_field Hfield; done.
      * rewrite column_setitem_eq; [done |].
        by rewrite !len_setitem, length_Before.
    + destruct (Hder f Hin) as [<- <-].
      pose proof (Hfs f Hin) as Hf'. unfold event_fields in Hf', Hfield.
      pick_field Hf'; pick_field Hfield; try done;
        by rewrite !column_setitem_ne.
  - apply columns_setitem, columns_setitem, columns_setitem_new.
Qed.

Lemma for_fields_carries mask fields fs pdf0 pdf :
  fields ⊆ event_fields -> fs ⊆ event_fields ->
  carries mask fs pdf0 pdf ->
  exists pdf',
    for_fields (elapsed_field mask) fields pdf = Done pdf'
    /\ carries mask (reverse fields ++ fs) pdf0 pdf'
    /\ (fields ≠ [] -> "tmp" ∈ columns pdf').
Proof.
  revert fs pdf. induction fields as [|f fields IH]; intros fs pdf Hfields Hfs Hc.
  { exists pdf. by split. }
  destruct (elapsed_field_carries mask fs pdf0 pdf f) as (pdf1 & H1 & Hc1 & Ht1);
    [done | apply Hfields; left | done |].
  destruct (IH (f :: fs) pdf1) as (pdf' & H' & Hc' & Ht').
  { intros x Hx. apply Hfields. by right. }
  { intros x [-> | Hx]%elem_of_cons; [apply Hfields; left | by apply Hfs]. }
  { done. }
  exists pdf'. simpl. rewrite H1, bind_Done. split; [done |].
  split; [by rewrite reverse_cons, <- app_assoc |].
  intros _. destruct fields as [|f' fields]; [| by apply Ht'].
  simpl in H'. by injection H' as <-.
Qed.

Lemma carries_refl mask pdf :
  source_columns ⊆ columns pdf -> carries mask [] pdf pdf.
Proof.
  intros Hc. split; [done |]. split; [done |]. by intros f ?%elem_of_nil.
Qed.

Lemma column_drop_column c c' df out :
  c' ≠ c -> drop_column c' df = Done out -> column c out = column c df.
Proof.
  intros Hne. unfold drop_column. case_decide; [| done]. intros [= <-].
  unfold column. simpl. rewrite <- list_fmap_compose.
  apply list_fmap_ext. intros i r _. simpl. by apply cell_of_delete.
Qed.

(** The cell as a whole: it returns the frame with the six distance
    columns, each one what [After] or [Before] gives on the store, date
    and indicator columns of the sorted frame. *)
Lemma get_elapsed_columns pdf :
  source_columns ⊆ columns pdf -> rows pdf ≠ [] ->
  exists out,
    get_elapsed pdf = Done out
    /\ carries (idx_mask (column "Store" pdf)) event_fields pdf out.
Proof.
  intros Hcols Hne. unfold get_elapsed.
  rewrite (getitem_Done "Store") by (apply Hcols; left).
  rewrite bind_Done, decide_True; last first.
  { unfold last_indices, first_indices.
    rewrite length_app, length_tail, length_fmap, length_diff, length_column.
    unfold len. destruct (rows pdf); [done | simpl; lia]. }
  destruct (for_fields_carries
              (idx_mask (column "Store" pdf)) event_fields [] pdf pdf)
    as (pdf' & -> & (Hcols' & Hsrc & Hder) & Htmp);
    [done | by intros x ?%elem_of_nil | by apply carries_refl |].
  rewrite bind_Done.
  destruct (drop_column "tmp" pdf') as [out|] eqn:Hout; last first.
  { unfold drop_column in Hout. by rewrite decide_True in Hout by by apply Htmp. }
  exists out. split; [done |]. rewrite app_nil_r in Hder.
  split; [| split].
  - intros c Hc. unfold drop_column in Hout.
    rewrite decide_True in Hout by by apply Htmp. injection Hout as <-. simpl.
    apply list_elem_of_filter. split; [| by apply Hcols'].
    unfold source_columns, event_fields in Hc. pick_field Hc; done.
  - intros c Hc. rewrite <- (Hsrc c Hc).
    apply (column_drop_column c "tmp" pdf'); [| done].
    unfold source_columns, event_fields in Hc. pick_field Hc; done.
  - intros f Hf.
    destruct (Hder f) as [<- <-]; [by apply elem_of_reverse |].
    unfold event_fields in Hf.
    pick_field Hf;
      by rewrite !(column_drop_column _ "tmp" pdf' out).
Qed.

(** The whole computation on a frame without missing keys: it returns,
    the sorted store column ascends, the dates ascend inside each
    store, and the distance columns of the result are [After] and
    [Before] on the sorted columns, which is where the statements on
    columns apply. *)
Lemma event_distance_present df pdf st dt fv f :
  source_columns ⊆ columns df ->
  sort_values ["Store"; "Date"] true df = Done pdf ->
  column "Store" pdf = present st ->
  column "Date" pdf = present dt ->
  f ∈ event_fields -> column f pdf = present fv ->
  st ≠ [] ->
  exists out,
    event_distance df = Done out
    /\ column ("After" +:+ f) out
       = After (idx_mask (present st)) (present dt) (present fv)
    /\ column ("Before" +:+ f) out
       = Before (idx_mask (present st)) (present dt) (present fv)
    /\ length dt = length st /\ length fv = length st
    /\ StronglySorted Z.le st /\ dates_ascend_in_store st dt.
Proof.
  intros Hcols Hsort Hst Hdt Hf Hfv Hne.
  pose proof (sort_values_rows _ _ _ _ Hsort) as [Hc _].
  destruct (get_elapsed_columns pdf) as (out & Hout & _ & _ & Hder).
  { by rewrite Hc. }
  { intros Hnil. apply Hne. apply (fmap_nil_inv Some).
    fold (present st). rewrite <- Hst. unfold column. by rewrite Hnil. }
  exists out. unfold event_distance. rewrite Hsort, bind_Done.
  split; [done |].
  destruct (Hder f Hf) as [-> ->]. rewrite Hst, Hdt, Hfv.
  split; [done |]. split; [done |].
  assert (forall c l, column c pdf = present l -> length l = len pdf) as Hlen.
  { intros c l Hl. by rewrite <- (length_present l), <- Hl, length_column. }
  split; [by rewrite (Hlen _ _ Hdt), (Hlen _ _ Hst) |].
  split; [by rewrite (Hlen _ _ Hfv), (Hlen _ _ Hst) |].
  by apply (sorted_frame_columns df pdf).
Qed.

(** **** Missing keys *)

(** C9, counterexample.  A frame with a missing date on one row and a
    missing store on the other: nothing is raised. *)
Lemma missing_keys_are_not_rejected :
  ~ (has_missing_key missing_date_frame ->
     exists e, event_distance missing_date_frame = Raised e).
Proof.
  intros H. destruct H as [e He].
  - eexists. split; [left |]. by right.
  - vm_compute in He. discriminate.
Qed.

(** C9, amended.  The cell does not look at the keys before it
    computes: on every frame that has the store, date and indicator
    columns and at least one row it sorts, computes and returns a frame
    with the rows of the sorted input and the six distance columns,
    missing keys or not; the only errors are an absent column and an
    empty frame.  A row whose date is missing gets missing [After] and
    [Before] values. *)
Theorem event_distance_accepts_missing_keys df :
  source_columns ⊆ columns df -> rows df ≠ [] ->
  exists pdf out,
    sort_values ["Store"; "Date"] true df = Done pdf
    /\ rows pdf ≡ₚ rows df
    /\ event_distance df = Done out
    /\ len out = len df
    /\ carries (idx_mask (column "Store" pdf)) event_fields pdf out
    /\ forall i f,
         f ∈ event_fields -> column "Date" pdf !! i = Some None ->
         column ("After" +:+ f) out !! i = Some None
         /\ column ("Before" +:+ f) out !! i = Some None.
Proof.
  intros Hcols Hne. unfold event_distance.
  assert (exists pdf, sort_values ["Store"; "Date"] true df = Done pdf)
    as [pdf Hpdf].
  { unfold sort_values. rewrite check_columns_Done; [by eexists |].
    intros c Hc. apply Hcols. unfold source_columns.
    pick_field Hc; [left | right; left]. }
  pose proof (sort_values_sorted _ _ _ _ Hpdf) as [_ Hperm].
  pose proof (sort_values_rows _ _ _ _ Hpdf) as [Hc _].
  destruct (get_elapsed_columns pdf) as (out & Hout & Hcar).
  { by rewrite Hc. }
  { intros Hnil. rewrite Hnil in Hperm.
    by apply Permutation_nil in Hperm. }
  pose proof Hcar as (_ & Hsrc & Hder).
  exists pdf, out. rewrite Hpdf, bind_Done.
  split; [done |]. split; [done |]. split; [done |].
  split; [| split; [done |]].
  - rewrite <- (length_column "Store" out), (Hsrc "Store") by left.
    rewrite length_column. unfold len. by rewrite Hperm.
  - intros i f Hf Hd. destruct (Hder f Hf) as [-> ->].
    split; [by apply After_missing_date | by apply Before_missing_date].
Qed.

Lemma event_distance_accepts_missing_keys_witness :
  exists out,
    event_distance missing_date_frame = Done out /\ len out = 2.
Proof.
  destruct (event_distance_accepts_missing_keys missing_date_frame)
    as (pdf & out & _ & _ & Hout & Hlen & _).
  - done.
  - discriminate.
  - exists out. split; [exact Hout | exact Hlen].
Defined.

End ElapsedFrame.

(** ** Rolling sums *)

Module RollingFacts.
Import Series Frame Notebook Vocabulary SortFacts JoinFacts ElapsedFacts.
Import ElapsedFrame.

(** *** One column *)

Lemma rolling_sum_lookup w mp (s : Series) i :
  i < length s -> rolling_sum w mp s !! i = Some (window_sum w mp s i).
Proof.
  intros Hi. unfold rolling_sum.
  by rewrite list_lookup_fmap, lookup_seq_lt.
Qed.

Lemma length_window w (s : Series) i :
  i < length s -> length (window w s i) = Nat.min (S i) w.
Proof. intros Hi. unfold window. rewrite length_drop, length_take. lia. Qed.

Lemma window_first w (s : Series) x :
  0 < w -> window w (x :: s) 0 = [x].
Proof.
  intros Hw. unfold window. replace (1 - w) with 0 by lia.
  simpl. by rewrite take_0.
Qed.

Lemma sum_Z_cons x l : sum_Z (x :: l) = (x + sum_Z l)%Z.
Proof. done. Qed.






(** *** Indicator columns *)

Lemma indicator_sum (s : Series) :
  Forall indicator_cell s ->
  length (omap id s) = length s
  /\ (0 <= sum_Z (omap id s) <= Z.of_nat (length s))%Z.
Proof.
  induction 1 as [|c s Hc _ [IHlen IH]]; [simpl; lia |].
  assert (exists z, c = Some z /\ (0 <= z <= 1)%Z) as (z & -> & Hz)
    by (destruct Hc as [-> | ->]; eexists; split; try done; lia).
  assert (omap id (Some z :: s) = z :: omap id s) as -> by done.
  rewrite sum_Z_cons, !length_cons, Nat2Z.inj_succ, IHlen. lia.
Qed.

Lemma window_sum_bounded (s : Series) i :
  Forall indicator_cell s -> i < length s ->
  exists v, window_sum 7 1 s i = Some v /\ (0 <= v <= 7)%Z.
Proof.
  intros Hs Hi. unfold window_sum.
  assert (Forall indicator_cell (window 7 s i)) as Hw
    by (unfold window; by apply Forall_drop, Forall_take).
  destruct (indicator_sum _ Hw) as [Hlen Hsum].
  rewrite length_window in Hlen, Hsum by done.
  rewrite decide_True by lia. eexists. split; [done |]. lia.
Qed.

(** With no earlier row the window holds the row alone. *)
Lemma window_sum_first (s : Series) c : window_sum 7 1 (c :: s) 0 = c.
Proof.
  unfold window_sum. rewrite window_first by lia.
  destruct c as [x|]; simpl; [| done]. by rewrite Z.add_0_r.
Qed.

(** *** Groups *)

Lemma groupby_rolling_rows df out :
  groupby_rolling df = Done out ->
  rows out
  = group_keys (cell_of "Store" <$> rows df) ≫=
      (fun k => rolling_group event_fields (group_rows k (rows df))).
Proof.
  unfold groupby_rolling.
  destruct (check_columns ("Store" :: event_fields) df); [| done].
  rewrite bind_Done. by intros [= <-].
Qed.

Lemma rolling_group_lookup g i r' :
  rolling_group event_fields g !! i = Some r' ->
  exists r,
    g !! i = Some r
    /\ cell_of "Store" r' = cell_of "Store" r
    /\ cell_of "Date" r' = cell_of "Date" r
    /\ forall f, f ∈ event_fields ->
         cell_of f r' = window_sum 7 1 (cell_of f <$> g) i.
Proof.
  unfold rolling_group. rewrite list_lookup_imap.
  destruct (g !! i) as [r|] eqn:Hr; [| done]. simpl. intros [= <-].
  exists r. split; [done |].
  assert (i < length g) as Hi by by eapply lookup_lt_Some.
  split; [| split].
  - by rewrite cell_of_insert, decide_True.
  - by rewrite !cell_of_insert, decide_False, decide_True.
  - intros f Hf. rewrite !cell_of_insert.
    unfold event_fields in Hf.
    pick_field Hf; repeat case_decide; try done;
      by rewrite rolling_sum_lookup by by rewrite length_fmap.
Qed.

Lemma sort_index_rows asc df out :
  sort_index asc df = Done out ->
  rows out = sort_by (row_le asc ["Date"]) (rows df)
  /\ rows out ≡ₚ rows df.
Proof.
  intros H. pose proof (sort_values_rows _ _ _ _ H) as [_ ->].
  split; [done | apply sort_by_Permutation].
Qed.





End RollingFacts.

(** *** What the rolling frames hold *)

Module RollingClaims.
Import Series Frame Notebook Vocabulary Samples SortFacts JoinFacts.
Import ElapsedFacts ElapsedFrame RollingFacts.

Lemma bwd_inv df b :
  bwd df = Done b ->
  exists asc, sort_index true df = Done asc /\ groupby_rolling asc = Done b.
Proof.
  unfold bwd. destruct (sort_index true df) as [asc|]; [| done].
  rewrite bind_Done. eauto.
Qed.

Lemma fwd_inv df fw :
  fwd df = Done fw ->
  exists desc, sort_index false df = Done desc /\ groupby_rolling desc = Done fw.
Proof.
  unfold fwd. destruct (sort_index false df) as [desc|]; [| done].
  rewrite bind_Done. eauto.
Qed.

Lemma rolling_rows_bounded df sorted out asc r f :
  indicator_frame df ->
  sort_index asc df = Done sorted -> groupby_rolling sorted = Done out ->
  r ∈ rows out -> f ∈ event_fields ->
  exists v, cell_of f r = Some v /\ (0 <= v <= 7)%Z.
Proof.
  intros Hind Hsort Hroll Hr Hf.
  apply groupby_rolling_rows in Hroll. rewrite Hroll in Hr.
  apply list_elem_of_bind in Hr as (k & Hr & _).
  apply list_elem_of_lookup in Hr as [i Hi].
  destruct (rolling_group_lookup _ _ _ Hi) as (r0 & Hr0 & _ & _ & Hcell).
  rewrite (Hcell f Hf). apply window_sum_bounded.
  - apply Forall_fmap, Forall_forall. intros x Hx. simpl.
    apply Hind; [| done].
    apply list_elem_of_filter in Hx as [_ Hx].
    destruct (sort_index_rows _ _ _ Hsort) as [_ Hperm]. by rewrite <- Hperm.
  - rewrite length_fmap. by eapply lookup_lt_Some.
Qed.

(** C5.  With window 7 and indicator columns of zeros and ones, every
    sum in the backward and in the forward frame lies in [0, 7]; the
    backward frame is made of one block per store, in the date order of
    the store's rows, and the first row of a block holds that row's own
    indicator values. *)
Theorem rolling_sums_bounded df b fw :
  indicator_frame df -> bwd df = Done b -> fwd df = Done fw ->
  (forall r f,
     r ∈ rows b ++ rows fw -> f ∈ event_fields ->
     exists v, cell_of f r = Some v /\ (0 <= v <= 7)%Z)
  /\ exists asc,
       sort_index true df = Done asc
       /\ rows b
          = group_keys (cell_of "Store" <$> rows asc) ≫=
              (fun k => rolling_group event_fields (group_rows k (rows asc)))
       /\ forall k g0 g,
            group_rows k (rows asc) = g0 :: g ->
            exists r' rest,
              rolling_group event_fields (g0 :: g) = r' :: rest
              /\ cell_of "Date" r' = cell_of "Date" g0
              /\ forall f, f ∈ event_fields -> cell_of f r' = cell_of f g0.
Proof.
  intros Hind Hb Hfw.
  destruct (bwd_inv _ _ Hb) as (asc & Hasc & Hrb).
  destruct (fwd_inv _ _ Hfw) as (desc & Hdesc & Hrf).
  split.
  - intros r f [Hr | Hr]%elem_of_app Hf.
    + by apply (rolling_rows_bounded df asc b true).
    + by apply (rolling_rows_bounded df desc fw false).
  - exists asc. split; [done |]. split; [by apply groupby_rolling_rows |].
    intros k g0 g Hg.
    destruct (rolling_group event_fields (g0 :: g)) as [|r' rest] eqn:Hrg;
      [done |].
    exists r', rest. split; [done |].
    destruct (rolling_group_lookup (g0 :: g) 0 r') as (r0 & Hr0 & _ & Hd & Hcell);
      [by rewrite Hrg |].
    injection Hr0 as <-. split; [done |].
    intros f Hf. rewrite (Hcell f Hf). apply window_sum_first.
Qed.

Lemma nine_days_indicator : indicator_frame nine_days.
Proof.
  intros r f Hr Hf. unfold event_fields in Hf. simpl in Hr.
  pick_field Hr; pick_field Hf; vm_compute;
    first [left; reflexivity | right; reflexivity].
Qed.

Lemma nine_days_bwd_run : bwd nine_days = Done nine_days_bwd.
Proof. vm_compute. reflexivity. Qed.

Lemma nine_days_fwd_run : fwd nine_days = Done nine_days_fwd.
Proof. vm_compute. reflexivity. Qed.

Lemma rolling_sums_bounded_witness :
  exists v,
    cell_of "Promo" <$> last (rows nine_days_bwd) = Some (Some v)
    /\ (0 <= v <= 7)%Z.
Proof.
  destruct (last (rows nine_days_bwd)) as [r|] eqn:Hr; [| discriminate Hr].
  destruct (proj1 (rolling_sums_bounded nine_days nine_days_bwd nine_days_fwd
                     nine_days_indicator nine_days_bwd_run nine_days_fwd_run)
              r "Promo") as (v & Hv & Hle).
  - apply elem_of_app. left. apply list_elem_of_lookup.
    exists 8. rewrite <- Hr. reflexivity.
  - right. right. left.
  - exists v. simpl. by rewrite Hv.
Defined.



End RollingClaims.

(** ** Features across the two partitions *)

Module PipelineClaims.
Import Series Frame Notebook Vocabulary Samples.

(** C10.  The features are computed on the appended frame, so a change
    in one training row changes derived values on unchanged test rows:
    a promotion on training day 2 changes [AfterPromo] and [Promo_bw] on
    the test days, a promotion on training day 6 changes [BeforePromo]
    and [Promo_fw] on them; and a promotion on test day 4 changes the
    four columns on unchanged training rows. *)
Theorem features_cross_partitions :
  test_feature "Date" (run train_rows test_rows)
  = Some [Some 3; Some 4; Some 5]%Z
  /\ test_feature "Date" (run train_promo_day2 test_rows)
     = test_feature "Date" (run train_rows test_rows)
  /\ test_feature "Promo" (run train_promo_day2 test_rows)
     = test_feature "Promo" (run train_rows test_rows)
  /\ test_feature "Promo" (run train_promo_day6 test_rows)
     = test_feature "Promo" (run train_rows test_rows)
  /\ test_feature "AfterPromo" (run train_rows test_rows)
     = Some [Some 2; Some 3; Some 4]%Z
  /\ test_feature "AfterPromo" (run train_promo_day2 test_rows)
     = Some [Some 1; Some 2; Some 3]%Z
  /\ test_feature "Promo_bw" (run train_rows test_rows)
     = Some [Some 0; Some 0; Some 0]%Z
  /\ test_feature "Promo_bw" (run train_promo_day2 test_rows)
     = Some [Some 1; Some 1; Some 1]%Z
  /\ test_feature "BeforePromo" (run train_rows test_rows)
     = Some [Some 4; Some 3; Some 2]%Z
  /\ test_feature "BeforePromo" (run train_promo_day6 test_rows)
     = Some [Some 3; Some 2; Some 1]%Z
  /\ test_feature "Promo_fw" (run train_rows test_rows)
     = Some [Some 0; Some 0; Some 0]%Z
  /\ test_feature "Promo_fw" (run train_promo_day6 test_rows)
     = Some [Some 1; Some 1; Some 1]%Z
  /\ train_feature "Date" (run train_rows test_promo_day4)
     = Some [Some 1; Some 2; Some 6; Some 7]%Z
  /\ train_feature "Promo" (run train_rows test_promo_day4)
     = train_feature "Promo" (run train_rows test_rows)
  /\ train_feature "AfterPromo" (run train_rows test_rows)
     = Some [Some 0; Some 1; Some 5; Some 0]%Z
  /\ train_feature "AfterPromo" (run train_rows test_promo_day4)
     = Some [Some 0; Some 1; Some 2; Some 0]%Z
  /\ train_feature "BeforePromo" (run train_rows test_rows)
     = Some [Some 0; Some 5; Some 1; Some 0]%Z
  /\ train_feature "BeforePromo" (run train_rows test_promo_day4)
     = Some [Some 0; Some 2; Some 1; Some 0]%Z
  /\ train_feature "Promo_bw" (run train_rows test_rows)
     = Some [Some 0; Some 0; Some 0; Some 0]%Z
  /\ train_feature "Promo_bw" (run train_rows test_promo_day4)
     = Some [Some 0; Some 0; Some 1; Some 1]%Z
  /\ train_feature "Promo_fw" (run train_rows test_rows)
     = Some [Some 0; Some 0; Some 0; Some 0]%Z
  /\ train_feature "Promo_fw" (run train_rows test_promo_day4)
     = Some [Some 1; Some 1; Some 0; Some 0]%Z
  /\ test_feature "AfterPromo" (run train_promo_day2 test_rows)
     ≠ test_feature "AfterPromo" (run train_rows test_rows)
  /\ test_feature "Promo_bw" (run train_promo_day2 test_rows)
     ≠ test_feature "Promo_bw" (run train_rows test_rows)
  /\ test_feature "BeforePromo" (run train_promo_day6 test_rows)
     ≠ test_feature "BeforePromo" (run train_rows test_rows)
  /\ test_feature "Promo_fw" (run train_promo_day6 test_rows)
     ≠ test_feature "Promo_fw" (run train_rows test_rows).
Proof. vm_compute. repeat split; discriminate. Qed.

End PipelineClaims.

(** ** Column clean-up and the joins that assemble the tables *)

Module TableFacts.
Import Series Frame Notebook Vocabulary JoinVocabulary SortFacts JoinFacts.
Import ElapsedFrame Tables.

(** *** Lists and names *)

Lemma filter_ext_in {A} (P Q : A -> Prop)
    `{!forall x, Decision (P x)} `{!forall x, Decision (Q x)} (l : list A) :
  (forall x, x ∈ l -> P x <-> Q x) -> filter P l = filter Q l.
Proof.
  induction l as [|x l IH]; intros Hext; [done |].
  rewrite !filter_cons.
  rewrite IH by (intros y Hy; apply Hext; by right).
  destruct (decide (P x)) as [HP | HP], (decide (Q x)) as [HQ | HQ];
    try done; exfalso; [apply HQ | apply HP]; by apply (Hext x); [left |].
Qed.

Lemma filter_all {A} (P : A -> Prop) `{!forall x, Decision (P x)} (l : list A) :
  (forall x, x ∈ l -> P x) -> filter P l = l.
Proof.
  induction l as [|x l IH]; intros Hall; [done |].
  rewrite filter_cons, decide_True by (apply Hall; left).
  rewrite IH; [done |]. intros y Hy. apply Hall. by right.
Qed.

Lemma length_append (s1 s2 : string) :
  String.length (s1 +:+ s2) = String.length s1 + String.length s2.
Proof. induction s1 as [|a s1 IH]; simpl; [done | by rewrite IH]. Qed.

Lemma substring_all (s : string) : String.substring 0 (String.length s) s = s.
Proof. induction s as [|a s IH]; simpl; [done | by rewrite IH]. Qed.

Lemma substring_append (s1 s2 : string) :
  String.substring (String.length s1) (String.length s2) (s1 +:+ s2) = s2.
Proof. induction s1 as [|a s1 IH]; simpl; [apply substring_all | done]. Qed.

(** A name with the suffix appended ends with the suffix. *)
Lemma endswith_append sfx c : endswith sfx (c +:+ sfx) = true.
Proof.
  unfold endswith. apply bool_decide_eq_true. rewrite length_append.
  replace (String.length c + String.length sfx - String.length sfx)
    with (String.length c) by lia.
  split; [apply substring_append | lia].
Qed.

(** *** [drop_cols] *)

Local Abbreviation step := drop_step.

Lemma drop_cols_foldl gdf : drop_cols gdf = foldl drop_step gdf (columns gdf).
Proof. reflexivity. Qed.

Lemma drop_step_dropped g c :
  dropped g c ->
  step g c = {| columns := filter (fun c' => c' ≠ c) (columns g);
                rows := delete c <$> rows g |}.
Proof.
  intros [He Hc]. unfold drop_step. rewrite He. unfold drop_column.
  by rewrite decide_True.
Qed.

Lemma drop_step_kept g c : ~ dropped g c -> step g c = g.
Proof.
  intros Hn. unfold drop_step. destruct (endswith "_y" c) eqn:He; [| done].
  unfold drop_column. rewrite decide_False; [done |].
  intros Hc. by apply Hn.
Qed.

(** The loop of [drop_cols] over a list of names [cs]: the columns named
    in [cs] that end in [_y] are gone, from the column list and from
    every row, and nothing else has changed. *)
Lemma foldl_drop_step cs g :
  columns (foldl step g cs)
  = filter (fun c => ~ (endswith "_y" c = true /\ c ∈ cs)) (columns g)
  /\ exists f : gmap string cell -> gmap string cell,
       rows (foldl step g cs) = f <$> rows g
       /\ forall r c,
            f r !! c = if decide (c ∈ cs /\ dropped g c) then None else r !! c.
Proof.
  revert g. induction cs as [|c cs IH]; intros g.
  - split.
    + simpl. symmetry. apply filter_all. intros x _ [_ Hx].
      by apply elem_of_nil in Hx.
    + exists id. split; [by rewrite list_fmap_id |].
      intros r c'. rewrite decide_False; [done |].
      intros [Hx _]. by apply elem_of_nil in Hx.
  - change (foldl step g (c :: cs)) with (foldl step (step g c) cs).
    specialize (IH (step g c)).
    destruct (decide (dropped g c)) as [Hd | Hd].
    + rewrite (drop_step_dropped g c Hd) in IH |- *.
      destruct IH as (Hcols & f & Hrows & Hf).
      simpl in Hcols, Hrows. split.
      * rewrite Hcols, list_filter_filter. apply filter_ext_in.
        intros x Hx. destruct Hd as [He _]. split.
        -- intros [Hn Hne] [Hex Hin].
           apply elem_of_cons in Hin as [-> | Hin]; [done |]. by apply Hn.
        -- intros Hn. split.
           ++ intros [Hex Hin]. apply Hn. split; [done | by right].
           ++ intros ->. apply Hn. split; [done | left].
      * exists (fun r => f (delete c r)). split.
        { rewrite Hrows, <- list_fmap_compose. done. }
        intros r c'. rewrite Hf. unfold dropped. simpl.
        destruct (decide (c' = c)) as [-> | Hne].
        -- rewrite decide_False.
           2:{ intros (_ & _ & Hin). apply list_elem_of_filter in Hin. tauto. }
           rewrite lookup_delete_eq. rewrite decide_True; [done |].
           split; [left | done].
        -- rewrite lookup_delete_ne by done.
           apply decide_ext. rewrite list_elem_of_filter, elem_of_cons.
           unfold dropped. split.
           ++ intros (Hin & He & _ & Hc). tauto.
           ++ intros ([-> | Hin] & He & Hc); [done | tauto].
    + rewrite (drop_step_kept g c Hd) in IH |- *.
      destruct IH as (Hcols & f & Hrows & Hf). split.
      * rewrite Hcols. apply filter_ext_in. intros x Hx.
        split; intros Hn [He Hin]; apply Hn; (split; [done |]).
        -- apply elem_of_cons in Hin as [-> | Hin]; [| done].
           exfalso. by apply Hd.
        -- by right.
      * exists f. split; [done |]. intros r c'. rewrite Hf.
        apply decide_ext. rewrite elem_of_cons. split.
        -- intros [Hin Hdr]. tauto.
        -- intros [[-> | Hin] Hdr]; [done | tauto].
Qed.

Lemma drop_cols_rows gdf :
  exists f : gmap string cell -> gmap string cell,
    rows (drop_cols gdf) = f <$> rows gdf
    /\ forall r c, f r !! c = if decide (dropped gdf c) then None else r !! c.
Proof.
  destruct (foldl_drop_step (columns gdf) gdf) as (_ & f & Hrows & Hf).
  exists f. rewrite drop_cols_foldl. split; [exact Hrows |].
  intros r c. rewrite Hf.
  apply decide_ext. unfold dropped. tauto.
Qed.

Lemma drop_cols_columns gdf :
  columns (drop_cols gdf)
  = filter (fun c => endswith "_y" c = false) (columns gdf).
Proof.
  destruct (foldl_drop_step (columns gdf) gdf) as (Hcols & _).
  rewrite drop_cols_foldl, Hcols. apply filter_ext_in. intros x Hx.
  destruct (endswith "_y" x); split; try done.
  - intros Hn. exfalso. by apply Hn.
  - intros _ [? _]. done.
Qed.

Lemma len_drop_cols gdf : len (drop_cols gdf) = len gdf.
Proof.
  destruct (drop_cols_rows gdf) as (f & Hrows & _).
  unfold len. by rewrite Hrows, length_fmap.
Qed.

Lemma df_eq (d1 d2 : DataFrame) :
  columns d1 = columns d2 -> rows d1 = rows d2 -> d1 = d2.
Proof. destruct d1, d2. simpl. by intros -> ->. Qed.

Lemma not_dropped_after gdf c : ~ dropped (drop_cols gdf) c.
Proof.
  intros [He Hc]. rewrite drop_cols_columns in Hc.
  apply list_elem_of_filter in Hc as [Hc _]. congruence.
Qed.

(** X1. [drop_cols] removes exactly the columns whose name ends in
    [_y]: the other columns stay, in their order; every row stays, in
    its place, and loses the cells of the removed columns and no
    other. *)
Theorem drop_cols_removes_suffixed gdf :
  columns (drop_cols gdf)
  = filter (fun c => endswith "_y" c = false) (columns gdf)
  /\ len (drop_cols gdf) = len gdf
  /\ forall i r,
       rows gdf !! i = Some r ->
       exists r',
         rows (drop_cols gdf) !! i = Some r'
         /\ forall c, r' !! c = if decide (dropped gdf c) then None else r !! c.
Proof.
  split; [apply drop_cols_columns |]. split; [apply len_drop_cols |].
  destruct (drop_cols_rows gdf) as (f & Hrows & Hf).
  intros i r Hr. exists (f r). split; [| apply Hf].
  by rewrite Hrows, list_lookup_fmap, Hr.
Qed.

(** X2. Running [drop_cols] a second time changes nothing, and after
    one run no column name ends in [_y]. *)
Theorem drop_cols_idempotent gdf :
  drop_cols (drop_cols gdf) = drop_cols gdf
  /\ Forall (fun c => endswith "_y" c = false) (columns (drop_cols gdf)).
Proof.
  assert (Forall (fun c => endswith "_y" c = false) (columns (drop_cols gdf)))
    as Hall.
  { rewrite drop_cols_columns. apply Forall_forall.
    by intros c [H _]%list_elem_of_filter. }
  split; [| done]. apply df_eq.
  - rewrite (drop_cols_columns (drop_cols gdf)). apply filter_all.
    by apply Forall_forall.
  - destruct (drop_cols_rows (drop_cols gdf)) as (f & -> & Hf).
    rewrite <- (list_fmap_id (rows (drop_cols gdf))) at 2.
    apply list_fmap_ext. intros i r _. apply map_eq. intros c.
    rewrite Hf, decide_False; [done | apply not_dropped_after].
Qed.

(** *** When [merge] returns *)

Lemma check_columns_inv cs df :
  check_columns cs df = Done () -> cs ⊆ columns df.
Proof.
  induction cs as [|c cs IH]; simpl; [intros _ x Hx; by apply elem_of_nil in Hx |].
  case_decide as Hc; [| done]. intros Hcs x Hx.
  apply elem_of_cons in Hx as [-> | Hx]; [done | by apply IH].
Qed.


Lemma merge_left_inv df right left_on right_on sfx out :
  merge_left df right left_on right_on sfx = Done out ->
  left_on ⊆ columns df /\ right_on ⊆ columns right
  /\ length left_on = length right_on
  /\ columns out
     = columns df ++ filter (fun c => c ∉ columns df)
                       (omap (right_name (columns df) left_on right_on sfx)
                          (columns right)).
Proof.
  unfold merge_left.
  destruct (check_columns left_on df) as [[]|] eqn:Hl; [| done].
  destruct (check_columns right_on right) as [[]|] eqn:Hr; [| done]. simpl.
  case_decide as Hlen; [| done]. intros [= <-]. simpl.
  split; [by apply check_columns_inv |].
  split; [by apply check_columns_inv | done].
Qed.


(** *** Fan-out *)

Lemma fans_out_length {A B} (R : A -> B -> Prop) ls os :
  fans_out R ls os -> length ls <= length os.
Proof.
  intros (bs & -> & H). induction H as [|l b ls bs [Hne _] _ IH]; [done |].
  simpl. rewrite length_app. destruct b; [done |]. simpl. lia.
Qed.

Lemma fans_out_spreads {A B} (R : A -> B -> Prop) ls os :
  fans_out R ls os -> spreads R ls os.
Proof. intros (bs & -> & H). by exists bs. Qed.

Lemma fans_out_bind {A B} (R : A -> B -> Prop) (f : A -> list B) ls :
  (forall l, l ∈ ls -> f l ≠ [] /\ Forall (R l) (f l)) ->
  fans_out R ls (ls ≫= f).
Proof.
  intros Hf. exists (f <$> ls). split.
  - clear Hf. induction ls as [|l ls IH]; [done |].
    rewrite bind_cons, fmap_cons. simpl. by rewrite IH.
  - apply Forall2_fmap_r, Forall_Forall2_diag, Forall_forall.
    intros l Hl. by apply Hf.
Qed.

Lemma fans_out_fmap {A B} (R : A -> B -> Prop) (f : A -> B) ls :
  (forall l, l ∈ ls -> R l (f l)) -> fans_out R ls (f <$> ls).
Proof.
  intros Hf. exists ((fun l => [f l]) <$> ls). split.
  - clear Hf. induction ls as [|l ls IH]; [done |].
    rewrite !fmap_cons. simpl. by rewrite IH.
  - apply Forall2_fmap_r, Forall_Forall2_diag, Forall_forall.
    intros l Hl. split; [done |]. apply Forall_singleton. by apply Hf.
Qed.

Lemma concat_nonempty {A B} (b : list A) (ks : list (list B)) bl :
  b ≠ [] -> Forall2 (fun _ k => k ≠ []) b ks -> bl = concat ks -> bl ≠ [].
Proof.
  intros Hb Hks ->. destruct Hks as [|x k b ks Hk _]; [done |].
  simpl. destruct k; [done |]. done.
Qed.

Lemma fans_out_compose {A B C} (R : A -> B -> Prop) (S : B -> C -> Prop)
    (T : A -> C -> Prop) ls ms os :
  (forall a b c, R a b -> S b c -> T a c) ->
  fans_out R ls ms -> fans_out S ms os -> fans_out T ls os.
Proof.
  intros HT (bs1 & -> & H1) (bs2 & -> & H2).
  revert bs2 H2.
  induction H1 as [|l b ls bs1 [Hne Hall] _ IH]; intros bs2 H2.
  - simpl in H2. apply Forall2_nil_inv_l in H2 as ->. exists []. by split.
  - simpl in H2. apply Forall2_app_inv_l in H2 as (k1 & k2 & Hk1 & Hk2 & ->).
    destruct (IH k2 Hk2) as (bs & Hbs & HF).
    exists (concat k1 :: bs). split.
    + rewrite concat_app. simpl. by rewrite Hbs.
    + constructor; [| done]. split.
      * apply (concat_nonempty b k1); [done | | done].
        eapply Forall2_impl; [exact Hk1 |]. by intros ? ? [? _].
      * clear IH Hk2 Hbs HF Hne.
        induction Hk1 as [|m k b k1 [_ Hk] _ IHk]; [constructor |].
        apply Forall_cons in Hall as [Hm Hall]. simpl.
        apply Forall_app. split; [| by apply IHk].
        eapply Forall_impl; [exact Hk |]. intros o. by apply HT.
Qed.

Lemma keeps_cells_subseteq (l o : gmap string cell) : l ⊆ o -> keeps_cells l o.
Proof. intros Hsub c v _ Hl. by eapply lookup_weaken. Qed.

Lemma keeps_cells_trans (a b c : gmap string cell) :
  keeps_cells a b -> keeps_cells b c -> keeps_cells a c.
Proof. intros Hab Hbc x v He Ha. by apply Hbc, Hab. Qed.

Lemma merge_fans_out df right left_on right_on suffix out :
  merge df right left_on right_on suffix = Done out ->
  fans_out keeps_cells (rows df) (rows out).
Proof.
  intros Hm. apply merge_left_rows in Hm. rewrite Hm.
  apply fans_out_bind. intros l _. split.
  - intros Hnil. apply (f_equal length) in Hnil.
    rewrite length_block in Hnil. simpl in Hnil. lia.
  - apply Forall_forall. intros o Ho.
    apply keeps_cells_subseteq. by apply block_extends in Ho.
Qed.

Lemma drop_cols_fans_out gdf :
  fans_out keeps_cells (rows gdf) (rows (drop_cols gdf)).
Proof.
  destruct (drop_cols_rows gdf) as (f & -> & Hf).
  apply fans_out_fmap. intros l _ c v He Hl.
  rewrite Hf, decide_False; [done |]. intros [He' _]. congruence.
Qed.

Lemma keeps_fans_out_compose ls ms os :
  fans_out keeps_cells ls ms -> fans_out keeps_cells ms os ->
  fans_out keeps_cells ls os.
Proof. apply fans_out_compose. apply keeps_cells_trans. Qed.

Lemma bind_inv {A B} (m : outcome A) (k : A -> outcome B) b :
  m ≫= k = Done b -> exists a, m = Done a /\ k a = Done b.
Proof. destruct m as [a|e]; [| done]. intros H. by exists a. Qed.

End TableFacts.

(** ** A join followed by [drop_cols], and the chain of joins *)

Module LookupFacts.
Import Series Frame Notebook Vocabulary JoinVocabulary Samples SortFacts.
Import JoinFacts ElapsedFrame Tables TableSamples TableFacts.

Lemma omap_cons_match {A B} (f : A -> option B) x l :
  omap f (x :: l)
  = match f x with Some y => y :: omap f l | None => omap f l end.
Proof. reflexivity. Qed.

Section lookup.
Context (lcols rcols on : list string).
Hypothesis Hon : on ⊆ lcols.
Hypothesis Hl : forall c, c ∈ lcols -> endswith "_y" c = false.
Hypothesis Hr : forall c, c ∈ rcols -> endswith "_y" c = false.

Local Abbreviation rname := (right_name lcols on on "_y").
Local Abbreviation rpart r :=
  (list_to_map (right_part lcols rcols on on "_y" r) : gmap string cell).

Lemma right_name_inv c0 c :
  rname c0 = Some c ->
  (c = c0 +:+ "_y" /\ c0 ∈ lcols) \/ (c = c0 /\ c0 ∉ lcols).
Proof using Type.
  clear Hon Hl Hr. unfold right_name.
  repeat case_decide; intros [= <-]; tauto.
Qed.

Lemma right_name_new c : c ∉ lcols -> rname c = Some c.
Proof using Hon.
  clear Hl Hr. intros Hc. unfold right_name.
  rewrite decide_False; [by rewrite decide_False |].
  intros Hz%elem_of_zip_l. by apply Hc, Hon.
Qed.

Lemma right_part_inv r c v :
  (c, v) ∈ right_part lcols rcols on on "_y" r ->
  exists c0, c0 ∈ rcols /\ rname c0 = Some c
             /\ v = from_option (cell_of c0) None r.
Proof using Type.
  clear Hon Hl Hr. unfold right_part.
  intros (c0 & Hc0 & Heq)%list_elem_of_omap. exists c0.
  destruct (rname c0) as [c1|]; [| done]. simpl in Heq.
  injection Heq as -> <-. done.
Qed.

Lemma right_part_left r c : c ∈ lcols -> rpart r !! c = None.
Proof using Hl.
  clear Hon Hr. intros Hc. apply not_elem_of_list_to_map_1. intros Hin.
  apply list_elem_of_fmap in Hin as ([c' v] & -> & Hin). simpl in Hc.
  apply right_part_inv in Hin as (c0 & _ & Hn & _).
  apply right_name_inv in Hn as [[-> _] | [-> Hout]]; [| done].
  specialize (Hl _ Hc). by rewrite endswith_append in Hl.
Qed.

Lemma right_part_new r c :
  c ∈ rcols -> c ∉ lcols ->
  rpart r !! c = Some (from_option (cell_of c) None r).
Proof using Hon Hr.
  clear Hl. intros Hc Hout. apply elem_of_list_to_map_1'.
  - intros y Hy. apply right_part_inv in Hy as (c0 & _ & Hn & ->).
    apply right_name_inv in Hn as [[Hn _] | [<- _]]; [| done].
    exfalso. specialize (Hr _ Hc). by rewrite Hn, endswith_append in Hr.
  - unfold right_part. apply list_elem_of_omap. exists c.
    split; [done |]. by rewrite right_name_new.
Qed.

Lemma joined_row_left l r c :
  c ∈ lcols -> cell_of c (joined_row lcols rcols on on "_y" l r) = cell_of c l.
Proof using Hl.
  intros Hc. unfold cell_of, joined_row.
  by rewrite lookup_union_l by by apply right_part_left.
Qed.

Lemma joined_row_new l r c :
  l !! c = None -> c ∈ rcols -> c ∉ lcols ->
  cell_of c (joined_row lcols rcols on on "_y" l r)
  = from_option (cell_of c) None r.
Proof using Hon Hr.
  intros Hlc Hc Hout. unfold cell_of at 1, joined_row.
  rewrite lookup_union_r by done. by rewrite right_part_new.
Qed.

(** Of the columns the right frame brings, those that survive
    [drop_cols] are the ones the left frame does not have. *)
Lemma surviving_right_columns :
  filter (fun c => endswith "_y" c = false)
    (filter (fun c => c ∉ lcols) (omap rname rcols))
  = filter (fun c => c ∉ lcols) rcols.
Proof using Hon Hl Hr.
  revert Hr. induction rcols as [|c cs IH]; intros Hcs; [done |].
  assert (forall c, c ∈ cs -> endswith "_y" c = false) as Hcs'
    by (intros x Hx; apply Hcs; by right).
  specialize (IH Hcs'). rewrite omap_cons_match.
  destruct (decide (c ∈ lcols)) as [Hc | Hc].
  - rewrite (filter_cons_False _ c cs) by tauto.
    destruct (rname c) as [c1|] eqn:Hn; [| done].
    apply right_name_inv in Hn as [[-> _] | [_ ?]]; [| done].
    rewrite filter_cons_True.
    + rewrite filter_cons_False; [done |].
      by rewrite endswith_append.
    + intros Hin. specialize (Hl _ Hin). by rewrite endswith_append in Hl.
  - rewrite right_name_new by done.
    rewrite (filter_cons_True _ c cs) by done.
    rewrite filter_cons_True by done.
    rewrite filter_cons_True by (apply Hcs; left).
    by rewrite IH.
Qed.

End lookup.

(** A join followed by [drop_cols], with the order in which [merge_left]
    lists columns and rows. *)
Lemma merge_then_drop_cols_ordered df right on out :
  merge df right on None None = Done out ->
  (forall c, c ∈ columns df ++ columns right -> endswith "_y" c = false) ->
  well_formed df ->
  columns (drop_cols out)
  = columns df ++ filter (fun c => c ∉ columns df) (columns right)
  /\ fans_out (looks_up df right on) (rows df) (rows (drop_cols out)).
Proof.
  intros Hm Hy Hwf.
  assert (forall c, c ∈ columns df -> endswith "_y" c = false) as Hl
    by (intros c Hc; apply Hy, elem_of_app; by left).
  assert (forall c, c ∈ columns right -> endswith "_y" c = false) as Hr
    by (intros c Hc; apply Hy, elem_of_app; by right).
  unfold merge in Hm. simpl in Hm.
  pose proof (merge_left_inv _ _ _ _ _ _ Hm) as (Hon & _ & _ & Hcols).
  split.
  - rewrite drop_cols_columns, Hcols, filter_app.
    rewrite (filter_all _ (columns df)) by done.
    f_equal. by apply surviving_right_columns.
  - destruct (drop_cols_rows out) as (f & -> & Hf).
    apply merge_left_rows in Hm. rewrite Hm.
    eapply (fans_out_compose
              (fun l o => l ∈ rows df
                          /\ o ∈ join_rows_of (columns df) (columns right)
                                 on on "_y" (rows right) l)
              (fun o o' => o' = f o)).
    2:{ apply fans_out_bind. intros l Hin. split.
        - intros Hnil. apply (f_equal length) in Hnil.
          rewrite length_block in Hnil. simpl in Hnil. lia.
        - apply Forall_forall. by intros o Ho. }
    2:{ apply fans_out_fmap. by intros o _. }
    intros l o o' [Hin Ho] ->.
    assert (forall c, endswith "_y" c = false -> cell_of c (f o) = cell_of c o)
      as Hfo.
    { intros c He. unfold cell_of. rewrite Hf, decide_False; [done |].
      intros [He' _]. congruence. }
    unfold join_rows_of in Ho. split.
    + intros c Hc. rewrite Hfo by by apply Hl.
      destruct (matches on on l (rows right)) as [|m ms].
      * apply list_elem_of_singleton in Ho as ->. by apply joined_row_left.
      * apply list_elem_of_fmap in Ho as (r & -> & _). by apply joined_row_left.
    + destruct (matches on on l (rows right)) as [|m ms].
      * intros c Hc Hout. rewrite Hfo by by apply Hr.
        apply list_elem_of_singleton in Ho as ->.
        rewrite joined_row_new; [done | done | done | | done | done].
        by apply Hwf.
      * apply list_elem_of_fmap in Ho as (r & -> & Hrin).
        exists r. split; [done |]. intros c Hc Hout.
        rewrite Hfo by by apply Hr.
        rewrite joined_row_new; [done | done | done | | done | done].
        by apply Hwf.
Qed.

(** X4. A join on [on] with the default suffix, followed by [drop_cols],
    is a lookup: provided no column name of either frame ends in [_y],
    the result has the columns of the left frame and the columns only
    the right frame has; it holds, for each left row, one or more rows
    and no other row; each of them has the left row's cells on the left
    columns and, on the new columns, the cells of a right row with the
    same key, or missing values when no right row has that key. *)
Theorem merge_then_drop_cols_looks_up df right on out :
  merge df right on None None = Done out ->
  (forall c, c ∈ columns df ++ columns right -> endswith "_y" c = false) ->
  well_formed df ->
  columns (drop_cols out)
  ≡ₚ columns df ++ filter (fun c => c ∉ columns df) (columns right)
  /\ spreads (looks_up df right on) (rows df) (rows (drop_cols out))
  /\ len df <= len (drop_cols out).
Proof.
  intros Hm Hy Hwf.
  destruct (merge_then_drop_cols_ordered df right on out Hm Hy Hwf)
    as [Hcols Hfan].
  split; [by rewrite Hcols |].
  split; [by apply fans_out_spreads | exact (fans_out_length _ _ _ Hfan)].
Qed.

Lemma row_of_lookup cells c :
  c ∉ cells.*1 -> row_of cells !! c = None.
Proof.
  intros Hc. unfold row_of. apply not_elem_of_list_to_map_1.
  by rewrite <- list_fmap_compose.
Qed.

Lemma stores_well_formed : well_formed stores.
Proof.
  intros r c Hr Hc. unfold stores in Hr. simpl in Hr, Hc.
  repeat (apply elem_of_cons in Hr as [-> | Hr]);
    try (by apply elem_of_nil in Hr); by apply row_of_lookup.
Qed.

Lemma stores_names c :
  c ∈ columns stores ++ columns states -> endswith "_y" c = false.
Proof.
  simpl. intros Hc.
  repeat (apply elem_of_cons in Hc as [-> | Hc]);
    try (by apply elem_of_nil in Hc); by vm_compute.
Qed.

Lemma merge_then_drop_cols_looks_up_witness :
  columns (drop_cols stores_with_state) ≡ₚ ["Store"; "StoreType"; "State"]
  /\ len stores <= len (drop_cols stores_with_state).
Proof.
  assert (merge stores states ["Store"] None None = Done stores_with_state)
    as Hm by (vm_compute; reflexivity).
  destruct (merge_then_drop_cols_looks_up stores states ["Store"]
              stores_with_state Hm stores_names stores_well_formed)
    as (Hcols & _ & Hlen).
  split; [exact Hcols | exact Hlen].
Defined.

(** *** The chain of joins *)

Ltac bind_step H x Hx :=
  apply bind_inv in H as (x & Hx & H); cbv beta zeta in H.

(** Three joins, [drop_cols], a fourth join and [drop_cols] again: what
    the notebook does to [train] and to [test]. *)
Lemma four_joins a r1 r2 r3 r4 a1 a2 a3 a4
    k1 k2 k3 k4 o1 o2 o3 o4 s1 s2 s3 s4 :
  merge a r1 k1 o1 s1 = Done a1 ->
  merge a1 r2 k2 o2 s2 = Done a2 ->
  merge a2 r3 k3 o3 s3 = Done a3 ->
  merge (drop_cols a3) r4 k4 o4 s4 = Done a4 ->
  fans_out keeps_cells (rows a) (rows (drop_cols a4)).
Proof.
  intros H1 H2 H3 H4.
  apply merge_fans_out in H1, H2, H3, H4.
  pose proof (drop_cols_fans_out a3) as D3.
  pose proof (drop_cols_fans_out a4) as D4.
  eapply keeps_fans_out_compose; [| exact D4].
  eapply keeps_fans_out_compose; [| exact H4].
  eapply keeps_fans_out_compose; [| exact D3].
  eapply keeps_fans_out_compose; [| exact H3].
  eapply keeps_fans_out_compose; [exact H1 | exact H2].
Qed.

(** X5. The chain of joins never loses or alters a row of [train] or
    [test]: the joined table holds, for each row of the input table, one
    or more rows and no other row, and each of them has every cell of
    that input row whose column name does not end in [_y].  In
    particular the joined tables have at least as many rows as the
    inputs. *)
Theorem join_tables_keeps_rows t train_df test_df :
  join_tables t = Done (train_df, test_df) ->
  spreads keeps_cells (rows (train t)) (rows train_df)
  /\ spreads keeps_cells (rows (test t)) (rows test_df)
  /\ len (train t) <= len train_df
  /\ len (test t) <= len test_df.
Proof.
  intros H. unfold join_tables in H.
  bind_step H w Hw. bind_step H s Hs.
  bind_step H tr1 Htr1. bind_step H te1 Hte1.
  bind_step H tr2 Htr2. bind_step H te2 Hte2.
  bind_step H tr3 Htr3. bind_step H te3 Hte3.
  bind_step H tr4 Htr4. bind_step H te4 Hte4.
  injection H as <- <-.
  assert (fans_out keeps_cells (rows (train t)) (rows (drop_cols tr4))) as Htr.
  { eapply four_joins; [exact Htr1 | exact Htr2 | exact Htr3 | exact Htr4]. }
  assert (fans_out keeps_cells (rows (test t)) (rows (drop_cols te4))) as Hte.
  { eapply four_joins; [exact Hte1 | exact Hte2 | exact Hte3 | exact Hte4]. }
  split; [by apply fans_out_spreads |]. split; [by apply fans_out_spreads |].
  split; eapply fans_out_length; eassumption.
Qed.

Lemma join_tables_keeps_rows_witness :
  len (train small_tables) <= len small_joined.1
  /\ len (test small_tables) <= len small_joined.2.
Proof.
  assert (join_tables small_tables = Done (small_joined.1, small_joined.2))
    as Hj by (vm_compute; reflexivity).
  destruct (join_tables_keeps_rows small_tables _ _ Hj) as (_ & _ & H1 & H2).
  split; [exact H1 | exact H2].
Defined.

(** X6. Attaching the event features never loses or alters a row of the
    training or the test table: the tables [add_features] returns hold,
    for each row of an input table, one or more rows and no other row,
    and each of them has every cell of the input row whose column name
    does not end in [_y]. *)
Theorem add_features_keeps_rows train_df test_df train_out test_out :
  add_features train_df test_df = Done (train_out, test_out) ->
  spreads keeps_cells (rows train_df) (rows train_out)
  /\ spreads keeps_cells (rows test_df) (rows test_out)
  /\ len train_df <= len train_out
  /\ len test_df <= len test_out.
Proof.
  intros H. unfold add_features in H. cbv zeta in H.
  bind_step H d1 Hd1. bind_step H d2 Hd2.
  bind_step H tr Htr. bind_step H te Hte.
  injection H as <- <-.
  assert (fans_out keeps_cells (rows train_df) (rows (drop_cols tr))) as H1.
  { eapply keeps_fans_out_compose; [| apply drop_cols_fans_out].
    eapply merge_fans_out; eassumption. }
  assert (fans_out keeps_cells (rows test_df) (rows (drop_cols te))) as H2.
  { eapply keeps_fans_out_compose; [| apply drop_cols_fans_out].
    eapply merge_fans_out; eassumption. }
  split; [by apply fans_out_spreads |]. split; [by apply fans_out_spreads |].
  split; eapply fans_out_length; eassumption.
Qed.

Lemma add_features_keeps_rows_witness :
  len (train_frame train_rows) <= len featured.1
  /\ len (test_frame test_rows) <= len featured.2.
Proof.
  assert (add_features (train_frame train_rows) (test_frame test_rows)
          = Done (featured.1, featured.2)) as Hrun
    by (vm_compute; reflexivity).
  destruct (add_features_keeps_rows _ _ _ _ Hrun) as (_ & _ & H1 & H2).
  split; [exact H1 | exact H2].
Defined.

End LookupFacts.

(** ** Filtering the training table, the cut-off and the split *)

Module ValidationFacts.
Import Series Frame Notebook Vocabulary JoinVocabulary Samples SortFacts.
Import JoinFacts SplitFacts ElapsedFrame TableSamples TableFacts.

(** *** [train_df[train_df.Sales != 0]] *)

Lemma select_by_mask {A} (f : A -> bool) (m : list bool) (l : list A) :
  m = f <$> l ->
  omap id (imap (fun i r => if default false (m !! i) then Some r else None) l)
  = filter (fun r => f r = true) l.
Proof.
  revert m. induction l as [|x l IH]; intros m ->; [done |].
  rewrite imap_cons, filter_cons. simpl.
  specialize (IH (f <$> l) eq_refl).
  destruct (f x) eqn:Hx; simpl.
  - f_equal. exact IH.
  - exact IH.
Qed.

Lemma ne0_true c : ne0 c = true <-> c ≠ Some 0%Z.
Proof.
  destruct c as [z|]; simpl; [| done].
  destruct (Z.eqb_spec z 0) as [-> | Hz]; simpl; split; try done.
  intros _ [= ->]. done.
Qed.

Lemma select_rows_ne0 c df :
  rows (select_rows (ne0 <$> column c df) df)
  = filter (fun r => cell_of c r ≠ Some 0%Z) (rows df).
Proof.
  unfold select_rows, column. simpl.
  rewrite (select_by_mask (fun r => ne0 (cell_of c r))).
  - apply filter_ext_in. intros r _. apply ne0_true.
  - by rewrite <- list_fmap_compose.
Qed.

(** X7. For a training table in which no [Sales] is missing, the
    filter-and-sort cell returns the rows whose [Sales] is not zero,
    each as often as it was there, in ascending order of [Date] with
    missing dates last; the columns are unchanged. *)
Theorem sort_train_keeps_sold_rows df :
  "Sales" ∈ columns df -> "Date" ∈ columns df ->
  Forall (fun r => cell_of "Sales" r ≠ None) (rows df) ->
  exists out,
    sort_train df = Done out
    /\ columns out = columns df
    /\ rows out ≡ₚ filter (fun r => cell_of "Sales" r ≠ Some 0%Z) (rows df)
    /\ StronglySorted (leR (row_le true ["Date"])) (rows out)
    /\ Forall (fun r => exists s, cell_of "Sales" r = Some s /\ s ≠ 0%Z)
         (rows out).
Proof.
  intros HS HD Hsales. unfold sort_train.
  rewrite (getitem_Done _ _ HS), bind_Done.
  set (kept := select_rows (ne0 <$> column "Sales" df) df).
  assert (exists out, sort_values ["Date"] true kept = Done out) as [out Hout].
  { unfold sort_values. rewrite check_columns_Done; [by eexists |].
    intros c ->%list_elem_of_singleton. exact HD. }
  exists out. split; [exact Hout |].
  destruct (sort_values_rows _ _ _ _ Hout) as [Hc _].
  destruct (sort_values_sorted _ _ _ _ Hout) as [Hs Hp].
  unfold kept in Hp. rewrite select_rows_ne0 in Hp.
  split; [exact Hc |]. split; [exact Hp |]. split; [exact Hs |].
  rewrite Hp. apply Forall_forall. intros r [Hne Hin]%list_elem_of_filter.
  rewrite Forall_forall in Hsales. specialize (Hsales r Hin).
  destruct (cell_of "Sales" r) as [s|]; [| done].
  exists s. split; [done |]. by intros ->.
Qed.

Lemma sort_train_keeps_sold_rows_witness :
  exists out, sort_train two_days = Done out /\ len out = 2.
Proof.
  destruct (sort_train_keeps_sold_rows two_days) as (out & Hout & _ & Hp & _).
  - by vm_compute; right; right; left.
  - by vm_compute; right; left.
  - apply (bool_decide_unpack _). by vm_compute.
  - exists out. split; [exact Hout |]. unfold len.
    rewrite (Permutation_length Hp). reflexivity.
Defined.

(** *** The cut-off *)

(** The last position whose entry passes a test. *)
Lemma last_position {A} (P : A -> bool) (l : list A) :
  match last (omap id (imap (fun i x =>
                 if P x then Some (Z.of_nat i) else None) l)) with
  | Some z =>
      exists k x, z = Z.of_nat k /\ l !! k = Some x /\ P x = true
                  /\ forall j y, k < j -> l !! j = Some y -> P y = false
  | None => forall j y, l !! j = Some y -> P y = false
  end.
Proof.
  induction l as [|x l IH] using rev_ind; [done |].
  rewrite imap_app, omap_app. simpl. rewrite Nat.add_0_r.
  destruct (P x) eqn:Hx; simpl.
  - rewrite last_snoc. exists (length l), x.
    split; [done |]. split; [by rewrite list_lookup_middle |].
    split; [done |]. intros j y Hj Hy.
    apply lookup_lt_Some in Hy. rewrite length_app in Hy. simpl in Hy. lia.
  - rewrite app_nil_r.
    destruct (last _) as [z|].
    + destruct IH as (k & x' & -> & Hk & HP & Hlast).
      exists k, x'. split; [done |].
      split; [by apply lookup_app_l_Some |]. split; [done |].
      intros j y Hj Hy. apply lookup_app_Some in Hy as [Hy | [Hlen Hy]].
      * by eapply Hlast.
      * destruct (j - length l) as [|n]; [| done].
        simpl in Hy. by injection Hy as <-.
    + intros j y Hy. apply lookup_app_Some in Hy as [Hy | [Hlen Hy]].
      * by eapply IH.
      * destruct (j - length l) as [|n]; [| done].
        simpl in Hy. by injection Hy as <-.
Qed.

Lemma eq_cell_true x d : eq_cell x d = true <-> exists z, x = Some z /\ d = Some z.
Proof.
  destruct x as [a|], d as [b|]; simpl; split; try done;
    try (intros (z & ? & ?); done).
  - intros ->%Z.eqb_eq. by exists b.
  - intros (z & [= ->] & [= ->]). apply Z.eqb_refl.
Qed.

Lemma cut_inv train_df test_df c :
  cut train_df test_df = Done c ->
  "Date" ∈ columns train_df
  /\ exists d, column "Date" train_df !! len test_df = Some d
     /\ c = last (omap id (imap (fun i x =>
                     if eq_cell x d then Some (Z.of_nat i) else None)
                   (column "Date" train_df))).
Proof.
  unfold cut, getitem. case_decide as HD; [| done].
  rewrite bind_Done. fold (column "Date" train_df).
  destruct (column "Date" train_df !! len test_df) as [d|]; [| done].
  intros [= <-]. split; [done |]. by exists d.
Qed.

Lemma cut_position train_df test_df n :
  cut train_df test_df = Done (Some n) ->
  exists k d,
    n = Z.of_nat k
    /\ len test_df <= k < len train_df
    /\ column "Date" train_df !! len test_df = Some (Some d)
    /\ column "Date" train_df !! k = Some (Some d)
    /\ forall j, k < j -> column "Date" train_df !! j ≠ Some (Some d).
Proof.
  intros (_ & d & Hd & Hc)%cut_inv.
  pose proof (last_position (fun x => eq_cell x d) (column "Date" train_df))
    as Hlast.
  cbv beta in Hlast. rewrite <- Hc in Hlast.
  destruct Hlast as (k & x & -> & Hk & (z & -> & ->)%eq_cell_true & Hafter).
  exists k, z. split; [done |].
  assert (k < len train_df) as Hlt
    by (apply lookup_lt_Some in Hk; by rewrite length_column in Hk).
  assert (len test_df <= k) as Hle.
  { destruct (decide (len test_df <= k)) as [| Hn]; [done |].
    assert (eq_cell (Some z) (Some z) = false) as Habs
      by (apply (Hafter (len test_df)); [lia | done]).
    simpl in Habs. by rewrite Z.eqb_refl in Habs. }
  split; [lia |]. split; [done |]. split; [done |].
  intros j Hj Hjd. specialize (Hafter j _ Hj Hjd).
  simpl in Hafter. by rewrite Z.eqb_refl in Hafter.
Qed.

(** X8. When [cut] returns a number, it is a position of the training
    table, at or after position [len(test_df)]; the date there equals
    the date at position [len(test_df)], which is present; and no later
    position holds that date. *)
Theorem cut_is_last_position_of_date train_df test_df n :
  cut train_df test_df = Done (Some n) ->
  exists k d,
    n = Z.of_nat k
    /\ len test_df <= k < len train_df
    /\ column "Date" train_df !! len test_df = Some (Some d)
    /\ column "Date" train_df !! k = Some (Some d)
    /\ forall j, k < j -> column "Date" train_df !! j ≠ Some (Some d).
Proof. apply cut_position. Qed.

Lemma two_sales_cut : cut two_days one_test_row = Done (Some 1%Z).
Proof. by vm_compute. Qed.

Lemma cut_is_last_position_of_date_witness :
  exists k, 1%Z = Z.of_nat k /\ 1 <= k < 2.
Proof.
  destruct (cut_is_last_position_of_date _ _ _ two_sales_cut)
    as (k & d & Hk & Hb & _).
  exists k. split; [exact Hk | exact Hb].
Defined.

(** X9. [cut] returns a number when the training table has a position
    [len(test_df)] and the date there is present; it raises when the
    training table has no such position, that is, when it has no more
    rows than the test table. *)
Theorem cut_returns_or_raises train_df test_df :
  "Date" ∈ columns train_df ->
  (forall d, column "Date" train_df !! len test_df = Some (Some d) ->
     exists n, cut train_df test_df = Done (Some n))
  /\ (len train_df <= len test_df ->
      exists e, cut train_df test_df = Raised e).
Proof.
  intros HD. unfold cut. rewrite (getitem_Done _ _ HD), bind_Done. split.
  - intros d Hd. rewrite Hd.
    pose proof (last_position (fun x => eq_cell x (Some d))
                  (column "Date" train_df)) as Hlast.
    cbv beta in Hlast.
    destruct (last _) as [n|]; [by exists n |].
    specialize (Hlast _ _ Hd). simpl in Hlast.
    by rewrite Z.eqb_refl in Hlast.
  - intros Hlen. rewrite lookup_ge_None_2; [by eexists |].
    by rewrite length_column.
Qed.

Lemma cut_returns_or_raises_witness :
  exists e, cut two_days two_days = Raised e.
Proof.
  destruct (cut_returns_or_raises two_days two_days) as [_ Hraise].
  - by vm_compute; right; left.
  - apply Hraise. reflexivity.
Defined.

(** *** The split *)

(** X10. When the test table is not empty and the split cell returns,
    the validation table holds the last [cut] rows of the training
    table and the new training table the rows before them; the
    validation table has at least as many rows as the test table, the
    new training table has at least one row, and together they are the
    rows of the training table in their order. *)
Theorem split_cell_sizes train_df test_df new_train valid_df :
  0 < len test_df ->
  split_cell train_df test_df = Done (new_train, valid_df) ->
  exists k,
    cut train_df test_df = Done (Some (Z.of_nat k))
    /\ rows valid_df = drop (len train_df - k) (rows train_df)
    /\ rows new_train = take (len train_df - k) (rows train_df)
    /\ len valid_df = k
    /\ len test_df <= len valid_df
    /\ 0 < len new_train
    /\ rows new_train ++ rows valid_df = rows train_df.
Proof.
  intros Htest Hsplit. unfold split_cell in Hsplit.
  apply bind_inv in Hsplit as (c & Hcut & Hsplit).
  destruct c as [n|]; [| done].
  assert (split n train_df = (new_train, valid_df)) as Hs by congruence.
  clear Hsplit. rename Hs into Hsplit.
  destruct (cut_position _ _ _ Hcut) as (k & d & -> & Hk & _).
  exists k. split; [exact Hcut |].
  assert (0 < Z.of_nat k)%Z as Hpos by lia.
  destruct (split_positive (Z.of_nat k) train_df Hpos) as (Ht & Hv & Hl).
  pose proof (split_partition (Z.of_nat k) train_df) as Hp.
  rewrite Hsplit in Ht, Hv, Hl, Hp. simpl in Ht, Hv, Hl, Hp.
  rewrite Nat2Z.id in Ht, Hv, Hl.
  split; [exact Hv |]. split; [exact Ht |].
  assert (len valid_df = k) as Hlen by lia.
  split; [exact Hlen |]. split; [lia |]. split; [| exact Hp].
  unfold len in *. rewrite Ht, length_take. lia.
Qed.

Lemma split_cell_sizes_witness :
  exists k,
    cut two_days one_test_row = Done (Some (Z.of_nat k))
    /\ len (split 1 two_days).2 = k
    /\ 0 < len (split 1 two_days).1.
Proof.
  assert (split_cell two_days one_test_row
          = Done ((split 1 two_days).1, (split 1 two_days).2)) as Hs
    by (vm_compute; reflexivity).
  destruct (split_cell_sizes two_days one_test_row _ _ (Nat.lt_0_1) Hs)
    as (k & Hcut & _ & _ & Hlen & _ & Hpos & _).
  exists k. split; [exact Hcut |]. split; [exact Hlen | exact Hpos].
Defined.

End ValidationFacts.

(** ** Competition and promotion features *)

Module FeatureFacts.
Import Calendar Series Frame Notebook Vocabulary JoinVocabulary Samples.
Import SortFacts JoinFacts.
Import ElapsedFrame TableSamples TableFacts Features.

(** *** Columns, entry by entry *)

Lemma length_fillna v s : length (fillna v s) = length s.
Proof. apply length_fmap. Qed.

Lemma length_astype_int32 s : length (astype_int32 s) = length s.
Proof. apply length_fmap. Qed.

Lemma length_loc_set m v s : length (loc_set m v s) = length s.
Proof. apply length_imap. Qed.

Lemma length_floordiv k s : length (floordiv k s) = length s.
Proof. apply length_fmap. Qed.

Lemma length_zip3_with {A B C D} (f : A -> B -> C -> D) l1 l2 l3 :
  length l2 = length l1 -> length l3 = length l1 ->
  length (zip3_with f l1 l2 l3) = length l1.
Proof.
  revert l2 l3. induction l1 as [|a l1 IH]; intros [|b l2] [|c l3]; simpl;
    try done. intros H2 H3. f_equal. apply IH; lia.
Qed.

Lemma lookup_zip3_with {A B C D} (f : A -> B -> C -> D) l1 l2 l3 i a b c :
  l1 !! i = Some a -> l2 !! i = Some b -> l3 !! i = Some c ->
  zip3_with f l1 l2 l3 !! i = Some (f a b c).
Proof.
  revert l2 l3 i.
  induction l1 as [|a' l1 IH]; intros [|b' l2] [|c' l3] [|i]; simpl;
    try done.
  - by intros [= ->] [= ->] [= ->].
  - apply IH.
Qed.

Lemma lookup_loc_set m v (s : Series) i x :
  s !! i = Some x ->
  loc_set m v s !! i = Some (if default false (m !! i) then Some v else x).
Proof. intros Hx. unfold loc_set. by rewrite list_lookup_imap, Hx. Qed.

Lemma lookup_lt_mask k (s : Series) i x :
  s !! i = Some x ->
  lt_mask k s !! i
  = Some (match x with Some z => (z <? k)%Z | None => false end).
Proof. intros Hx. unfold lt_mask. by rewrite list_lookup_fmap, Hx. Qed.

Lemma lookup_gt_mask k (s : Series) i x :
  s !! i = Some x ->
  gt_mask k s !! i
  = Some (match x with Some z => (k <? z)%Z | None => false end).
Proof. intros Hx. unfold gt_mask. by rewrite list_lookup_fmap, Hx. Qed.

Lemma lookup_floordiv k (s : Series) i x :
  s !! i = Some x ->
  floordiv k s !! i = Some ((fun z => z / k)%Z <$> x).
Proof. intros Hx. unfold floordiv. by rewrite list_lookup_fmap, Hx. Qed.

(** *** The two kinds of assignment *)

Lemma assign_Done dst src f df :
  src ∈ columns df ->
  assign dst src f df = Done (setitem dst (f (column src df)) df).
Proof. intros Hs. unfold assign. by rewrite (getitem_Done _ _ Hs). Qed.

Lemma loc_assign_Done src mask dst v df :
  src ∈ columns df -> dst ∈ columns df ->
  loc_assign src mask dst v df
  = Done (setitem dst (loc_set (mask (column src df)) v (column dst df)) df).
Proof.
  intros Hs Hd. unfold loc_assign.
  by rewrite (getitem_Done _ _ Hs), bind_Done, (getitem_Done _ _ Hd).
Qed.

Lemma columns_setitem_old c s df : c ∈ columns df -> columns (setitem c s df) = columns df.
Proof. intros Hc. unfold setitem. simpl. by rewrite decide_True. Qed.

Ltac cols :=
  repeat first [ assumption
               | apply columns_setitem_new
               | apply columns_setitem ].

Ltac lens :=
  repeat first [ rewrite length_loc_set | rewrite length_floordiv
               | rewrite length_astype_int32 | rewrite length_fillna
               | rewrite length_replicate | rewrite length_column
               | rewrite len_setitem ];
  try done; try lia.

Ltac col_simp :=
  repeat first [ rewrite column_setitem_eq by lens
               | rewrite column_setitem_ne by done
               | rewrite len_setitem ].

(** *** Clamping one column by itself and by a year column *)

(** The column [days] after [days < 0] and [year < 1990] have been set
    to zero, and the quotient by [k] capped at [cap]. *)
Lemma clamped_lookup (days year : Series) i dc yc :
  days !! i = Some dc -> year !! i = Some yc ->
  loc_set (lt_mask 1990 year) 0 (loc_set (lt_mask 0 days) 0 days) !! i
  = Some (if match yc with Some y => (y <? 1990)%Z | None => false end
          then Some 0%Z else Z.max 0 <$> dc).
Proof.
  intros Hd Hy.
  rewrite (lookup_loc_set _ _ _ _ _ (lookup_loc_set _ _ _ _ _ Hd)).
  rewrite (lookup_lt_mask _ _ _ _ Hy), (lookup_lt_mask _ _ _ _ Hd). simpl.
  f_equal. destruct (match yc with Some _ => _ | None => _ end); [done |].
  destruct dc as [x|]; simpl; [| done].
  destruct (Z.ltb_spec x 0); f_equal; lia.
Qed.

Lemma capped_quotient_lookup k cap (s : Series) i x :
  s !! i = Some x ->
  loc_set (gt_mask cap (floordiv k s)) cap (floordiv k s) !! i
  = Some ((fun z => Z.min cap (z / k))%Z <$> x).
Proof.
  intros Hx. pose proof (lookup_floordiv k _ _ _ Hx) as Hq.
  rewrite (lookup_loc_set _ _ _ _ _ Hq), (lookup_gt_mask _ _ _ _ Hq). simpl.
  f_equal. destruct x as [z|]; simpl; [| done].
  destruct (Z.ltb_spec cap (z / k)); f_equal; lia.
Qed.

Lemma clamp_competition_days_Done df :
  "CompetitionDaysOpen" ∈ columns df ->
  "CompetitionOpenSinceYear" ∈ columns df ->
  clamp_competition_days df
  = Done (setitem "CompetitionDaysOpen"
            (loc_set (lt_mask 1990 (column "CompetitionOpenSinceYear" df)) 0
               (loc_set (lt_mask 0 (column "CompetitionDaysOpen" df)) 0
                  (column "CompetitionDaysOpen" df)))
            (setitem "CompetitionDaysOpen"
               (loc_set (lt_mask 0 (column "CompetitionDaysOpen" df)) 0
                  (column "CompetitionDaysOpen" df)) df)).
Proof.
  intros Hd Hy. unfold clamp_competition_days.
  rewrite loc_assign_Done by done. rewrite bind_Done.
  rewrite loc_assign_Done by cols. by col_simp.
Qed.

Lemma competition_months_open_Done df :
  "CompetitionDaysOpen" ∈ columns df ->
  competition_months_open df
  = Done (setitem "CompetitionMonthsOpen"
            (loc_set (gt_mask 24 (floordiv 30 (column "CompetitionDaysOpen" df)))
               24 (floordiv 30 (column "CompetitionDaysOpen" df)))
            (setitem "CompetitionMonthsOpen"
               (floordiv 30 (column "CompetitionDaysOpen" df)) df)).
Proof.
  intros Hd. unfold competition_months_open.
  rewrite assign_Done by done. rewrite bind_Done.
  rewrite loc_assign_Done by cols. by col_simp.
Qed.

Lemma clamped_entry (days year : Series) i x :
  length year = length days ->
  loc_set (lt_mask 1990 year) 0 (loc_set (lt_mask 0 days) 0 days) !! i
  = Some x ->
  exists dc yc,
    days !! i = Some dc /\ year !! i = Some yc
    /\ x = (if match yc with Some y => (y <? 1990)%Z | None => false end
            then Some 0%Z else Z.max 0 <$> dc).
Proof.
  intros Hlen Hx.
  assert (i < length days) as Hi
    by (apply lookup_lt_Some in Hx; by rewrite !length_loc_set in Hx).
  destruct (lookup_lt_is_Some_2 days i Hi) as [dc Hd].
  destruct (lookup_lt_is_Some_2 year i) as [yc Hy]; [lia |].
  exists dc, yc. split; [done |]. split; [done |].
  rewrite (clamped_lookup _ _ _ _ _ Hd Hy) in Hx. by injection Hx as <-.
Qed.

Lemma clamped_nonneg (days year : Series) i z :
  length year = length days ->
  loc_set (lt_mask 1990 year) 0 (loc_set (lt_mask 0 days) 0 days) !! i
  = Some (Some z) ->
  (0 <= z)%Z.
Proof.
  intros Hlen (dc & yc & _ & _ & Hx)%clamped_entry; [| done].
  destruct (match yc with Some _ => _ | None => _ end).
  - injection Hx as ->. lia.
  - destruct dc as [x|]; [| done]. injection Hx as ->. lia.
Qed.

(** X11. After the two clamping lines and the month cell, row by row:
    [CompetitionDaysOpen] is zero when the competitor's opening year is
    before 1990, otherwise the day count raised to zero when negative
    (and still missing when it was missing);
    [CompetitionMonthsOpen] is that number of days divided by 30,
    rounded down and capped at 24, so it lies between 0 and 24. *)
Theorem competition_months_open_clamped df i dc yc :
  "CompetitionDaysOpen" ∈ columns df ->
  "CompetitionOpenSinceYear" ∈ columns df ->
  column "CompetitionDaysOpen" df !! i = Some dc ->
  column "CompetitionOpenSinceYear" df !! i = Some yc ->
  exists clamped out,
    clamp_competition_days df = Done clamped
    /\ competition_months_open clamped = Done out
    /\ let days :=
         if match yc with Some y => (y <? 1990)%Z | None => false end
         then Some 0%Z else Z.max 0 <$> dc in
       column "CompetitionDaysOpen" out !! i = Some days
       /\ column "CompetitionMonthsOpen" out !! i
          = Some ((fun z => Z.min 24 (z / 30))%Z <$> days)
       /\ forall m,
            column "CompetitionMonthsOpen" out !! i = Some (Some m) ->
            (0 <= m <= 24)%Z.
Proof.
  intros HD HY Hd Hy. eexists _, _.
  split; [by apply clamp_competition_days_Done |].
  split; [apply competition_months_open_Done; cols |].
  cbv zeta. col_simp.
  pose proof (clamped_lookup _ _ _ _ _ Hd Hy) as Hc.
  pose proof (capped_quotient_lookup 30 24 _ _ _ Hc) as Hm.
  split; [exact Hc |]. split; [exact Hm |].
  intros m. rewrite Hm. intros [= Heq].
  destruct (match yc with Some _ => _ | None => _ end); simpl in Heq.
  - injection Heq as <-. split; by vm_compute.
  - destruct dc as [x|]; [| done]. simpl in Heq. injection Heq as <-.
    assert (0 <= Z.max 0 x / 30)%Z by (apply Z.div_pos; lia). lia.
Qed.

Lemma competition_months_open_clamped_witness :
  exists out,
    column "CompetitionMonthsOpen" out !! 0 = Some (Some 24%Z).
Proof.
  destruct (competition_months_open_clamped competition_sample 0
              (Some 2000%Z) (Some 2005%Z))
    as (clamped & out & _ & _ & _ & Hm & _);
    [by vm_compute; left | by vm_compute; right; left | done | done |].
  exists out. exact Hm.
Defined.

(** *** [Promo2Weeks] *)

Lemma floordiv_clamped_nonneg k (days year : Series) :
  (0 < k)%Z -> length year = length days ->
  lt_mask 0
    (floordiv k
       (loc_set (lt_mask 1990 year) 0 (loc_set (lt_mask 0 days) 0 days)))
  = replicate (length days) false.
Proof.
  intros Hk Hlen. apply list_eq. intros i.
  destruct (decide (i < length days)) as [Hi | Hi].
  - rewrite lookup_replicate_2 by done.
    destruct (lookup_lt_is_Some_2 days i Hi) as [dc Hd].
    destruct (lookup_lt_is_Some_2 year i) as [yc Hy]; [lia |].
    pose proof (clamped_lookup _ _ _ _ _ Hd Hy) as Hc.
    rewrite (lookup_lt_mask _ _ _ _ (lookup_floordiv k _ _ _ Hc)).
    f_equal. destruct (match yc with Some _ => _ | None => _ end); simpl.
    + apply Z.ltb_ge. apply Z.div_pos; lia.
    + destruct dc as [x|]; simpl; [| done].
      apply Z.ltb_ge. apply Z.div_pos; lia.
  - rewrite !lookup_ge_None_2; [done | |].
    + rewrite length_replicate. lia.
    + unfold lt_mask. rewrite length_fmap, length_floordiv, !length_loc_set. lia.
Qed.

Lemma loc_set_none n v (s : Series) : loc_set (replicate n false) v s = s.
Proof.
  unfold loc_set. apply list_eq. intros i. rewrite list_lookup_imap.
  destruct (s !! i) as [x|]; [| done]. simpl. f_equal.
  destruct (decide (i < n)).
  - by rewrite lookup_replicate_2.
  - by rewrite lookup_ge_None_2 by (rewrite length_replicate; lia).
Qed.

Lemma promo2_weeks_steps df :
  "Promo2Days" ∈ columns df -> "Promo2SinceYear" ∈ columns df ->
  let days := loc_set (lt_mask 1990 (column "Promo2SinceYear" df)) 0
                (loc_set (lt_mask 0 (column "Promo2Days" df)) 0
                   (column "Promo2Days" df)) in
  exists d1 d2 w1,
    loc_assign "Promo2Days" (lt_mask 0) "Promo2Days" 0 df = Done d1
    /\ loc_assign "Promo2SinceYear" (lt_mask 1990) "Promo2Days" 0 d1 = Done d2
    /\ assign "Promo2Weeks" "Promo2Days" (floordiv 7) d2 = Done w1
    /\ column "Promo2Days" w1 = days
    /\ column "Promo2Weeks" w1 = floordiv 7 days
    /\ lt_mask 0 (column "Promo2Weeks" w1) = replicate (len df) false
    /\ loc_assign "Promo2Weeks" (lt_mask 0) "Promo2Weeks" 0 w1
       = Done (setitem "Promo2Weeks" (floordiv 7 days) w1)
    /\ promo2_weeks df
       = Done (setitem "Promo2Weeks"
                 (loc_set (gt_mask 25 (floordiv 7 days)) 25 (floordiv 7 days))
                 (setitem "Promo2Weeks" (floordiv 7 days) w1)).
Proof.
  intros HD HY days. unfold promo2_weeks.
  assert (length days = len df) as Hdays by (unfold days; lens).
  eexists _, _, _.
  split; [by apply loc_assign_Done |].
  split; [apply loc_assign_Done; cols |].
  split; [apply assign_Done; cols |].
  col_simp. fold days.
  assert (lt_mask 0 (floordiv 7 days) = replicate (len df) false) as Hdead.
  { unfold days. rewrite floordiv_clamped_nonneg; [| done | by rewrite !length_column].
    by rewrite length_column. }
  split; [done |]. split; [done |]. split; [done |].
  assert (loc_assign "Promo2Weeks" (lt_mask 0) "Promo2Weeks" 0
            (setitem "Promo2Weeks" (floordiv 7 days)
               (setitem "Promo2Days" days
                  (setitem "Promo2Days"
                     (loc_set (lt_mask 0 (column "Promo2Days" df)) 0
                        (column "Promo2Days" df)) df)))
          = Done (setitem "Promo2Weeks" (floordiv 7 days)
                    (setitem "Promo2Weeks" (floordiv 7 days)
                       (setitem "Promo2Days" days
                          (setitem "Promo2Days"
                             (loc_set (lt_mask 0 (column "Promo2Days" df)) 0
                                (column "Promo2Days" df)) df))))) as Hstep.
  { rewrite loc_assign_Done by cols. col_simp.
    by rewrite Hdead, loc_set_none. }
  split; [exact Hstep |].
  rewrite loc_assign_Done by done. rewrite bind_Done.
  rewrite loc_assign_Done by cols. rewrite bind_Done. col_simp. fold days.
  rewrite assign_Done by cols. rewrite bind_Done. col_simp.
  rewrite Hstep, bind_Done.
  rewrite loc_assign_Done by cols. by col_simp.
Qed.

(** X12. The cell that derives [Promo2Weeks], row by row: [Promo2Days]
    becomes zero when the promotion year is before 1990 and is raised to
    zero when negative; [Promo2Weeks] is that number of days divided by
    7, rounded down and capped at 25, so it lies between 0 and 25.  The
    line that resets negative [Promo2Weeks] selects no row: after the
    clamping of [Promo2Days] no quotient is negative. *)
Theorem promo2_weeks_clamped df i dc yc :
  "Promo2Days" ∈ columns df -> "Promo2SinceYear" ∈ columns df ->
  column "Promo2Days" df !! i = Some dc ->
  column "Promo2SinceYear" df !! i = Some yc ->
  exists w1 out,
    (d1 ← loc_assign "Promo2Days" (lt_mask 0) "Promo2Days" 0 df;
     d2 ← loc_assign "Promo2SinceYear" (lt_mask 1990) "Promo2Days" 0 d1;
     assign "Promo2Weeks" "Promo2Days" (floordiv 7) d2) = Done w1
    /\ lt_mask 0 (column "Promo2Weeks" w1) = replicate (len df) false
    /\ promo2_weeks df = Done out
    /\ let days :=
         if match yc with Some y => (y <? 1990)%Z | None => false end
         then Some 0%Z else Z.max 0 <$> dc in
       column "Promo2Days" out !! i = Some days
       /\ column "Promo2Weeks" out !! i
          = Some ((fun z => Z.min 25 (z / 7))%Z <$> days)
       /\ forall w,
            column "Promo2Weeks" out !! i = Some (Some w) ->
            (0 <= w <= 25)%Z.
Proof.
  intros HD HY Hd Hy.
  destruct (promo2_weeks_steps df HD HY)
    as (d1 & d2 & w1 & H1 & H2 & H3 & HD1 & HW1 & Hdead & _ & Hout).
  exists w1. eexists. split; [by rewrite H1, bind_Done, H2, bind_Done |].
  split; [exact Hdead |]. split; [exact Hout |].
  cbv zeta.
  rewrite column_setitem_ne by done. rewrite column_setitem_ne by done.
  rewrite HD1.
  rewrite column_setitem_eq
    by (rewrite length_loc_set, length_floordiv, !length_loc_set,
          length_column, !len_setitem;
        apply (f_equal length) in HD1;
        by rewrite length_column, !length_loc_set, length_column in HD1).
  pose proof (clamped_lookup _ _ _ _ _ Hd Hy) as Hc.
  pose proof (capped_quotient_lookup 7 25 _ _ _ Hc) as Hm.
  split; [exact Hc |]. split; [exact Hm |].
  intros w. rewrite Hm. intros [= Heq].
  destruct (match yc with Some _ => _ | None => _ end); simpl in Heq.
  - injection Heq as <-. split; by vm_compute.
  - destruct dc as [x|]; [| done]. simpl in Heq. injection Heq as <-.
    assert (0 <= Z.max 0 x / 7)%Z by (apply Z.div_pos; lia). lia.
Qed.

Lemma promo2_weeks_clamped_witness :
  exists out, column "Promo2Weeks" out !! 0 = Some (Some 25%Z).
Proof.
  destruct (promo2_weeks_clamped promo2_sample 0 (Some 400%Z) (Some 2014%Z))
    as (w1 & out & _ & _ & _ & _ & Hw & _);
    [by vm_compute; left | by vm_compute; right; left | done | done |].
  exists out. exact Hw.
Defined.

(** *** [Promo2Since] and [Promo2Days] *)

Lemma wrap_int64_small z :
  (-9223372036854775808 <= z < 9223372036854775808)%Z -> wrap_int64 z = z.
Proof.
  intros Hz. unfold wrap_int64.
  change (2 ^ 63)%Z with 9223372036854775808%Z.
  change (2 ^ 64)%Z with 18446744073709551616%Z.
  rewrite Z.mod_small; lia.
Qed.

Lemma epoch_value : epoch = 719162%Z.
Proof. reflexivity. Qed.

Lemma jan1_ordinal y : to_ordinal (mk_datetime y 1 1) = days_before_year y.
Proof. unfold to_ordinal. simpl. unfold days_before_month. simpl. lia. Qed.

Lemma jan1_bounds y :
  (1900 <= y <= 2100)%Z -> (693595 <= days_before_year y <= 766644)%Z.
Proof.
  intros Hy. unfold days_before_year. cbv zeta.
  Z.to_euclidean_division_equations. lia.
Qed.

(** Inside the years 1900 to 2100 nothing overflows, and the detour
    through seconds and nanoseconds gives the plain difference of day
    numbers. *)
Lemma promo2_days_value y w d :
  (1900 <= y <= 2100)%Z -> (0 <= w <= 1000)%Z ->
  (to_ordinal (mk_datetime 1900 1 1) <= d
   <= to_ordinal (mk_datetime 2100 12 31))%Z ->
  days_since_ns (Some d) (promo2_since_ns (Some y) (Some w))
  = Some (d - to_ordinal (mk_datetime y 1 1) - 7 * w)%Z.
Proof.
  intros Hy Hw Hd.
  change (to_ordinal (mk_datetime 1900 1 1)) with 693595%Z in Hd.
  change (to_ordinal (mk_datetime 2100 12 31)) with 767008%Z in Hd.
  rewrite jan1_ordinal.
  pose proof (jan1_bounds y Hy) as Ho.
  unfold days_since_ns, promo2_since_ns, jan1_ns, ns_of_date.
  rewrite jan1_ordinal, epoch_value.
  generalize dependent (days_before_year y). intros o Ho.
  unfold ns_per_day.
  change (10 ^ 9)%Z with 1000000000%Z.
  change (7 * 24 * 3600)%Z with 604800%Z.
  rewrite (wrap_int64_small ((o - 719162) * _)) by lia.
  replace ((o - 719162) * (86400 * 1000000000))%Z
    with ((o - 719162) * 86400 * 1000000000)%Z by lia.
  rewrite Z.div_mul by done.
  rewrite (wrap_int64_small (604800 * w)) by lia.
  rewrite (wrap_int64_small (_ + _)) by lia.
  rewrite (wrap_int64_small (_ * 1000000000)) by lia.
  rewrite (wrap_int64_small ((d - 719162) * _)) by lia.
  rewrite (wrap_int64_small (_ - _)) by lia.
  f_equal.
  replace ((d - 719162) * (86400 * 1000000000)
           - ((o - 719162) * 86400 + 604800 * w) * 1000000000)%Z
    with ((d - o - 7 * w) * (86400 * 1000000000))%Z by lia.
  by rewrite Z.div_mul.
Qed.

Lemma promo2_days_Done df :
  "Promo2SinceYear" ∈ columns df -> "Promo2SinceWeek" ∈ columns df ->
  "Date" ∈ columns df ->
  let since := zip_with promo2_since_ns (column "Promo2SinceYear" df)
                 (column "Promo2SinceWeek" df) in
  promo2_days df
  = Done (setitem "Promo2Days" (zip_with days_since_ns (column "Date" df) since)
            (setitem "Promo2Since" since
               (setitem "Promo2SinceYear_tmp" (column "Promo2SinceYear" df)
                  df))).
Proof.
  intros HY HW HD since. unfold promo2_days.
  assert (length since = len df) as Hsince
    by (unfold since; by rewrite length_zip_with, !length_column, Nat.min_id).
  rewrite assign_Done by done. unfold id. rewrite bind_Done.
  rewrite (getitem_Done "Promo2SinceYear_tmp") by cols. rewrite bind_Done.
  rewrite (getitem_Done "Promo2SinceWeek") by cols. rewrite bind_Done.
  cbv zeta. col_simp. fold since.
  rewrite (getitem_Done "Date") by cols. rewrite bind_Done.
  rewrite (getitem_Done "Promo2Since") by cols. rewrite bind_Done.
  by col_simp.
Qed.

(** X13. [Promo2Days] is the number of days from the first of January
    of [Promo2SinceYear] plus [Promo2SinceWeek] weeks to [Date].  The
    notebook computes it through seconds and nanoseconds since 1970 in
    64-bit integers; for years from 1900 to 2100 and up to 1000 weeks
    nothing wraps around and the result is that difference of day
    numbers. *)
Theorem promo2_days_is_day_difference df i y w d :
  "Promo2SinceYear" ∈ columns df -> "Promo2SinceWeek" ∈ columns df ->
  "Date" ∈ columns df ->
  column "Promo2SinceYear" df !! i = Some (Some y) ->
  column "Promo2SinceWeek" df !! i = Some (Some w) ->
  column "Date" df !! i = Some (Some d) ->
  (1900 <= y <= 2100)%Z -> (0 <= w <= 1000)%Z ->
  (to_ordinal (mk_datetime 1900 1 1) <= d
   <= to_ordinal (mk_datetime 2100 12 31))%Z ->
  exists out,
    promo2_days df = Done out
    /\ column "Promo2Days" out !! i
       = Some (Some (d - to_ordinal (mk_datetime y 1 1) - 7 * w)%Z).
Proof.
  intros HY HW HD Hy Hw Hd Hyr Hwr Hdr. eexists.
  split; [by apply promo2_days_Done |].
  rewrite column_setitem_eq
    by (rewrite length_zip_with, length_zip_with, !length_column, !len_setitem;
        lia).
  rewrite lookup_zip_with, Hd. simpl.
  rewrite lookup_zip_with, Hy. simpl. rewrite Hw. simpl.
  f_equal. by apply promo2_days_value.
Qed.

Lemma promo2_days_is_day_difference_witness :
  exists out,
    promo2_days feature_sample = Done out
    /\ column "Promo2Days" out !! 0 = Some (Some 1946%Z).
Proof.
  destruct (promo2_days_is_day_difference feature_sample 0
              2010%Z 13%Z 735809%Z)
    as (out & Hout & Hd);
    [ by vm_compute; do 4 right; left
    | by vm_compute; do 5 right; left
    | by vm_compute; right; left
    | done | done | done | lia | lia | by vm_compute | ].
  exists out. split; [exact Hout | exact Hd].
Defined.

End FeatureFacts.

(** ** The feature cells, one after the other *)

Module FeaturePipeline.
Import Calendar Series Frame Notebook Vocabulary JoinVocabulary Samples.
Import SortFacts JoinFacts ElapsedFrame TableSamples TableFacts.
Import Features FeatureFacts.

(** *** Assignments extend a frame *)

Lemma extends_refl df : extends [] df df.
Proof. by split; [| split]. Qed.

Lemma extends_setitem c s df : extends [c] df (setitem c s df).
Proof.
  split; [apply len_setitem |]. split; [apply columns_setitem |].
  intros c' Hc'. apply column_setitem_ne.
  intros ->. apply Hc'. left.
Qed.

Lemma extends_trans w1 w2 a b c :
  extends w1 a b -> extends w2 b c -> extends (w1 ++ w2) a c.
Proof.
  intros (Hl1 & Hc1 & Hf1) (Hl2 & Hc2 & Hf2).
  split; [congruence |]. split; [by etrans |].
  intros x Hx. apply not_elem_of_app in Hx as [Hx1 Hx2].
  by rewrite Hf2, Hf1.
Qed.

Lemma extends_weaken w w' a b : w ⊆ w' -> extends w a b -> extends w' a b.
Proof.
  intros Hw (Hl & Hc & Hf). split; [done |]. split; [done |].
  intros x Hx. apply Hf. intros Hin. by apply Hx, Hw.
Qed.

Lemma extends_setitem_after w c s a b :
  extends w a b -> extends (w ++ [c]) a (setitem c s b).
Proof. intros H. eapply extends_trans; [exact H | apply extends_setitem]. Qed.

Ltac in_list :=
  repeat first [ by apply list_elem_of_here
               | apply list_elem_of_further ].

Ltac not_in_list :=
  let H := fresh in
  intros H;
  repeat (apply elem_of_cons in H as [H | H]; [discriminate H |]);
  by apply elem_of_nil in H.

Ltac sub_list :=
  let x := fresh in
  let H := fresh in
  intros x H;
  repeat (apply elem_of_cons in H as [-> | H]; [in_list |]);
  by apply elem_of_nil in H.

Ltac ext :=
  eapply extends_weaken;
  [| repeat first [ apply extends_setitem_after | apply extends_refl ] ];
  simpl; sub_list.

(** *** The cells *)

Lemma fill_since_spec df :
  "CompetitionOpenSinceYear" ∈ columns df ->
  "CompetitionOpenSinceMonth" ∈ columns df ->
  "Promo2SinceYear" ∈ columns df ->
  "Promo2SinceWeek" ∈ columns df ->
  exists out,
    fill_since df = Done out
    /\ extends ["CompetitionOpenSinceYear"; "CompetitionOpenSinceMonth";
                "Promo2SinceYear"; "Promo2SinceWeek"] df out
    /\ column "CompetitionOpenSinceYear" out
       = astype_int32 (fillna 1900 (column "CompetitionOpenSinceYear" df))
    /\ column "CompetitionOpenSinceMonth" out
       = astype_int32 (fillna 1 (column "CompetitionOpenSinceMonth" df))
    /\ column "Promo2SinceYear" out
       = astype_int32 (fillna 1900 (column "Promo2SinceYear" df))
    /\ column "Promo2SinceWeek" out
       = astype_int32 (fillna 1 (column "Promo2SinceWeek" df)).
Proof.
  intros H1 H2 H3 H4. unfold fill_since.
  rewrite (assign_Done "CompetitionOpenSinceYear") by done. rewrite bind_Done.
  rewrite (assign_Done "CompetitionOpenSinceMonth") by cols. rewrite bind_Done.
  rewrite (assign_Done "Promo2SinceYear") by cols. rewrite bind_Done.
  rewrite (assign_Done "Promo2SinceWeek") by cols.
  eexists. split; [reflexivity |]. split; [ext |].
  col_simp. done.
Qed.

Lemma competition_days_open_spec df :
  "CompetitionOpenSinceYear" ∈ columns df ->
  "CompetitionOpenSinceMonth" ∈ columns df ->
  "Date" ∈ columns df ->
  exists out,
    competition_days_open df = Done out
    /\ extends ["year"; "month"; "day"; "CompetitionOpenSince";
                "CompetitionDaysOpen"] df out
    /\ "CompetitionDaysOpen" ∈ columns out
    /\ length (column "CompetitionDaysOpen" out) = len df.
Proof.
  intros H1 H2 H3. unfold competition_days_open.
  rewrite (assign_Done "year") by done. rewrite bind_Done.
  rewrite (assign_Done "month") by cols. rewrite bind_Done. cbv zeta.
  rewrite (getitem_Done "year") by cols. rewrite bind_Done.
  rewrite (getitem_Done "month") by cols. rewrite bind_Done.
  rewrite (getitem_Done "day") by cols. rewrite bind_Done.
  rewrite (getitem_Done "Date") by cols. rewrite bind_Done.
  rewrite (getitem_Done "CompetitionOpenSince") by cols. rewrite bind_Done.
  eexists. split; [reflexivity |]. split; [ext |].
  split; [cols |]. by rewrite length_column, !len_setitem.
Qed.

Lemma clamp_competition_days_spec df :
  "CompetitionDaysOpen" ∈ columns df ->
  "CompetitionOpenSinceYear" ∈ columns df ->
  exists out,
    clamp_competition_days df = Done out
    /\ extends ["CompetitionDaysOpen"] df out
    /\ column "CompetitionDaysOpen" out
       = loc_set (lt_mask 1990 (column "CompetitionOpenSinceYear" df)) 0
           (loc_set (lt_mask 0 (column "CompetitionDaysOpen" df)) 0
              (column "CompetitionDaysOpen" df)).
Proof.
  intros H1 H2. rewrite clamp_competition_days_Done by done.
  eexists. split; [reflexivity |]. split; [ext |]. by col_simp.
Qed.

Lemma competition_months_open_spec df :
  "CompetitionDaysOpen" ∈ columns df ->
  exists out,
    competition_months_open df = Done out
    /\ extends ["CompetitionMonthsOpen"] df out
    /\ column "CompetitionMonthsOpen" out
       = loc_set (gt_mask 24 (floordiv 30 (column "CompetitionDaysOpen" df)))
           24 (floordiv 30 (column "CompetitionDaysOpen" df)).
Proof.
  intros H1. rewrite competition_months_open_Done by done.
  eexists. split; [reflexivity |]. split; [ext |]. by col_simp.
Qed.

Lemma promo2_days_spec df :
  "Promo2SinceYear" ∈ columns df -> "Promo2SinceWeek" ∈ columns df ->
  "Date" ∈ columns df ->
  exists out,
    promo2_days df = Done out
    /\ extends ["Promo2SinceYear_tmp"; "Promo2Since"; "Promo2Days"] df out
    /\ "Promo2Days" ∈ columns out.
Proof.
  intros H1 H2 H3. rewrite promo2_days_Done by done.
  eexists. split; [reflexivity |]. split; [ext | cols].
Qed.

Lemma promo2_weeks_spec df :
  "Promo2Days" ∈ columns df -> "Promo2SinceYear" ∈ columns df ->
  exists out,
    promo2_weeks df = Done out
    /\ extends ["Promo2Days"; "Promo2Weeks"] df out
    /\ column "Promo2Days" out
       = loc_set (lt_mask 1990 (column "Promo2SinceYear" df)) 0
           (loc_set (lt_mask 0 (column "Promo2Days" df)) 0
              (column "Promo2Days" df))
    /\ column "Promo2Weeks" out
       = loc_set (gt_mask 25 (floordiv 7 (column "Promo2Days" out)))
           25 (floordiv 7 (column "Promo2Days" out)).
Proof.
  intros H1 H2. unfold promo2_weeks.
  rewrite (loc_assign_Done "Promo2Days") by done. rewrite bind_Done.
  rewrite (loc_assign_Done "Promo2SinceYear") by cols. rewrite bind_Done.
  col_simp.
  set (days := loc_set (lt_mask 1990 _) 0 _).
  assert (length days = len df) as Hdays by (unfold days; lens).
  rewrite (assign_Done "Promo2Weeks") by cols. rewrite bind_Done. col_simp.
  rewrite (loc_assign_Done "Promo2Weeks") by cols. rewrite bind_Done.
  col_simp.
  rewrite (loc_assign_Done "Promo2Weeks") by cols. col_simp.
  assert (loc_set (lt_mask 0 (floordiv 7 days)) 0 (floordiv 7 days)
          = floordiv 7 days) as ->.
  { unfold days. rewrite floordiv_clamped_nonneg; [| done | by rewrite !length_column].
    apply loc_set_none. }
  eexists. split; [reflexivity |]. split; [ext |]. by col_simp.
Qed.

(** *** Rows of the result *)

Lemma filled_lookup v (s : Series) i x :
  s !! i = Some x ->
  astype_int32 (fillna v s) !! i = Some (Some (wrap_int32 (default v x))).
Proof.
  intros Hx. unfold astype_int32, fillna.
  by rewrite !list_lookup_fmap, Hx.
Qed.

Lemma capped_range k cap (s : Series) i m :
  (0 < k)%Z -> (0 <= cap)%Z ->
  (forall z, s !! i = Some (Some z) -> (0 <= z)%Z) ->
  loc_set (gt_mask cap (floordiv k s)) cap (floordiv k s) !! i
  = Some (Some m) ->
  (0 <= m <= cap)%Z.
Proof.
  intros Hk Hcap Hs Hm.
  assert (i < length s) as Hi
    by (apply lookup_lt_Some in Hm;
        by rewrite length_loc_set, length_floordiv in Hm).
  destruct (lookup_lt_is_Some_2 s i Hi) as [x Hx].
  rewrite (capped_quotient_lookup k cap _ _ _ Hx) in Hm.
  destruct x as [z|]; [| done]. injection Hm as <-.
  assert (0 <= z / k)%Z by (apply Z.div_pos; [by apply Hs | done]). lia.
Qed.

Lemma clamped_old (days year : Series) i y :
  length year = length days -> i < length days ->
  year !! i = Some (Some y) -> (y < 1990)%Z ->
  loc_set (lt_mask 1990 year) 0 (loc_set (lt_mask 0 days) 0 days) !! i
  = Some (Some 0%Z).
Proof.
  intros Hlen Hi Hy Hold.
  destruct (lookup_lt_is_Some_2 days i Hi) as [dc Hd].
  rewrite (clamped_lookup _ _ _ _ _ Hd Hy).
  by rewrite (proj2 (Z.ltb_lt y 1990) Hold).
Qed.

Lemma capped_zero k cap (s : Series) i :
  (0 < k)%Z -> (0 <= cap)%Z -> s !! i = Some (Some 0%Z) ->
  loc_set (gt_mask cap (floordiv k s)) cap (floordiv k s) !! i
  = Some (Some 0%Z).
Proof.
  intros Hk Hcap Hs. rewrite (capped_quotient_lookup k cap _ _ _ Hs).
  simpl. rewrite Z.div_0_l by lia. do 2 f_equal. lia.
Qed.

(** X14. The feature cells run in sequence return a frame whenever the
    five columns they read exist; they keep the rows and every column
    they do not assign.  In the result the four [..Since..] columns have
    no missing value; a row whose [CompetitionOpenSinceYear] was missing
    has the year 1900 and zero [CompetitionDaysOpen] and
    [CompetitionMonthsOpen]; a row whose [Promo2SinceYear] was missing
    has the year 1900 and zero [Promo2Days] and [Promo2Weeks]; and every
    present [CompetitionDaysOpen] and [Promo2Days] is at least 0, every
    present [CompetitionMonthsOpen] lies between 0 and 24 and every
    present [Promo2Weeks] between 0 and 25. *)
Theorem derived_features_rows df :
  feature_inputs ⊆ columns df ->
  exists out,
    derived_features df = Done out
    /\ extends feature_outputs df out
    /\ forall i, i < len df ->
         (forall c,
            c ∈ ["CompetitionOpenSinceYear"; "CompetitionOpenSinceMonth";
                 "Promo2SinceYear"; "Promo2SinceWeek"] ->
            exists v, column c out !! i = Some (Some v))
         /\ (column "CompetitionOpenSinceYear" df !! i = Some None ->
             column "CompetitionOpenSinceYear" out !! i = Some (Some 1900%Z)
             /\ column "CompetitionDaysOpen" out !! i = Some (Some 0%Z)
             /\ column "CompetitionMonthsOpen" out !! i = Some (Some 0%Z))
         /\ (column "Promo2SinceYear" df !! i = Some None ->
             column "Promo2SinceYear" out !! i = Some (Some 1900%Z)
             /\ column "Promo2Days" out !! i = Some (Some 0%Z)
             /\ column "Promo2Weeks" out !! i = Some (Some 0%Z))
         /\ (forall d,
               column "CompetitionDaysOpen" out !! i = Some (Some d) ->
               (0 <= d)%Z)
         /\ (forall m,
               column "CompetitionMonthsOpen" out !! i = Some (Some m) ->
               (0 <= m <= 24)%Z)
         /\ (forall d,
               column "Promo2Days" out !! i = Some (Some d) -> (0 <= d)%Z)
         /\ (forall w,
               column "Promo2Weeks" out !! i = Some (Some w) ->
               (0 <= w <= 25)%Z).
Proof.
  intros Hin.
  assert ("Date" ∈ columns df) as HDate by (apply Hin; in_list).
  assert ("CompetitionOpenSinceYear" ∈ columns df) as HCY
    by (apply Hin; in_list).
  assert ("CompetitionOpenSinceMonth" ∈ columns df) as HCM
    by (apply Hin; in_list).
  assert ("Promo2SinceYear" ∈ columns df) as HPY by (apply Hin; in_list).
  assert ("Promo2SinceWeek" ∈ columns df) as HPW by (apply Hin; in_list).
  destruct (fill_since_spec df HCY HCM HPY HPW)
    as (o1 & R1 & E1 & C1y & C1m & C1py & C1pw).
  pose proof E1 as (L1 & S1 & F1).
  destruct (competition_days_open_spec o1) as (o2 & R2 & E2 & I2 & N2);
    [by apply S1 .. |].
  pose proof E2 as (L2 & S2 & F2).
  destruct (clamp_competition_days_spec o2) as (o3 & R3 & E3 & C3);
    [done | by apply S2, S1 |].
  pose proof E3 as (L3 & S3 & F3).
  destruct (competition_months_open_spec o3) as (o4 & R4 & E4 & C4);
    [by apply S3 |].
  pose proof E4 as (L4 & S4 & F4).
  destruct (promo2_days_spec o4) as (o5 & R5 & E5 & I5);
    [by apply S4, S3, S2, S1 .. |].
  pose proof E5 as (L5 & S5 & F5).
  destruct (promo2_weeks_spec o5) as (o6 & R6 & E6 & C6d & C6w);
    [done | by apply S5, S4, S3, S2, S1 |].
  pose proof E6 as (L6 & S6 & F6).
  exists o6. split.
  { unfold derived_features.
    by rewrite R1, bind_Done, R2, bind_Done, R3, bind_Done, R4, bind_Done,
      R5, bind_Done. }
  split.
  { eapply extends_weaken;
      [| exact (extends_trans _ _ _ _ _
                  (extends_trans _ _ _ _ _
                     (extends_trans _ _ _ _ _
                        (extends_trans _ _ _ _ _
                           (extends_trans _ _ _ _ _ E1 E2) E3) E4) E5) E6)].
    simpl. unfold feature_outputs. sub_list. }
  (* the columns of the result in terms of the columns of [df] *)
  set (cy := astype_int32 (fillna 1900 (column "CompetitionOpenSinceYear" df))).
  set (py := astype_int32 (fillna 1900 (column "Promo2SinceYear" df))).
  assert (column "CompetitionOpenSinceYear" o6 = cy) as Ycy.
  { rewrite F6, F5, F4, F3, F2 by not_in_list. exact C1y. }
  assert (column "CompetitionOpenSinceMonth" o6
          = astype_int32 (fillna 1 (column "CompetitionOpenSinceMonth" df)))
    as Ycm.
  { rewrite F6, F5, F4, F3, F2 by not_in_list. exact C1m. }
  assert (column "Promo2SinceYear" o6 = py) as Ypy.
  { rewrite F6, F5, F4, F3, F2 by not_in_list. exact C1py. }
  assert (column "Promo2SinceWeek" o6
          = astype_int32 (fillna 1 (column "Promo2SinceWeek" df))) as Ypw.
  { rewrite F6, F5, F4, F3, F2 by not_in_list. exact C1pw. }
  set (d0 := column "CompetitionDaysOpen" o2).
  assert (column "CompetitionDaysOpen" o6
          = loc_set (lt_mask 1990 cy) 0 (loc_set (lt_mask 0 d0) 0 d0)) as Ycd.
  { rewrite F6, F5, F4 by not_in_list. rewrite C3.
    by rewrite (F2 "CompetitionOpenSinceYear"), C1y by not_in_list. }
  assert (column "CompetitionMonthsOpen" o6
          = loc_set (gt_mask 24 (floordiv 30 (column "CompetitionDaysOpen" o6)))
              24 (floordiv 30 (column "CompetitionDaysOpen" o6))) as Ymo.
  { rewrite (F6 "CompetitionMonthsOpen"), (F5 "CompetitionMonthsOpen")
      by not_in_list.
    rewrite C4.
    by rewrite (F6 "CompetitionDaysOpen"), (F5 "CompetitionDaysOpen"),
      (F4 "CompetitionDaysOpen") by not_in_list. }
  set (p0 := column "Promo2Days" o5).
  assert (column "Promo2Days" o6
          = loc_set (lt_mask 1990 py) 0 (loc_set (lt_mask 0 p0) 0 p0)) as Ypd.
  { rewrite C6d.
    by rewrite (F5 "Promo2SinceYear"), (F4 "Promo2SinceYear"),
      (F3 "Promo2SinceYear"), (F2 "Promo2SinceYear"), C1py by not_in_list. }
  assert (length cy = length d0) as Lcy.
  { unfold cy, d0. rewrite length_astype_int32, length_fillna, !length_column.
    congruence. }
  assert (length py = length p0) as Lpy.
  { unfold py, p0. rewrite length_astype_int32, length_fillna, !length_column.
    congruence. }
  assert (length d0 = len df) as Ld0
    by (unfold d0; rewrite length_column; congruence).
  assert (length p0 = len df) as Lp0
    by (unfold p0; rewrite length_column; congruence).
  intros i Hi.
  split; [| split; [| split; [| split; [| split; [| split]]]]].
  - intros c Hc.
    destruct (lookup_lt_is_Some_2 (column c df) i) as [x Hx];
      [by rewrite length_column |].
    repeat (apply elem_of_cons in Hc as [-> | Hc]);
      [ rewrite Ycy | rewrite Ycm | rewrite Ypy | rewrite Ypw
      | by apply elem_of_nil in Hc ];
      eexists; by apply filled_lookup.
  - intros Hmiss.
    assert (cy !! i = Some (Some 1900%Z)) as Hy
      by (unfold cy; by rewrite (filled_lookup _ _ _ _ Hmiss)).
    assert (column "CompetitionDaysOpen" o6 !! i = Some (Some 0%Z)) as Hd.
    { rewrite Ycd. eapply clamped_old; [done | lia | exact Hy | lia]. }
    split; [by rewrite Ycy |]. split; [exact Hd |].
    rewrite Ymo. by apply capped_zero.
  - intros Hmiss.
    assert (py !! i = Some (Some 1900%Z)) as Hy
      by (unfold py; by rewrite (filled_lookup _ _ _ _ Hmiss)).
    assert (column "Promo2Days" o6 !! i = Some (Some 0%Z)) as Hd.
    { rewrite Ypd. eapply clamped_old; [done | lia | exact Hy | lia]. }
    split; [by rewrite Ypy |]. split; [exact Hd |].
    rewrite C6w. by apply capped_zero.
  - intros d. rewrite Ycd. by apply clamped_nonneg.
  - intros m. rewrite Ymo. apply capped_range; [done | done |].
    intros z. rewrite Ycd. by apply clamped_nonneg.
  - intros d. rewrite Ypd. by apply clamped_nonneg.
  - intros w. rewrite C6w. apply capped_range; [done | done |].
    intros z. rewrite Ypd. by apply clamped_nonneg.
Qed.

Lemma derived_features_rows_witness :
  exists out,
    derived_features feature_sample = Done out
    /\ column "CompetitionMonthsOpen" out !! 1 = Some (Some 0%Z)
    /\ column "Promo2Weeks" out !! 1 = Some (Some 0%Z).
Proof.
  destruct (derived_features_rows feature_sample) as (out & R & _ & Hrows).
  - unfold feature_inputs, feature_sample. simpl. sub_list.
  - destruct (Hrows 1) as (_ & Hc & Hp & _); [vm_compute; lia |].
    exists out. split; [exact R |]. split.
    + apply Hc. vm_compute. reflexivity.
    + apply Hp. vm_compute. reflexivity.
Defined.

End FeaturePipeline.

(** ** The weeks of a year *)

Module WeekFacts.
Import Calendar CalendarFacts.
Local Open Scope Z_scope.

Lemma Week_formula d :
  valid_date d ->
  Week d = (if days_since_jan1 d / 7 + 1 =? 53 then 52
            else days_since_jan1 d / 7 + 1).
Proof.
  intros Hd. pose proof (days_since_jan1_range d Hd) as Hr.
  unfold Week. rewrite div7_astype_int16_floor by done.
  unfold where_not_53.
  by destruct (days_since_jan1 d / 7 + 1 =? 53).
Qed.

Lemma Week_of_offset d :
  valid_date d ->
  (357 <= days_since_jan1 d -> Week d = 52)
  /\ (days_since_jan1 d < 357 -> Week d = days_since_jan1 d / 7 + 1).
Proof.
  intros Hd. pose proof (days_since_jan1_range d Hd) as Hr.
  rewrite (Week_formula d Hd).
  destruct (Z.eqb_spec (days_since_jan1 d / 7 + 1) 53) as [He | Hne];
    split; intros Ho; try done.
  - exfalso. revert He. Z.to_euclidean_division_equations. lia.
  - revert Hne. Z.to_euclidean_division_equations. lia.
Qed.

(** X15. The weeks cut the year into runs of days counted from the
    first of January: week [w], for [w] from 1 to 51, holds exactly the
    seven days with offsets [7(w-1)] to [7w-1]; week 52 holds every day
    from offset 357 on, that is eight days, or nine in a leap year. *)
Theorem Week_partitions_year d :
  valid_date d ->
  (forall w, 1 <= w <= 51 ->
     (Week d = w <-> 7 * (w - 1) <= days_since_jan1 d < 7 * w))
  /\ (Week d = 52 <-> 357 <= days_since_jan1 d).
Proof.
  intros Hd. pose proof (days_since_jan1_range d Hd) as Hr.
  destruct (Week_of_offset d Hd) as [Hlate Hearly].
  destruct (Z.le_gt_cases 357 (days_since_jan1 d)) as [Ho | Ho].
  - rewrite (Hlate Ho). split; [| done].
    intros w Hw. split; lia.
  - rewrite (Hearly Ho). split.
    + intros w Hw. split.
      * intros <-. Z.to_euclidean_division_equations. lia.
      * intros Hin. Z.to_euclidean_division_equations. lia.
    + split; [| lia]. Z.to_euclidean_division_equations. lia.
Qed.

Lemma Week_partitions_year_witness :
  Week (mk_datetime 2013 12 24) = 52 /\ Week (mk_datetime 2013 12 31) = 52.
Proof.
  assert (valid_date (mk_datetime 2013 12 24)) as H1
    by (vm_compute; intuition discriminate).
  assert (valid_date (mk_datetime 2013 12 31)) as H2
    by (vm_compute; intuition discriminate).
  split.
  - apply (proj2 (Week_partitions_year _ H1)). by vm_compute.
  - apply (proj2 (Week_partitions_year _ H2)). by vm_compute.
Defined.

(** X16. Within one year the week number never decreases as the date
    advances, and from one day to the next it grows by at most one. *)
Theorem Week_monotone d1 d2 :
  valid_date d1 -> valid_date d2 -> year d1 = year d2 ->
  to_ordinal d1 <= to_ordinal d2 ->
  Week d1 <= Week d2
  /\ (to_ordinal d2 = to_ordinal d1 + 1 -> Week d2 <= Week d1 + 1).
Proof.
  intros H1 H2 Hy Ho.
  pose proof (days_since_jan1_range d1 H1) as R1.
  pose proof (days_since_jan1_range d2 H2) as R2.
  assert (days_since_jan1 d2 - days_since_jan1 d1
          = to_ordinal d2 - to_ordinal d1) as Hdiff.
  { unfold days_since_jan1, year_start. rewrite Hy. lia. }
  rewrite (Week_formula d1 H1), (Week_formula d2 H2).
  destruct (Z.eqb_spec (days_since_jan1 d1 / 7 + 1) 53) as [E1 | E1],
           (Z.eqb_spec (days_since_jan1 d2 / 7 + 1) 53) as [E2 | E2];
    (split; [| intros Hnext]);
    revert E1 E2; Z.to_euclidean_division_equations; lia.
Qed.

Lemma Week_monotone_witness :
  Week (mk_datetime 2015 3 1) <= Week (mk_datetime 2015 7 31).
Proof.
  assert (valid_date (mk_datetime 2015 3 1)) as H1
    by (vm_compute; intuition discriminate).
  assert (valid_date (mk_datetime 2015 7 31)) as H2
    by (vm_compute; intuition discriminate).
  apply (Week_monotone _ _ H1 H2); [reflexivity | by vm_compute].
Defined.

End WeekFacts.

(** ** The rows of the rolling sums *)

Module RollingRows.
Import Series Frame Notebook Vocabulary JoinVocabulary Samples SortFacts.
Import JoinFacts ElapsedFrame RollingFacts RollingClaims TableSamples.
Import TableFacts.

(** *** Groups partition the rows that have a key *)

Lemma bind_ext_in {A B} (f g : A -> list B) (l : list A) :
  (forall x, x ∈ l -> f x = g x) -> l ≫= f = l ≫= g.
Proof.
  induction l as [|x l IH]; intros Hfg; [done |].
  rewrite !bind_cons, (Hfg x) by left.
  rewrite IH; [done |]. intros y Hy. apply Hfg. by right.
Qed.

Lemma bind_nil_const {A B} (l : list A) : l ≫= (fun _ => @nil B) = [].
Proof. induction l as [|x l IH]; [done |]. by rewrite bind_cons, IH. Qed.

Lemma fmap_bind_list {A B C} (f : B -> C) (g : A -> list B) (l : list A) :
  f <$> (l ≫= g) = l ≫= (fun x => f <$> g x).
Proof.
  induction l as [|x l IH]; [done |].
  by rewrite !bind_cons, fmap_app, IH.
Qed.

Lemma groups_partition {A} (f : A -> option Z) (ks : list Z) (l : list A) :
  NoDup ks ->
  (forall r k, r ∈ l -> f r = Some k -> k ∈ ks) ->
  ks ≫= (fun k => filter (fun r => f r = Some k) l)
  ≡ₚ filter (fun r => f r ≠ None) l.
Proof.
  intros Hnd. induction l as [|x l IH]; intros Hks.
  - rewrite (bind_ext_in _ (fun _ => [])) by done. by rewrite bind_nil_const.
  - assert (ks ≫= (fun k => filter (fun r => f r = Some k) l)
            ≡ₚ filter (fun r => f r ≠ None) l) as IH'
      by (apply IH; intros r k Hr; apply Hks; by right).
    destruct (f x) as [k0|] eqn:Hx.
    + rewrite (filter_cons_True (fun r => f r ≠ None)) by by rewrite Hx.
      assert (k0 ∈ ks) as Hin by (apply (Hks x); [left | done]).
      apply list_elem_of_split in Hin as (k1 & k2 & ->).
      apply NoDup_app in Hnd as (_ & H1 & Hnd2).
      apply NoDup_cons in Hnd2 as [H2 _].
      rewrite bind_app, bind_cons in IH' |- *.
      rewrite (filter_cons_True (fun r => f r = Some k0)) by done.
      rewrite (bind_ext_in _ (fun k => filter (fun r => f r = Some k) l) k1).
      2:{ intros k Hk. apply filter_cons_False. rewrite Hx. intros [= ->].
          apply (H1 k Hk). left. }
      rewrite (bind_ext_in _ (fun k => filter (fun r => f r = Some k) l) k2).
      2:{ intros k Hk. apply filter_cons_False. rewrite Hx. intros [= ->].
          by apply H2. }
      rewrite <- IH', <- app_comm_cons. symmetry. apply Permutation_middle.
    + rewrite (filter_cons_False (fun r => f r ≠ None)) by (rewrite Hx; tauto).
      rewrite <- IH'.
      rewrite (bind_ext_in _ (fun k => filter (fun r => f r = Some k) l));
        [done |].
      intros k _. apply filter_cons_False. by rewrite Hx.
Qed.

Lemma group_keys_NoDup (S : Series) : NoDup (group_keys S).
Proof.
  unfold group_keys. rewrite sort_by_Permutation. apply NoDup_remove_dups.
Qed.

Lemma elem_of_group_keys (S : Series) k : k ∈ group_keys S <-> Some k ∈ S.
Proof.
  unfold group_keys.
  rewrite sort_by_Permutation, elem_of_remove_dups, list_elem_of_omap.
  split; [by intros ([x|] & Hx & [= ->]) |]. intros Hk. by exists (Some k).
Qed.

(** *** The rows that [groupby] and [rolling] return *)

Lemma length_rolling_group fields g : length (rolling_group fields g) = length g.
Proof. apply length_imap. Qed.

Lemma rolling_group_keys on g :
  on ⊆ ["Store"; "Date"] ->
  key_of on <$> rolling_group event_fields g = key_of on <$> g.
Proof.
  intros Hon. apply list_eq. intros i. rewrite !list_lookup_fmap.
  destruct (rolling_group event_fields g !! i) as [r'|] eqn:Hr'.
  - destruct (rolling_group_lookup _ _ _ Hr') as (r & -> & HS & HD & _).
    simpl. f_equal. unfold key_of. apply list_fmap_ext.
    intros j c Hc. apply list_elem_of_lookup_2, Hon in Hc.
    repeat (apply elem_of_cons in Hc as [-> | Hc]); try done.
    by apply elem_of_nil in Hc.
  - apply lookup_ge_None in Hr'. rewrite length_rolling_group in Hr'.
    by rewrite (proj2 (lookup_ge_None g i) Hr').
Qed.

(** The keys of the rolling sums are the keys of the rows that have a
    store, each once per row. *)
Lemma rolling_rows_keys asc df sorted out on :
  on ⊆ ["Store"; "Date"] ->
  sort_index asc df = Done sorted -> groupby_rolling sorted = Done out ->
  key_of on <$> rows out
  ≡ₚ key_of on <$> filter (fun r => cell_of "Store" r ≠ None) (rows df).
Proof.
  intros Hon Hs Hg.
  rewrite (groupby_rolling_rows _ _ Hg), fmap_bind_list.
  rewrite (bind_ext_in _ (fun k => key_of on <$> group_rows k (rows sorted)))
    by (intros k _; by apply rolling_group_keys).
  rewrite <- fmap_bind_list. apply fmap_Permutation.
  unfold group_rows. rewrite groups_partition.
  - apply filter_Permutation. by apply sort_index_rows in Hs as [_ Hp].
  - apply group_keys_NoDup.
  - intros r k Hr Hk. apply elem_of_group_keys. rewrite <- Hk.
    by apply list_elem_of_fmap_2.
Qed.

(** X17. The backward and the forward rolling sums have one row for
    each row of the frame that has a store, with that row's [Store] and
    [Date]; rows whose [Store] is missing are left out by the
    grouping. *)
Theorem rolling_sums_rows df b fw :
  bwd df = Done b -> fwd df = Done fw ->
  let present := filter (fun r => cell_of "Store" r ≠ None) (rows df) in
  key_of ["Store"; "Date"] <$> rows b ≡ₚ key_of ["Store"; "Date"] <$> present
  /\ key_of ["Store"; "Date"] <$> rows fw
     ≡ₚ key_of ["Store"; "Date"] <$> present
  /\ len b = length present /\ len fw = length present
  /\ len b <= len df.
Proof.
  intros (asc & Ha & Hb)%bwd_inv (desc & Hd & Hf)%fwd_inv present.
  pose proof (rolling_rows_keys true df asc b ["Store"; "Date"]
                (fun x H => H) Ha Hb) as Kb.
  pose proof (rolling_rows_keys false df desc fw ["Store"; "Date"]
                (fun x H => H) Hd Hf) as Kf.
  fold present in Kb, Kf.
  split; [exact Kb |]. split; [exact Kf |].
  assert (len b = length present) as Lb
    by (apply Permutation_length in Kb; by rewrite !length_fmap in Kb).
  assert (len fw = length present) as Lf
    by (apply Permutation_length in Kf; by rewrite !length_fmap in Kf).
  split; [exact Lb |]. split; [exact Lf |].
  rewrite Lb. apply length_filter.
Qed.

Lemma rolling_sums_rows_witness :
  len nine_days_bwd = 9 /\ len nine_days_fwd = 9.
Proof.
  destruct (rolling_sums_rows nine_days nine_days_bwd nine_days_fwd
              nine_days_bwd_run nine_days_fwd_run)
    as (_ & _ & Lb & Lf & _).
  split; [exact Lb | exact Lf].
Defined.

(** *** Attaching the sums *)

Lemma merge_left_unique df right left_on right_on sfx out :
  merge_left df right left_on right_on sfx = Done out ->
  NoDup (key_of right_on <$> rows right) ->
  len out = len df.
Proof.
  intros Hm Hnd. apply merge_left_rows in Hm. unfold len. rewrite Hm.
  apply bind_blocks_same_length, Forall_forall.
  intros l _. by apply unique_keys_hits.
Qed.

(** X18. When no two rows that have a store share their [Date] and
    [Store], attaching the backward and the forward sums keeps the
    number of rows: every row finds at most one row of sums. *)
Theorem rolling_cells_keeps_row_count df out :
  rolling_cells df = Done out ->
  NoDup (key_of ["Date"; "Store"]
           <$> filter (fun r => cell_of "Store" r ≠ None) (rows df)) ->
  len out = len df.
Proof.
  intros H Hnd. unfold rolling_cells in H.
  apply bind_inv in H as (b & Hb & H).
  apply bind_inv in H as (fw & Hf & H).
  apply bind_inv in H as (df1 & H1 & H2).
  apply bwd_inv in Hb as (asc & Ha & Hb).
  apply fwd_inv in Hf as (desc & Hd & Hf).
  assert (["Date"; "Store"] ⊆ ["Store"; "Date"]) as Hon.
  { intros x Hx. repeat (apply elem_of_cons in Hx as [-> | Hx]).
    - right. left.
    - left.
    - by apply elem_of_nil in Hx. }
  rewrite (merge_left_unique _ _ _ _ _ _ H2).
  - apply (merge_left_unique _ _ _ _ _ _ H1).
    by rewrite (rolling_rows_keys true df asc b _ Hon Ha Hb).
  - by rewrite (rolling_rows_keys false df desc fw _ Hon Hd Hf).
Qed.

Lemma nine_days_rolled_run : rolling_cells nine_days = Done nine_days_rolled.
Proof. vm_compute. reflexivity. Qed.

Lemma nine_days_keys :
  NoDup (key_of ["Date"; "Store"]
           <$> filter (fun r => cell_of "Store" r ≠ None) (rows nine_days)).
Proof. apply (bool_decide_unpack _). by vm_compute. Qed.

Lemma rolling_cells_keeps_row_count_witness : len nine_days_rolled = 9.
Proof.
  exact (rolling_cells_keeps_row_count nine_days nine_days_rolled
           nine_days_rolled_run nine_days_keys).
Defined.

End RollingRows.

(** ** Empty frames, absent columns and [append] *)

Module EdgeFacts.
Import Series Frame Notebook Vocabulary JoinVocabulary Samples SortFacts.
Import JoinFacts ElapsedFacts ElapsedFrame TableSamples TableFacts.

(** *** The event-distance cell *)

Lemma sort_values_source df :
  source_columns ⊆ columns df ->
  exists pdf,
    sort_values ["Store"; "Date"] true df = Done pdf
    /\ columns pdf = columns df /\ rows pdf ≡ₚ rows df.
Proof.
  intros Hcols.
  assert (exists pdf, sort_values ["Store"; "Date"] true df = Done pdf)
    as [pdf Hpdf].
  { unfold sort_values. rewrite check_columns_Done; [by eexists |].
    intros c Hc. apply Hcols. unfold source_columns.
    pick_field Hc; [left | right; left]. }
  exists pdf. split; [done |].
  split; [by apply sort_values_rows in Hpdf as [? _]
         | by apply sort_values_sorted in Hpdf as [_ ?]].
Qed.

Lemma get_elapsed_empty pdf :
  "Store" ∈ columns pdf -> rows pdf = [] -> get_elapsed pdf = Raised ValueError.
Proof.
  intros HS Hnil. unfold get_elapsed.
  rewrite (getitem_Done _ _ HS), bind_Done.
  unfold column. by rewrite Hnil.
Qed.

(** X19. On a frame that has the store, date and indicator columns the
    event-distance cell returns exactly when the frame has at least one
    row; on an empty frame it raises [ValueError]: the one-element
    series appended for the last row cannot take the empty index. *)
Theorem event_distance_returns_iff_rows df :
  source_columns ⊆ columns df ->
  ((exists out, event_distance df = Done out) <-> rows df ≠ [])
  /\ (rows df = [] -> event_distance df = Raised ValueError).
Proof.
  intros Hcols.
  destruct (sort_values_source df Hcols) as (pdf & Hpdf & Hc & Hperm).
  assert (rows df = [] -> event_distance df = Raised ValueError) as Hempty.
  { intros Hnil. unfold event_distance. rewrite Hpdf, bind_Done.
    apply get_elapsed_empty.
    - rewrite Hc. apply Hcols. left.
    - rewrite Hnil in Hperm. by apply Permutation_nil_r in Hperm. }
  split; [| exact Hempty]. split.
  - intros [out Hout] Hnil. by rewrite (Hempty Hnil) in Hout.
  - intros Hne. unfold event_distance. rewrite Hpdf, bind_Done.
    destruct (get_elapsed_columns pdf) as (out & Hout & _).
    + by rewrite Hc.
    + intros Hnil. rewrite Hnil in Hperm. by apply Permutation_nil in Hperm.
    + by exists out.
Qed.

Lemma event_distance_returns_iff_rows_witness :
  event_distance (mk_df source_columns []) = Raised ValueError.
Proof.
  destruct (event_distance_returns_iff_rows (mk_df source_columns []))
    as [_ Hempty]; [done |].
  by apply Hempty.
Defined.

(** *** [append] *)




End EdgeFacts.

(** ** Splitting text *)

Module TextFacts.
Import Stdlib.Strings.Ascii Frame Text.

(** *** Text *)

Lemma append_cons c (a b : string) : String c a +:+ b = String c (a +:+ b).
Proof. reflexivity. Qed.

Lemma append_empty_r (s : string) : s +:+ "" = s.
Proof. induction s as [|c s IH]; [done |]. by rewrite append_cons, IH. Qed.

Lemma append_assoc (a b c : string) : (a +:+ b) +:+ c = a +:+ (b +:+ c).
Proof. induction a as [|x a IH]; [done |]. by rewrite !append_cons, IH. Qed.

Lemma prefix_drop (p s : string) :
  String.prefix p s = true ->
  s = p +:+ string_drop (String.length p) s
  /\ String.length p <= String.length s.
Proof.
  revert s. induction p as [|x p IH]; intros s Hp; [simpl; split; [done | lia] |].
  destruct s as [|y s]; [done |]. simpl in Hp.
  destruct (Ascii.ascii_dec x y) as [-> |]; [| done].
  destruct (IH s Hp) as [Hs Hl]. cbn [String.length string_drop].
  rewrite append_cons, <- Hs. split; [done | lia].
Qed.

Lemma concat_cons_more sep x (l : list string) :
  l ≠ [] -> String.concat sep (x :: l) = x +:+ sep +:+ String.concat sep l.
Proof. by destruct l. Qed.

(** *** [str_split] *)

Lemma split_from_nonempty sep s : forall n acc, split_from sep n acc s ≠ [].
Proof.
  induction s as [|c s IH]; intros n acc; [done |].
  cbn [split_from]. destruct n as [|n]; [| apply IH].
  destruct (String.prefix sep (String c s)); [done | apply IH].
Qed.

Lemma concat_split_from sep s :
  sep ≠ "" ->
  forall n acc,
    n <= String.length s ->
    String.concat sep (split_from sep n acc s) = acc +:+ string_drop n s.
Proof.
  intros Hsep. induction s as [|c s IH]; intros n acc Hn.
  - cbn [String.length] in Hn. replace n with 0 by lia.
    cbn [split_from string_drop String.concat]. by rewrite append_empty_r.
  - destruct n as [|n].
    + cbn [split_from string_drop].
      destruct (String.prefix sep (String c s)) eqn:Hp.
      * rewrite concat_cons_more by apply split_from_nonempty.
        destruct (prefix_drop _ _ Hp) as [Hs Hl].
        destruct sep as [|a sep']; [done |].
        cbn [String.length string_drop] in Hs, Hl |- *.
        rewrite Nat.sub_1_r. cbn [Nat.pred].
        rewrite IH by lia. by rewrite Hs.
      * rewrite IH by lia. cbn [string_drop]. by rewrite append_assoc.
    + cbn [split_from string_drop]. apply IH. cbn [String.length] in Hn. lia.
Qed.

Lemma prefix_char c x s :
  String.prefix (String c "") (String x s) = bool_decide (c = x).
Proof.
  cbn [String.prefix]. destruct (Ascii.ascii_dec c x).
  - rewrite bool_decide_eq_true_2 by done. by destruct s.
  - by rewrite bool_decide_eq_false_2.
Qed.

Lemma split_free c a b :
  free_of c a ->
  forall acc,
    split_from (String c "") 0 acc (a +:+ String c b)
    = (acc +:+ a) :: str_split (String c "") b.
Proof.
  induction a as [|x a IH]; intros Ha acc.
  - change ("" +:+ String c b) with (String c b).
    cbn [split_from]. rewrite prefix_char, bool_decide_eq_true_2 by done.
    by rewrite append_empty_r.
  - destruct Ha as [Hx Ha]. rewrite append_cons.
    cbn [split_from]. rewrite prefix_char, bool_decide_eq_false_2 by done.
    rewrite (IH Ha). by rewrite append_assoc.
Qed.

Lemma split_free_last c a :
  free_of c a -> forall acc, split_from (String c "") 0 acc a = [acc +:+ a].
Proof.
  induction a as [|x a IH]; intros Ha acc.
  - cbn [split_from]. by rewrite append_empty_r.
  - destruct Ha as [Hx Ha].
    cbn [split_from]. rewrite prefix_char, bool_decide_eq_false_2 by done.
    rewrite (IH Ha). by rewrite append_assoc.
Qed.

(** X21. Joining the pieces of [str_split] with the separator gives the
    text back, for every separator that is not empty; and [str_split]
    always returns at least one piece. *)
Theorem split_then_join sep s :
  sep ≠ "" ->
  String.concat sep (str_split sep s) = s /\ str_split sep s ≠ [].
Proof.
  intros Hsep. split; [| apply split_from_nonempty].
  unfold str_split. rewrite concat_split_from by (done || lia). done.
Qed.

Lemma split_then_join_witness :
  String.concat " - " (str_split " - " "2012-12-02 - 2012-12-08")
  = "2012-12-02 - 2012-12-08".
Proof. by apply (split_then_join " - " "2012-12-02 - 2012-12-08"). Defined.

(** *** [expand] *)

Lemma width_ge {A} (f : A -> nat) (l : list A) x :
  x ∈ l -> f x <= max_list_with f l.
Proof.
  induction 1 as [x l | x y l _ IH]; simpl; lia.
Qed.

Lemma width_reached {A} (f : A -> nat) (l : list A) k :
  k < max_list_with f l -> exists x, x ∈ l /\ k < f x.
Proof.
  induction l as [|x l IH]; simpl; [lia |]. intros Hk.
  destruct (decide (k < f x)) as [Hx | Hx].
  - exists x. split; [left | done].
  - destruct IH as (y & Hy & Hky); [lia |]. exists y. split; [by right | done].
Qed.

Lemma split_three a1 a2 a3 :
  free_of "_"%char a1 -> free_of "_"%char a2 -> free_of "_"%char a3 ->
  str_split "_" (a1 +:+ "_" +:+ a2 +:+ "_" +:+ a3) = [a1; a2; a3].
Proof.
  intros H1 H2 H3. unfold str_split at 1.
  change ("_" +:+ a2 +:+ "_" +:+ a3) with (String "_" (a2 +:+ String "_" a3)).
  rewrite (split_free _ _ _ H1). unfold str_split at 1.
  rewrite (split_free _ _ _ H2). unfold str_split.
  by rewrite (split_free_last _ _ H3).
Qed.

Lemma split_two a1 a2 :
  free_of "_"%char a1 -> free_of "_"%char a2 ->
  str_split "_" (a1 +:+ "_" +:+ a2) = [a1; a2].
Proof.
  intros H1 H2. unfold str_split at 1.
  change ("_" +:+ a2) with (String "_" a2).
  rewrite (split_free _ _ _ H1). unfold str_split.
  by rewrite (split_free_last _ _ H2).
Qed.


(** [split_expand] returns exactly when some text has more than [k]
    pieces. *)
Lemma split_expand_returns sep k (col : TextSeries) :
  (exists out, split_expand sep k col = Done out)
  <-> exists text, Some text ∈ col /\ k < length (str_split sep text).
Proof.
  unfold split_expand.
  set (pieces := (fun c : option string => str_split sep <$> c) <$> col).
  assert (k < max_list_with (from_option length 0) pieces
          <-> exists text, Some text ∈ col /\ k < length (str_split sep text))
    as Hwide.
  { split.
    - intros ([l|] & Hin & Hl)%width_reached; simpl in Hl; [| lia].
      apply list_elem_of_fmap in Hin as ([text|] & [= ->] & Hin).
      by exists text.
    - intros (text & Hin & Hl).
      eapply Nat.lt_le_trans;
        [exact Hl
        | apply (width_ge (from_option length 0) pieces
                   (Some (str_split sep text)))].
      apply list_elem_of_fmap. by exists (Some text). }
  rewrite <- Hwide. case_decide; split; try done; [by eexists | by intros []].
Qed.

Lemma split_expand_raises sep k (col : TextSeries) :
  (forall text, Some text ∈ col -> length (str_split sep text) <= k) ->
  split_expand sep k col = Raised (KeyError (pretty k)).
Proof.
  intros Hshort.
  destruct (split_expand sep k col) as [out | e] eqn:H.
  - assert (exists out, split_expand sep k col = Done out) as Hret
      by by exists out.
    apply split_expand_returns in Hret as (text & Hin & Hl).
    specialize (Hshort text Hin). lia.
  - unfold split_expand in H. by case_decide.
Qed.

Lemma split_expand_lookup sep k (col out : TextSeries) i :
  split_expand sep k col = Done out ->
  length out = length col
  /\ out !! i = (fun c : option string => c ≫= (fun s => str_split sep s !! k))
                <$> col !! i.
Proof.
  unfold split_expand. case_decide; [| done]. intros [= <-].
  split; [by rewrite !length_fmap |].
  rewrite !list_lookup_fmap. by destruct (col !! i) as [[s|]|].
Qed.

(** X22. The state of a trend file.  [trend_state] returns exactly when
    some file name has at least three pieces between underscores, and
    raises [KeyError] otherwise.  When it returns, a name of the form
    [a_b_state] gives [state], a name with only two pieces gives a
    null, and a null name gives a null. *)
Theorem trend_state_third_piece file :
  ((exists col, trend_state file = Done col)
   <-> exists name, Some name ∈ file /\ 2 < length (str_split "_" name))
  /\ ((forall name, Some name ∈ file -> length (str_split "_" name) <= 2) ->
      trend_state file = Raised (KeyError "2"))
  /\ (forall col i,
        trend_state file = Done col ->
        length col = length file
        /\ (forall a1 a2 st,
              free_of "_"%char a1 -> free_of "_"%char a2 ->
              free_of "_"%char st ->
              file !! i = Some (Some (a1 +:+ "_" +:+ a2 +:+ "_" +:+ st)) ->
              col !! i = Some (Some st))
        /\ (forall a1 a2,
              free_of "_"%char a1 -> free_of "_"%char a2 ->
              file !! i = Some (Some (a1 +:+ "_" +:+ a2)) ->
              col !! i = Some None)
        /\ (file !! i = Some None -> col !! i = Some None)).
Proof.
  unfold trend_state. split; [apply split_expand_returns | split].
  - apply split_expand_raises.
  - intros col i [Hlen Hi]%(split_expand_lookup _ _ _ _ i).
    split; [done |]. rewrite Hi. split; [| split].
    + intros a1 a2 st H1 H2 H3 ->. simpl. by rewrite split_three.
    + intros a1 a2 H1 H2 ->. simpl. by rewrite split_two.
    + by intros ->.
Qed.


End TextFacts.
